(** * MarketPulse-AI: the signal generation engine ([signal_engine.py])

    A shallow embedding of [SignalEngine.generate_signal],
    [SignalEngine._calculate_risk], [SignalEngine._calculate_swing_trade_levels]
    and of the module-level [generate_signal] wrapper, followed by the
    properties of the engine that the specification states.  Line numbers
    are those of [signal_engine.py].

    Modelling choices.
    - Python numbers are exact rationals ([Q]).  Rounding, infinities and NaN
      of binary floating point are outside the model; every comparison and
      every branch of the source is kept.
    - A dictionary is a record with one field per key the engine reads.  A
      field is an [entry]: the key is missing, bound to [None], or bound to a
      value.  [dict.get(k)] and [dict.get(k, default)] are [get] and
      [get_default].  Values are taken to have the type the producers of the
      repository give them (number, boolean, string, dictionary) or to be
      [None].
    - Python exceptions are values of an error monad ([result]); reading a
      key of [None], comparing [None] with a number and dividing by zero
      raise, as in Python.
    - Reason strings are built as the f-strings of the source build them;
      [format_f] is the [:.Nf] presentation of a number.
    - [update_rules] and the traceback text of the error dictionary are not
      modelled.

    The second part of the definitions embeds the producers of the engine's
    inputs and its two callers: the sentiment analyzer
    ([sentiment_analyzer.py]), [get_news] ([news_api.py]),
    [get_technical_indicators] ([market_data.py]),
    [get_enhanced_technical_indicators] ([enhanced_indicators.py]),
    [analyze_stock] ([main.py]) and [analyze_stock_web] ([app_enhanced.py]).
    - Requests, the sentiment model and the indicator library are outside
      the code: what they return is an argument of the function that calls
      them (the answer of the news request, the pipeline, the results of the
      fetches, the outputs of the calculators on a price history).
    - Text is ASCII; printing is left out, except where it can raise.
    - A producer returns its own dictionary; the keys of it that the engine
      reads are given by [sentiment_data_of], [news_data_of],
      [technical_data_of] and [enhanced_data_of]. *)

From Stdlib Require Import QArith Qabs ZArith String List Bool Lia Lqa DecimalString.
Import ListNotations.

Local Open Scope Q_scope.
Local Open Scope string_scope.

(** ** Python primitives *)

Module Py.

(** Exceptions the engine can raise, with [str(e)]. *)
Inductive exn : Type :=
| AttributeError (msg : string)
| TypeError (msg : string)
| ZeroDivisionError (msg : string).

Definition str_of_exn (e : exn) : string :=
  match e with
  | AttributeError m => m
  | TypeError m => m
  | ZeroDivisionError m => m
  end.

Inductive result (A : Type) : Type :=
| Ok (a : A)
| Raise (e : exn).

Arguments Ok {A} a.
Arguments Raise {A} e.

Definition bind {A B : Type} (c : result A) (k : A -> result B) : result B :=
  match c with
  | Ok a => k a
  | Raise e => Raise e
  end.

(** What a dictionary holds under one key. *)
Inductive entry (A : Type) : Type :=
| Missing
| IsNone
| Bound (a : A).

Arguments Missing {A}.
Arguments IsNone {A}.
Arguments Bound {A} a.

(** [d.get(k)]: [None] when the key is missing or bound to [None]. *)
Definition get {A : Type} (e : entry A) : option A :=
  match e with
  | Bound a => Some a
  | _ => None
  end.

(** [d.get(k, default)]. *)
Definition get_default {A : Type} (e : entry A) (default : A) : option A :=
  match e with
  | Missing => Some default
  | IsNone => None
  | Bound a => Some a
  end.

Definition is_missing {A : Type} (e : entry A) : bool :=
  match e with
  | Missing => true
  | _ => false
  end.

(** Comparisons of numbers. *)
Definition ltb (x y : Q) : bool := negb (Qle_bool y x).
Definition leb (x y : Q) : bool := Qle_bool x y.
Definition gtb (x y : Q) : bool := ltb y x.
Definition geb (x y : Q) : bool := leb y x.

(** Truth value of a number: zero is false. *)
Definition is_true (x : Q) : bool := negb (Qeq_bool x 0).

(** Truth value of a variable holding a number or [None]: [nonzero v] is
    [Some x] exactly when [if v:] takes the branch. *)
Definition nonzero (v : option Q) : option Q :=
  match v with
  | Some x => if is_true x then Some x else None
  | None => None
  end.

(** The condition [v and p(v)] on a variable holding a number or [None]. *)
Definition num_and (v : option Q) (p : Q -> bool) : bool :=
  match nonzero v with
  | Some x => p x
  | None => false
  end.

(** [max(a, b)] and [min(a, b)]: the first argument wins ties. *)
Definition max2 (a b : Q) : Q := if gtb b a then b else a.
Definition min2 (a b : Q) : Q := if ltb b a then b else a.

(** [max(l)] of a list with head [a] and tail [l]. *)
Definition max_list (a : Q) (l : list Q) : Q := fold_left max2 l a.

(** [a / b]. *)
Definition div (a b : Q) : result Q :=
  if Qeq_bool b 0 then Raise (ZeroDivisionError "float division by zero")
  else Ok (a / b).

(** [l.append(x)]. *)
Definition append_item (l : list string) (x : string) : list string := (l ++ [x])%list.

(** [sep.join(l)]. *)
Definition join (sep : string) (l : list string) : string := String.concat sep l.

(** [str(n)] of an integer. *)
Definition str_of_int (n : Z) : string := NilZero.string_of_int (Z.to_int n).

Definition round_half_even (n d : Z) : Z :=
  let q := (n / d)%Z in
  match (2 * (n mod d) ?= d)%Z with
  | Lt => q
  | Gt => (q + 1)%Z
  | Eq => if Z.even q then q else (q + 1)%Z
  end.

Fixpoint zero_pad (width : nat) (s : string) : string :=
  match width with
  | O => s
  | S w => if (String.length s <? width)%nat then zero_pad w ("0" ++ s) else s
  end.

(** [f"{x:.Nf}"] with [N = prec]. *)
Definition format_f (prec : nat) (x : Q) : string :=
  let p := (10 ^ Z.of_nat prec)%Z in
  let m := round_half_even (Z.abs (Qnum x) * p) (Zpos (Qden x)) in
  let sign := if (Qnum x <? 0)%Z then "-" else "" in
  let int_part := str_of_int (m / p) in
  match prec with
  | O => sign ++ int_part
  | _ => sign ++ int_part ++ "." ++ zero_pad prec (str_of_int (m mod p))
  end.

End Py.

Import Py.

Notation "x <- c ;; k" := (bind c (fun x => k))
  (at level 61, c at next level, right associativity).

(** Take the successful branch of the first call of a sequence. *)
Ltac bind_inv H :=
  match type of H with
  | bind ?c _ = Ok _ =>
      let E := fresh "E" in
      destruct c eqn:E; cbn [bind] in H; [ | discriminate H ]
  end.

(** Walk a failing sequence: the first call succeeded and the rest failed,
    or the first call is the one that failed. *)
Ltac raise_inv H :=
  match type of H with
  | bind ?c _ = Raise _ =>
      let E := fresh "E" in
      destruct c eqn:E; cbn [bind] in H; [ | inversion H; subst; clear H ]
  end.

(** ** The dictionaries the engine reads *)

(** [technical_data['macd']] *)
Record macd_dict : Type := {
  macd_macd : entry Q;
  macd_signal : entry Q;
  macd_histogram : entry Q }.

(** [technical_data['bollinger']] *)
Record bollinger_dict : Type := {
  bollinger_upper : entry Q;
  bollinger_lower : entry Q;
  bollinger_percent_b : entry Q }.

(** [technical_data['stochastic']] *)
Record stochastic_dict : Type := {
  stochastic_k : entry Q }.

(** [technical_data['adx']] *)
Record adx_dict : Type := {
  adx_adx : entry Q;
  adx_di_plus : entry Q;
  adx_di_minus : entry Q }.

(** [technical_data['moving_averages']] *)
Record ma_dict : Type := {
  ma_sma_20 : entry Q;
  ma_sma_50 : entry Q;
  ma_above_sma_20 : entry bool;
  ma_above_sma_50 : entry bool }.

Record technical_dict : Type := {
  td_rsi : entry Q;
  td_macd : entry macd_dict;
  td_bollinger : entry bollinger_dict;
  td_stochastic : entry stochastic_dict;
  td_adx : entry adx_dict;
  td_moving_averages : entry ma_dict;
  td_atr : entry Q }.

(** [sentiment_data['sentiment']] *)
Record sentiment_dict : Type := {
  sent_overall_score : entry Q;
  sent_label : entry string }.

(** [sentiment_data]; [sd_success] is the truth value of
    [sentiment_data.get('success')]. *)
Record sentiment_data_dict : Type := {
  sd_success : bool;
  sd_sentiment : entry sentiment_dict }.

Record news_dict : Type := {
  news_success : bool;
  news_count_entry : entry Z }.

Record price_dict : Type := {
  pd_price : entry Q;
  pd_change_percent : entry Q;
  pd_volume : entry Q }.

(** [stats_data['data']] *)
Record stats_dict : Type := {
  st_beta : entry Q;
  st_trailingPE : entry Q;
  st_debtToEquity : entry Q;
  st_fiftyTwoWeekHigh : entry Q;
  st_fiftyTwoWeekLow : entry Q;
  st_averageVolume : entry Q }.

Record stats_data_dict : Type := {
  sdd_success : bool;
  sdd_data : entry stats_dict }.

(** The empty dictionary [{}] at each record type. *)
Definition empty_macd : macd_dict := Build_macd_dict Missing Missing Missing.
Definition empty_bollinger : bollinger_dict := Build_bollinger_dict Missing Missing Missing.
Definition empty_stochastic : stochastic_dict := Build_stochastic_dict Missing.
Definition empty_adx : adx_dict := Build_adx_dict Missing Missing Missing.
Definition empty_ma : ma_dict := Build_ma_dict Missing Missing Missing Missing.
Definition empty_technical : technical_dict :=
  Build_technical_dict Missing Missing Missing Missing Missing Missing Missing.
Definition empty_sentiment : sentiment_dict := Build_sentiment_dict Missing Missing.
Definition empty_stats : stats_dict :=
  Build_stats_dict Missing Missing Missing Missing Missing Missing.

(** Truth value of a dictionary: it has a key.  Keys the engine never reads
    are not in the records; a dictionary holding only such keys takes the same
    branches as the empty one, since every read of it gives [None] or the
    default. *)
Definition bollinger_nonempty (d : bollinger_dict) : bool :=
  negb (is_missing (bollinger_upper d) && is_missing (bollinger_lower d)
        && is_missing (bollinger_percent_b d)).
Definition stochastic_nonempty (d : stochastic_dict) : bool :=
  negb (is_missing (stochastic_k d)).
Definition adx_nonempty (d : adx_dict) : bool :=
  negb (is_missing (adx_adx d) && is_missing (adx_di_plus d) && is_missing (adx_di_minus d)).
Definition ma_nonempty (d : ma_dict) : bool :=
  negb (is_missing (ma_sma_20 d) && is_missing (ma_sma_50 d)
        && is_missing (ma_above_sma_20 d) && is_missing (ma_above_sma_50 d)).
Definition price_nonempty (d : price_dict) : bool :=
  negb (is_missing (pd_price d) && is_missing (pd_change_percent d) && is_missing (pd_volume d)).

(** A variable that holds a dictionary or [None], tested with [if d:]. *)
Definition truthy_dict {D : Type} (nonempty : D -> bool) (d : option D) : option D :=
  match d with
  | Some x => if nonempty x then Some x else None
  | None => None
  end.

(** [d.get(...)] on a variable that holds a dictionary or [None]. *)
Definition attr_get {D : Type} (d : option D) : result D :=
  match d with
  | Some x => Ok x
  | None => Raise (AttributeError "'NoneType' object has no attribute 'get'")
  end.

(** ** Results *)

Inductive signal_t : Type := BUY | HOLD | SELL | ERROR.
Inductive risk_t : Type := Low | Medium | High.

(** [config.SIGNAL_RULES], the thresholds the engine reads. *)
Record rules_t : Type := {
  rules_BUY_sentiment_threshold : Q;
  rules_SELL_sentiment_threshold : Q }.

Definition SIGNAL_RULES : rules_t :=
  {| rules_BUY_sentiment_threshold := 0.3;
     rules_SELL_sentiment_threshold := -0.3 |}.

Record metrics_t : Type := {
  m_rsi : option Q;
  m_macd : option Q;
  m_macd_signal : option Q;
  m_macd_histogram : option Q;
  m_sentiment_score : option Q;
  m_sentiment_label : option string;
  m_price : option Q;
  m_change_pct : option Q;
  m_volume : option Q;
  m_avg_volume : option Q;
  m_beta : option Q;
  m_pe_ratio : option Q;
  m_debt_to_equity : option Q }.

(** The [recommendation] dictionary of the swing-trade planner. *)
Record recommendation_t : Type := {
  rec_action : signal_t;
  rec_current_price : Q;
  rec_entry_price : option Q;
  rec_target_price : option Q;
  rec_stop_loss : option Q;
  rec_risk_reward_ratio : option Q;
  rec_holding_period : option string;
  rec_notes : list string }.

(** The dictionary [SignalEngine.generate_signal] returns. *)
Record signal_result : Type := {
  res_signal : signal_t;
  res_confidence : Q;
  res_reasons : list string;
  res_metrics : metrics_t;
  res_risk_level : risk_t;
  res_news_count : Z;
  res_buy_score : Q;
  res_sell_score : Q;
  res_swing_trade : option recommendation_t }.

(** The dictionary the module-level [generate_signal] returns: the engine's
    dictionary with ['symbol'] and ['success'] added, or the error
    dictionary.  [resp_error] is the ['error'] key and [resp_result] holds
    the keys only the engine's dictionary has; the ['error_details']
    traceback text is not modelled. *)
Record response_t : Type := {
  resp_success : bool;
  resp_symbol : string;
  resp_signal : signal_t;
  resp_confidence : Q;
  resp_reasons : list string;
  resp_risk_level : risk_t;
  resp_error : option string;
  resp_result : option signal_result }.

(** Running totals of one side of the scorer: [buy_score], [buy_conditions]
    and [additional_buy_signals] (or their sell counterparts). *)
Record scoring : Type := {
  score : Q;
  conditions : list string;
  additional : list string }.

Definition scoring_init : scoring :=
  {| score := 0; conditions := []; additional := [] |}.

(** [conditions.append(msg); score += w] *)
Definition fire (st : scoring) (w : Q) (msg : string) : scoring :=
  {| score := score st + w;
     conditions := append_item (conditions st) msg;
     additional := additional st |}.

(** [additional_signals.append(msg); score += w] *)
Definition fire_additional (st : scoring) (w : Q) (msg : string) : scoring :=
  {| score := score st + w;
     conditions := conditions st;
     additional := append_item (additional st) msg |}.

(** [conditions.extend(additional_signals)] *)
Definition extend_additional (st : scoring) : scoring :=
  {| score := score st;
     conditions := conditions st ++ additional st;
     additional := additional st |}.

(** ** The engine *)

Module SignalEngine.

(** [buy_weights] and [sell_weights] of [generate_signal]. *)
Definition buy_weights_sentiment : Q := 0.20.
Definition buy_weights_rsi : Q := 0.25.
Definition buy_weights_macd : Q := 0.25.
Definition buy_weights_momentum : Q := 0.15.
Definition buy_weights_value : Q := 0.10.
Definition buy_weights_volume : Q := 0.05.

Definition sell_weights_sentiment : Q := 0.20.
Definition sell_weights_rsi : Q := 0.25.
Definition sell_weights_macd : Q := 0.25.
Definition sell_weights_momentum : Q := 0.15.
Definition sell_weights_risk : Q := 0.15.

(** Lines 109-117: the missing-data warning that opens [reasons]. *)
Definition missing_data (rsi macd_line signal_line : option Q) : list string :=
  (match rsi with None => ["RSI"] | Some _ => [] end)
  ++ (match macd_line, signal_line with
      | Some _, Some _ => []
      | _, _ => ["MACD"]
      end).

Definition missing_data_reasons (rsi macd_line signal_line : option Q) : list string :=
  match missing_data rsi macd_line signal_line with
  | [] => []
  | md => ["⚠️ Missing data: " ++ join ", " md]
  end.

(** *** Buy side, lines 119-239 *)

(** 1. Sentiment (20%), lines 131-137. *)
Definition buy_sentiment (rules : rules_t) (sentiment_score : option Q) (st : scoring)
  : result scoring :=
  match sentiment_score with
  | None => Raise (TypeError "'>=' not supported between instances of 'NoneType' and 'float'")
  | Some s =>
      if geb s (rules_BUY_sentiment_threshold rules) then
        Ok (fire st buy_weights_sentiment
              ("✓ Strong positive sentiment (" ++ format_f 2 s ++ ")"))
      else if geb s 0.1 then
        Ok (fire st (buy_weights_sentiment * 0.5)
              ("○ Moderately positive sentiment (" ++ format_f 2 s ++ ")"))
      else Ok st
  end.

(** 2. RSI (25%), lines 139-149. *)
Definition buy_rsi (rsi : option Q) (st : scoring) : scoring :=
  match rsi with
  | Some r =>
      if ltb r 30 then
        fire st buy_weights_rsi
          ("✓ RSI strongly oversold (" ++ format_f 1 r ++ " - great entry point)")
      else if ltb r 40 then
        fire st (buy_weights_rsi * 0.7)
          ("○ RSI moderately oversold (" ++ format_f 1 r ++ ")")
      else if ltb r 50 then
        fire st (buy_weights_rsi * 0.3)
          ("○ RSI neutral-low (" ++ format_f 1 r ++ ")")
      else st
  | None => st
  end.

(** 3. MACD (25%), lines 151-165. *)
Definition buy_macd (macd_line signal_line macd_histogram : option Q) (st : scoring)
  : scoring :=
  match macd_line, signal_line with
  | Some ml, Some sl =>
      let macd_diff := ml - sl in
      if gtb ml sl then
        let st1 :=
          if gtb macd_diff 0.5 then
            fire st buy_weights_macd
              ("✓ Strong MACD bullish crossover (Δ " ++ format_f 2 macd_diff ++ ")")
          else
            fire st (buy_weights_macd * 0.6)
              ("○ MACD bullish (" ++ format_f 2 macd_diff ++ ")") in
        match nonzero macd_histogram with
        | Some h =>
            if gtb h 0 then
              fire st1 0.05 ("✓ MACD histogram positive (" ++ format_f 2 h ++ ")")
            else st1
        | None => st1
        end
      else st
  | _, _ => st
  end.

(** [position_in_range], lines 169-170 and 282-283. *)
Definition position_in_range (current_price high low : Q) : result Q :=
  let price_range := high - low in
  if gtb price_range 0 then div (current_price - low) price_range else Ok 0.5.

(** 4. Price momentum (15%), lines 167-177. *)
Definition buy_momentum (current_price fifty_two_week_high fifty_two_week_low : option Q)
    (st : scoring) : result scoring :=
  match nonzero current_price, nonzero fifty_two_week_high, nonzero fifty_two_week_low with
  | Some p, Some h, Some l =>
      pos <- position_in_range p h l ;;
      if ltb pos 0.3 then
        Ok (fire st buy_weights_momentum
              ("✓ Near 52-week low (" ++ format_f 0 (pos * 100) ++ "% of range)"))
      else if ltb pos 0.5 then
        Ok (fire st (buy_weights_momentum * 0.5)
              ("○ Below midpoint of 52-week range (" ++ format_f 0 (pos * 100) ++ "%)"))
      else Ok st
  | _, _, _ => Ok st
  end.

(** 5. Valuation (10%), lines 179-186. *)
Definition buy_valuation (pe_ratio : option Q) (st : scoring) : scoring :=
  match pe_ratio with
  | Some pe =>
      if ltb pe 15 then
        fire st buy_weights_value ("✓ Attractive P/E ratio (" ++ format_f 1 pe ++ ")")
      else if ltb pe 25 then
        fire st (buy_weights_value * 0.5) ("○ Reasonable P/E ratio (" ++ format_f 1 pe ++ ")")
      else st
  | None => st
  end.

(** 6. Volume confirmation (5%), lines 188-191. *)
Definition buy_volume (volume avg_volume : option Q) (st : scoring) : result scoring :=
  match nonzero volume, nonzero avg_volume with
  | Some v, Some a =>
      if gtb v (a * 1.5) then
        ratio <- div v a ;;
        Ok (fire st buy_weights_volume
              ("✓ High volume confirmation (" ++ format_f 1 ratio ++ "x avg)"))
      else Ok st
  | _, _ => Ok st
  end.

(** Bollinger bands, lines 196-204. *)
Definition buy_bollinger (bollinger : option bollinger_dict) (current_price : option Q)
    (st : scoring) : result scoring :=
  match truthy_dict bollinger_nonempty bollinger, nonzero current_price with
  | Some bb, Some _ =>
      match get_default (bollinger_percent_b bb) 0.5 with
      | None => Raise (TypeError "'<' not supported between instances of 'NoneType' and 'float'")
      | Some percent_b =>
          if ltb percent_b 0.2 then
            Ok (fire_additional st 0.05
                  ("✓ BB oversold (B%=" ++ format_f 0 (percent_b * 100) ++ "%)"))
          else if ltb percent_b 0.4 then
            Ok (fire_additional st 0.02 "○ BB below midpoint")
          else Ok st
      end
  | _, _ => Ok st
  end.

(** Stochastic, lines 206-214. *)
Definition buy_stochastic (stochastic : option stochastic_dict) (st : scoring) : scoring :=
  match truthy_dict stochastic_nonempty stochastic with
  | Some d =>
      match nonzero (get (stochastic_k d)) with
      | Some stoch_k =>
          if ltb stoch_k 20 then
            fire_additional st 0.05 ("✓ Stochastic oversold (" ++ format_f 0 stoch_k ++ ")")
          else if ltb stoch_k 40 then
            fire_additional st 0.02 ("○ Stochastic low (" ++ format_f 0 stoch_k ++ ")")
          else st
      | None => st
      end
  | None => st
  end.

(** Truth value of a variable holding a boolean or [None]. *)
Definition flag (v : option bool) : bool :=
  match v with
  | Some b => b
  | None => false
  end.

(** [v is False] *)
Definition is_False (v : option bool) : bool :=
  match v with
  | Some b => negb b
  | None => false
  end.

(** Moving averages, lines 216-226. *)
Definition buy_moving_averages (ma_data : option ma_dict) (st : scoring) : scoring :=
  match truthy_dict ma_nonempty ma_data with
  | Some d =>
      let above_sma_20 := get (ma_above_sma_20 d) in
      let above_sma_50 := get (ma_above_sma_50 d) in
      if flag above_sma_20 && flag above_sma_50 then
        fire_additional st 0.05 "✓ Price above SMA 20 & 50"
      else if flag above_sma_20 then
        fire_additional st 0.02 "○ Price above SMA 20"
      else st
  | None => st
  end.

(** ADX, lines 228-236. *)
Definition buy_adx (adx_data : option adx_dict) (st : scoring) : scoring :=
  match truthy_dict adx_nonempty adx_data with
  | Some d =>
      match nonzero (get (adx_adx d)), nonzero (get (adx_di_plus d)),
            nonzero (get (adx_di_minus d)) with
      | Some adx_value, Some di_plus, Some di_minus =>
          if gtb adx_value 25 && gtb di_plus di_minus then
            fire_additional st 0.05 ("✓ Strong uptrend (ADX=" ++ format_f 0 adx_value ++ ")")
          else st
      | _, _, _ => st
      end
  | None => st
  end.

(** *** Sell side, lines 241-350 *)

(** 1. Sentiment (20%), lines 252-258. *)
Definition sell_sentiment (rules : rules_t) (sentiment_score : option Q) (st : scoring)
  : result scoring :=
  match sentiment_score with
  | None => Raise (TypeError "'<=' not supported between instances of 'NoneType' and 'float'")
  | Some s =>
      if leb s (rules_SELL_sentiment_threshold rules) then
        Ok (fire st sell_weights_sentiment
              ("⚠️ Negative sentiment (" ++ format_f 2 s ++ ")"))
      else if leb s (-0.1) then
        Ok (fire st (sell_weights_sentiment * 0.5)
              ("○ Moderately negative sentiment (" ++ format_f 2 s ++ ")"))
      else Ok st
  end.

(** 2. RSI overbought (25%), lines 260-267. *)
Definition sell_rsi (rsi : option Q) (st : scoring) : scoring :=
  match rsi with
  | Some r =>
      if gtb r 70 then
        fire st sell_weights_rsi
          ("⚠️ RSI overbought (" ++ format_f 1 r ++ " - take profits)")
      else if gtb r 60 then
        fire st (sell_weights_rsi * 0.6)
          ("○ RSI moderately high (" ++ format_f 1 r ++ ")")
      else st
  | None => st
  end.

(** 3. MACD bearish (25%), lines 269-278. *)
Definition sell_macd (macd_line signal_line : option Q) (st : scoring) : scoring :=
  match macd_line, signal_line with
  | Some ml, Some sl =>
      if ltb ml sl then
        let macd_diff := Qabs (ml - sl) in
        if gtb macd_diff 0.5 then
          fire st sell_weights_macd
            ("⚠️ Strong MACD bearish crossover (Δ -" ++ format_f 2 macd_diff ++ ")")
        else
          fire st (sell_weights_macd * 0.6)
            ("○ MACD bearish (Δ -" ++ format_f 2 macd_diff ++ ")")
      else st
  | _, _ => st
  end.

(** 4. Overextension (15%), lines 280-290. *)
Definition sell_overextension
    (current_price fifty_two_week_high fifty_two_week_low : option Q)
    (st : scoring) : result scoring :=
  match nonzero current_price, nonzero fifty_two_week_high, nonzero fifty_two_week_low with
  | Some p, Some h, Some l =>
      pos <- position_in_range p h l ;;
      if gtb pos 0.9 then
        Ok (fire st sell_weights_momentum
              ("⚠️ Near 52-week high (" ++ format_f 0 (pos * 100) ++ "% - overbought)"))
      else if gtb pos 0.7 then
        Ok (fire st (sell_weights_momentum * 0.5)
              ("○ Above 52-week midpoint (" ++ format_f 0 (pos * 100) ++ "%)"))
      else Ok st
  | _, _, _ => Ok st
  end.

(** 5. Risk factors (15%), lines 292-302: [risk_factors] is local to the
    block and joined into one condition. *)
Definition sell_risk_factors (beta debt_to_equity : option Q) (st : scoring) : scoring :=
  let '(risk_factors1, score1) :=
    match nonzero beta with
    | Some b =>
        if gtb b 1.5 then
          (["High volatility (β=" ++ format_f 2 b ++ ")"],
           score st + sell_weights_risk * 0.5)
        else ([], score st)
    | None => ([], score st)
    end in
  let '(risk_factors2, score2) :=
    match nonzero debt_to_equity with
    | Some d =>
        if gtb d 2.0 then
          (append_item risk_factors1 ("High debt/equity (" ++ format_f 2 d ++ ")"),
           score1 + sell_weights_risk * 0.5)
        else (risk_factors1, score1)
    | None => (risk_factors1, score1)
    end in
  {| score := score2;
     conditions :=
       match risk_factors2 with
       | [] => conditions st
       | _ => append_item (conditions st) ("⚠️ Risk: " ++ join ", " risk_factors2)
       end;
     additional := additional st |}.

(** Bollinger bands, lines 307-315. *)
Definition sell_bollinger (bollinger : option bollinger_dict) (current_price : option Q)
    (st : scoring) : result scoring :=
  match truthy_dict bollinger_nonempty bollinger, nonzero current_price with
  | Some bb, Some _ =>
      match get_default (bollinger_percent_b bb) 0.5 with
      | None => Raise (TypeError "'>' not supported between instances of 'NoneType' and 'float'")
      | Some percent_b =>
          if gtb percent_b 0.8 then
            Ok (fire_additional st 0.05
                  ("⚠️ BB overbought (B%=" ++ format_f 0 (percent_b * 100) ++ "%)"))
          else if gtb percent_b 0.6 then
            Ok (fire_additional st 0.02 "○ BB above midpoint")
          else Ok st
      end
  | _, _ => Ok st
  end.

(** Stochastic, lines 317-325. *)
Definition sell_stochastic (stochastic : option stochastic_dict) (st : scoring) : scoring :=
  match truthy_dict stochastic_nonempty stochastic with
  | Some d =>
      match nonzero (get (stochastic_k d)) with
      | Some stoch_k =>
          if gtb stoch_k 80 then
            fire_additional st 0.05
              ("⚠️ Stochastic overbought (" ++ format_f 0 stoch_k ++ ")")
          else if gtb stoch_k 60 then
            fire_additional st 0.02 ("○ Stochastic high (" ++ format_f 0 stoch_k ++ ")")
          else st
      | None => st
      end
  | None => st
  end.

(** Moving averages, lines 327-337. *)
Definition sell_moving_averages (ma_data : option ma_dict) (st : scoring) : scoring :=
  match truthy_dict ma_nonempty ma_data with
  | Some d =>
      let above_sma_20 := get (ma_above_sma_20 d) in
      let above_sma_50 := get (ma_above_sma_50 d) in
      if is_False above_sma_20 && is_False above_sma_50 then
        fire_additional st 0.05 "⚠️ Price below SMA 20 & 50"
      else if is_False above_sma_20 then
        fire_additional st 0.02 "○ Price below SMA 20"
      else st
  | None => st
  end.

(** ADX, lines 339-347. *)
Definition sell_adx (adx_data : option adx_dict) (st : scoring) : scoring :=
  match truthy_dict adx_nonempty adx_data with
  | Some d =>
      match nonzero (get (adx_adx d)), nonzero (get (adx_di_plus d)),
            nonzero (get (adx_di_minus d)) with
      | Some adx_value, Some di_plus, Some di_minus =>
          if gtb adx_value 25 && gtb di_minus di_plus then
            fire_additional st 0.05 ("⚠️ Strong downtrend (ADX=" ++ format_f 0 adx_value ++ ")")
          else st
      | _, _, _ => st
      end
  | None => st
  end.

(** *** [_calculate_risk], lines 429-451 *)
Definition _calculate_risk (beta debt_to_equity rsi : option Q) : risk_t :=
  let risk_score0 := 0%Z in
  let risk_score1 :=
    match nonzero beta with
    | Some b =>
        if gtb b 1.5 then (risk_score0 + 2)%Z
        else if gtb b 1.2 then (risk_score0 + 1)%Z
        else risk_score0
    | None => risk_score0
    end in
  let risk_score2 :=
    match nonzero debt_to_equity with
    | Some d =>
        if gtb d 2.0 then (risk_score1 + 2)%Z
        else if gtb d 1.0 then (risk_score1 + 1)%Z
        else risk_score1
    | None => risk_score1
    end in
  let risk_score :=
    match nonzero rsi with
    | Some r => if gtb r 75 || ltb r 25 then (risk_score2 + 1)%Z else risk_score2
    | None => risk_score2
    end in
  if (4 <=? risk_score)%Z then High
  else if (2 <=? risk_score)%Z then Medium
  else Low.

(** *** The final signal, lines 352-400 *)

Record decision : Type := {
  dec_signal : signal_t;
  dec_confidence : Q;
  dec_reasons : list string;
  dec_risk_level : risk_t }.

Definition resolve (reasons : list string) (buy sell : scoring)
    (beta debt_to_equity rsi : option Q) : decision :=
  let buy_score := score buy in
  let sell_score := score sell in
  let buy_conditions := conditions buy in
  let sell_conditions := conditions sell in
  if geb buy_score 0.65 && ltb sell_score 0.3 then
    {| dec_signal := BUY;
       dec_confidence := min2 (buy_score * 0.85 + 0.15) 0.95;
       dec_reasons := reasons ++ buy_conditions;
       dec_risk_level := _calculate_risk beta debt_to_equity rsi |}
  else if geb sell_score 0.60 && ltb buy_score 0.3 then
    {| dec_signal := SELL;
       dec_confidence := min2 (sell_score * 0.85 + 0.15) 0.95;
       dec_reasons := reasons ++ sell_conditions;
       dec_risk_level := High |}
  else if gtb buy_score sell_score && geb buy_score 0.45 then
    {| dec_signal := BUY;
       dec_confidence := min2 (0.55 + (buy_score - sell_score) * 0.5) 0.75;
       dec_reasons := reasons ++ firstn 3 buy_conditions;
       dec_risk_level := _calculate_risk beta debt_to_equity rsi |}
  else if gtb sell_score buy_score && geb sell_score 0.45 then
    {| dec_signal := SELL;
       dec_confidence := min2 (0.55 + (sell_score - buy_score) * 0.5) 0.75;
       dec_reasons := reasons ++ firstn 3 sell_conditions;
       dec_risk_level := High |}
  else
    let score_diff := Qabs (buy_score - sell_score) in
    let '(confidence, reasons1) :=
      if ltb score_diff 0.1 then
        (0.35, append_item reasons "⊙ Highly uncertain - signals are balanced")
      else
        (0.45 + score_diff * 0.2,
         append_item reasons "⊙ Mixed signals - wait for clearer direction") in
    let reasons2 :=
      match buy_conditions with
      | b :: _ => append_item reasons1 ("Bullish: " ++ b)
      | [] => reasons1
      end in
    let reasons3 :=
      match sell_conditions with
      | s :: _ => append_item reasons2 ("Bearish: " ++ s)
      | [] => reasons2
      end in
    {| dec_signal := HOLD;
       dec_confidence := confidence;
       dec_reasons := reasons3;
       dec_risk_level := _calculate_risk beta debt_to_equity rsi |}.

(** *** [_calculate_swing_trade_levels], lines 453-663 *)

(** Lines 486-492: the 52-week levels read from [stats_data]. *)
Definition fifty_two_week_levels (stats_data : option stats_data_dict)
  : result (option Q * option Q) :=
  match stats_data with
  | Some sd =>
      if sdd_success sd then
        stats <- attr_get (get_default (sdd_data sd) empty_stats) ;;
        Ok (get (st_fiftyTwoWeekHigh stats), get (st_fiftyTwoWeekLow stats))
      else Ok (None, None)
  | None => Ok (None, None)
  end.

(** Lines 513-528: entry price and its note. *)
Definition buy_entry (current_price : Q) (rsi bb_lower sma_20 : option Q) : Q * string :=
  if num_and rsi (fun r => ltb r 40) then
    (current_price, "✓ Oversold - enter at market price")
  else if num_and bb_lower (fun bl => ltb current_price (bl * 1.02)) then
    (current_price, "✓ Near support - enter at market price")
  else
    let pullback_price := current_price * 0.98 in
    let pullback_price :=
      match nonzero sma_20 with
      | Some s => min2 pullback_price s
      | None => pullback_price
      end in
    (pullback_price, "○ Wait for pullback to $" ++ format_f 2 pullback_price).

(** Lines 534-548: target price. *)
Definition buy_targets (current_price : Q) (bb_upper sma_50 fifty_two_week_high : option Q)
  : list Q :=
  ((match nonzero bb_upper with Some u => [u] | None => [] end)
   ++ (match nonzero sma_50 with
       | Some s => if gtb s current_price then [s] else []
       | None => []
       end)
   ++ (match nonzero fifty_two_week_high with
       | Some h => [current_price + (h - current_price) * 0.5]
       | None => []
       end))%list.

Definition buy_target (current_price confidence : Q)
    (bb_upper sma_50 fifty_two_week_high : option Q) : Q :=
  match buy_targets current_price bb_upper sma_50 fifty_two_week_high with
  | t :: ts => max_list t ts
  | [] =>
      let gain_pct := 0.08 + confidence * 0.08 in
      current_price * (1 + gain_pct)
  end.

(** Lines 554-568: stop loss. *)
Definition buy_stops (current_price entry_price atr_value : Q)
    (bb_lower sma_20 fifty_two_week_low : option Q) : list Q :=
  ([entry_price - atr_value * 2]
   ++ (match nonzero bb_lower with Some bl => [bl * 0.98] | None => [] end)
   ++ (match nonzero sma_20 with
       | Some s => if ltb s current_price then [s * 0.97] else []
       | None => []
       end)
   ++ (match nonzero fifty_two_week_low with
       | Some l => [max2 (l * 1.02) (current_price * 0.90)]
       | None => []
       end))%list.

Definition buy_stop_loss (current_price entry_price atr_value : Q)
    (bb_lower sma_20 fifty_two_week_low : option Q) : Q :=
  let stop_loss :=
    match buy_stops current_price entry_price atr_value bb_lower sma_20 fifty_two_week_low with
    | s :: ss => max_list s ss
    | [] => entry_price * 0.94
    end in
  max2 stop_loss (entry_price * 0.92).

(** Lines 570-573: risk/reward. *)
Definition risk_reward (entry_price target_price stop_loss : Q) : result Q :=
  let risk := entry_price - stop_loss in
  let reward := target_price - entry_price in
  if gtb risk 0 then div reward risk else Ok 0.

(** Lines 508-587: the BUY branch. *)
Definition plan_buy (current_price confidence atr_value : Q) (rsi : option Q)
    (bollinger : option bollinger_dict) (ma_data : option ma_dict)
    (fifty_two_week_high fifty_two_week_low : option Q) : result recommendation_t :=
  bb <- attr_get bollinger ;;
  let bb_lower := get (bollinger_lower bb) in
  ma <- attr_get ma_data ;;
  let sma_20 := get (ma_sma_20 ma) in
  let '(entry_price, entry_note) := buy_entry current_price rsi bb_lower sma_20 in
  let bb_upper := get (bollinger_upper bb) in
  let sma_50 := get (ma_sma_50 ma) in
  let target_price := buy_target current_price confidence bb_upper sma_50 fifty_two_week_high in
  let stop_loss :=
    buy_stop_loss current_price entry_price atr_value bb_lower sma_20 fifty_two_week_low in
  risk_reward_ratio <- risk_reward entry_price target_price stop_loss ;;
  let holding_period := if gtb confidence 0.7 then "5-15 days" else "10-30 days" in
  let ratio_note :=
    if geb risk_reward_ratio 2 then
      "✓ Excellent R:R ratio " ++ format_f 1 risk_reward_ratio ++ ":1"
    else if geb risk_reward_ratio 1.5 then
      "○ Good R:R ratio " ++ format_f 1 risk_reward_ratio ++ ":1"
    else
      "⚠️ Low R:R ratio " ++ format_f 1 risk_reward_ratio ++ ":1 - wait for better setup" in
  Ok {| rec_action := BUY;
        rec_current_price := current_price;
        rec_entry_price := Some entry_price;
        rec_target_price := Some target_price;
        rec_stop_loss := Some stop_loss;
        rec_risk_reward_ratio := Some risk_reward_ratio;
        rec_holding_period := Some holding_period;
        rec_notes := [entry_note; ratio_note] |}.

(** Lines 589-599: the SELL branch. *)
Definition plan_sell (current_price : Q) (rsi : option Q) : recommendation_t :=
  {| rec_action := SELL;
     rec_current_price := current_price;
     rec_entry_price := None;
     rec_target_price := None;
     rec_stop_loss := None;
     rec_risk_reward_ratio := None;
     rec_holding_period := None;
     rec_notes :=
       let notes := ["⚠️ Exit long positions or avoid buying";
                     "Consider taking profits if holding"] in
       match nonzero rsi with
       | Some r =>
           if gtb r 70 then
             append_item notes ("RSI overbought (" ++ format_f 0 r ++ ") - sell at market")
           else notes
       | None => notes
       end |}.

(** Lines 610-617: one support level of the HOLD branch, appended to
    [better_entries] when it lies below the current price. *)
Definition support_entry (label : string) (current_price : Q) (level : option Q)
    (better_entries : list string) : result (list string) :=
  match nonzero level with
  | Some x =>
      if ltb x current_price then
        pct <- div (x - current_price) current_price ;;
        Ok (append_item better_entries
              (label ++ format_f 2 x ++ " (" ++ format_f 1 (pct * 100) ++ "%)"))
      else Ok better_entries
  | None => Ok better_entries
  end.

(** Lines 619-625: the RSI note of the HOLD branch. *)
Definition hold_rsi_note (rsi : option Q) (notes : list string) : list string :=
  if num_and rsi (fun r => leb 45 r && leb r 55) then
    append_item notes "⊙ RSI neutral - wait for oversold (below 40) or overbought (above 60)"
  else if num_and rsi (fun r => ltb 40 r && ltb r 45) then
    append_item notes "○ RSI approaching oversold - watch for entry near support"
  else if num_and rsi (fun r => ltb 55 r && ltb r 60) then
    append_item notes "○ RSI approaching overbought - wait for pullback"
  else notes.

(** Lines 627-630. *)
Definition hold_macd_note (macd_line signal_line : option Q) (notes : list string)
  : list string :=
  match macd_line, signal_line with
  | Some ml, Some sl =>
      if ltb (Qabs (ml - sl)) 0.3 then
        append_item notes "⊙ MACD near crossover - wait for clear signal"
      else notes
  | _, _ => notes
  end.

(** Lines 632-638. *)
Definition hold_entries_notes (better_entries notes : list string) : list string :=
  match better_entries with
  | [] => append_item notes "⊙ No clear support levels - wait for 3-5% pullback"
  | _ =>
      fold_left (fun ns entry => append_item ns ("  → Wait for pullback to " ++ entry))
        (firstn 3 better_entries)
        (append_item notes "**Better Entry Points:**")
  end.

(** Lines 640-644. *)
Definition hold_breakout_notes (current_price : Q) (bb_upper : option Q)
    (notes : list string) : list string :=
  match nonzero bb_upper with
  | Some u =>
      if gtb u current_price then
        append_item (append_item notes "**Breakout Watch:**")
          ("  → Buy on break above $" ++ format_f 2 u ++ " with volume")
      else notes
  | None => notes
  end.

(** Lines 646-656. *)
Definition hold_range_note (current_price : Q)
    (fifty_two_week_high fifty_two_week_low : option Q) (notes : list string)
  : result (list string) :=
  match nonzero fifty_two_week_high, nonzero fifty_two_week_low with
  | Some h, Some l =>
      position <- position_in_range current_price h l ;;
      if ltb position 0.3 then
        Ok (append_item notes
              ("○ Near 52-week low (" ++ format_f 0 (position * 100)
               ++ "% of range) - may bounce from support"))
      else if gtb position 0.7 then
        Ok (append_item notes
              ("○ Near 52-week high (" ++ format_f 0 (position * 100)
               ++ "% of range) - wait for pullback"))
      else
        Ok (append_item notes
              ("○ Mid-range (" ++ format_f 0 (position * 100)
               ++ "% of 52w range) - wait for trend confirmation"))
  | _, _ => Ok notes
  end.

(** Lines 601-661: the HOLD branch (any signal other than BUY and SELL). *)
Definition plan_hold (signal : signal_t) (current_price : Q) (rsi macd_line signal_line : option Q)
    (bollinger : option bollinger_dict) (ma_data : option ma_dict)
    (fifty_two_week_high fifty_two_week_low : option Q) : result recommendation_t :=
  bb <- attr_get bollinger ;;
  ma <- attr_get ma_data ;;
  e1 <- support_entry "Lower Bollinger Band at $" current_price (get (bollinger_lower bb)) [] ;;
  e2 <- support_entry "SMA-20 support at $" current_price (get (ma_sma_20 ma)) e1 ;;
  better_entries <- support_entry "SMA-50 support at $" current_price (get (ma_sma_50 ma)) e2 ;;
  let notes := hold_rsi_note rsi [] in
  let notes := hold_macd_note macd_line signal_line notes in
  let notes := hold_entries_notes better_entries notes in
  let notes := hold_breakout_notes current_price (get (bollinger_upper bb)) notes in
  notes <- hold_range_note current_price fifty_two_week_high fifty_two_week_low notes ;;
  Ok {| rec_action := signal;
        rec_current_price := current_price;
        rec_entry_price := None;
        rec_target_price := None;
        rec_stop_loss := None;
        rec_risk_reward_ratio := None;
        rec_holding_period := None;
        rec_notes := notes |}.

Definition _calculate_swing_trade_levels (signal : signal_t) (current_price : option Q)
    (technical_data : technical_dict) (stats_data : option stats_data_dict)
    (confidence : Q) : result (option recommendation_t) :=
  match nonzero current_price with
  | None => Ok None
  | Some price =>
      let bollinger := get_default (td_bollinger technical_data) empty_bollinger in
      let ma_data := get_default (td_moving_averages technical_data) empty_ma in
      let atr := get (td_atr technical_data) in
      let rsi := get (td_rsi technical_data) in
      macd_data <- attr_get (get_default (td_macd technical_data) empty_macd) ;;
      let macd_line := get (macd_macd macd_data) in
      let signal_line := get (macd_signal macd_data) in
      levels <- fifty_two_week_levels stats_data ;;
      let '(fifty_two_week_high, fifty_two_week_low) := levels in
      let atr_value :=
        match nonzero atr with
        | Some a => a
        | None => price * 0.02
        end in
      match signal with
      | BUY =>
          recommendation <- plan_buy price confidence atr_value rsi bollinger ma_data
                              fifty_two_week_high fifty_two_week_low ;;
          Ok (Some recommendation)
      | SELL => Ok (Some (plan_sell price rsi))
      | _ =>
          recommendation <- plan_hold signal price rsi macd_line signal_line bollinger ma_data
                              fifty_two_week_high fifty_two_week_low ;;
          Ok (Some recommendation)
      end
  end.

(** *** [generate_signal], lines 23-427 *)

(** Lines 119-239. *)
Definition buy_side (rules : rules_t) (sentiment_score rsi macd_line signal_line
    macd_histogram current_price fifty_two_week_high fifty_two_week_low pe_ratio volume
    avg_volume : option Q) (bollinger : option bollinger_dict)
    (stochastic : option stochastic_dict) (ma_data : option ma_dict)
    (adx_data : option adx_dict) : result scoring :=
  b <- buy_sentiment rules sentiment_score scoring_init ;;
  let b := buy_rsi rsi b in
  let b := buy_macd macd_line signal_line macd_histogram b in
  b <- buy_momentum current_price fifty_two_week_high fifty_two_week_low b ;;
  let b := buy_valuation pe_ratio b in
  b <- buy_volume volume avg_volume b ;;
  b <- buy_bollinger bollinger current_price b ;;
  let b := buy_stochastic stochastic b in
  let b := buy_moving_averages ma_data b in
  let b := buy_adx adx_data b in
  Ok (extend_additional b).

(** Lines 241-350. *)
Definition sell_side (rules : rules_t) (sentiment_score rsi macd_line signal_line
    current_price fifty_two_week_high fifty_two_week_low beta debt_to_equity : option Q)
    (bollinger : option bollinger_dict) (stochastic : option stochastic_dict)
    (ma_data : option ma_dict) (adx_data : option adx_dict) : result scoring :=
  s <- sell_sentiment rules sentiment_score scoring_init ;;
  let s := sell_rsi rsi s in
  let s := sell_macd macd_line signal_line s in
  s <- sell_overextension current_price fifty_two_week_high fifty_two_week_low s ;;
  let s := sell_risk_factors beta debt_to_equity s in
  s <- sell_bollinger bollinger current_price s ;;
  let s := sell_stochastic stochastic s in
  let s := sell_moving_averages ma_data s in
  let s := sell_adx adx_data s in
  Ok (extend_additional s).

(** Lines 402-405: the price line appended to [reasons]. *)
Definition price_context (current_price price_change_pct : option Q)
    (reasons : list string) : list string :=
  match nonzero current_price, price_change_pct with
  | Some p, Some pct =>
      let direction := if geb pct 0 then "▲" else "▼" in
      append_item reasons
        ("📊 Current: $" ++ format_f 2 p ++ " " ++ direction ++ " "
         ++ format_f 2 (Qabs pct) ++ "%")
  | _, _ => reasons
  end.

(** Line 408. *)
Definition read_news_count (news_data : option news_dict) : option Z :=
  match news_data with
  | Some nd => if news_success nd then get_default (news_count_entry nd) 0%Z else Some 0%Z
  | None => Some 0%Z
  end.

(** Lines 409-410. *)
Definition news_context (news_count : option Z) (reasons : list string)
  : result (Z * list string) :=
  match news_count with
  | None => Raise (TypeError "'>' not supported between instances of 'NoneType' and 'int'")
  | Some n =>
      if (0 <? n)%Z then
        Ok (n, append_item reasons ("📰 " ++ str_of_int n ++ " recent articles analyzed"))
      else Ok (n, reasons)
  end.

(** Lines 62-63: a key of [sentiment_data['sentiment']], or its default
    when the analysis did not succeed. *)
Definition read_sentiment {A : Type} (sentiment_data : sentiment_data_dict)
    (key : sentiment_dict -> entry A) (default : A) : result (option A) :=
  if sd_success sentiment_data then
    sentiment <- attr_get (get_default (sd_sentiment sentiment_data) empty_sentiment) ;;
    Ok (get_default (key sentiment) default)
  else Ok (Some default).

(** Lines 83-84: [stats], when the statistics are there and succeeded. *)
Definition read_stats (stats_data : option stats_data_dict) : result (option stats_dict) :=
  match stats_data with
  | Some sd =>
      if sdd_success sd then
        stats <- attr_get (get_default (sdd_data sd) empty_stats) ;;
        Ok (Some stats)
      else Ok None
  | None => Ok None
  end.

(** A key of [stats], [None] when the block of lines 83-90 is skipped. *)
Definition stat (stats : option stats_dict) (key : stats_dict -> entry Q) : option Q :=
  match stats with
  | Some s => get (key s)
  | None => None
  end.

Definition generate_signal (rules : rules_t) (technical_data : technical_dict)
    (sentiment_data : sentiment_data_dict) (news_data : option news_dict)
    (price_data : option price_dict) (stats_data : option stats_data_dict)
  : result signal_result :=
  let rsi := get (td_rsi technical_data) in
  macd_data <- attr_get (get_default (td_macd technical_data) empty_macd) ;;
  let macd_line := get (macd_macd macd_data) in
  let signal_line := get (macd_signal macd_data) in
  let macd_histogram := get (macd_histogram macd_data) in
  let bollinger := get_default (td_bollinger technical_data) empty_bollinger in
  let stochastic := get_default (td_stochastic technical_data) empty_stochastic in
  let adx_data := get_default (td_adx technical_data) empty_adx in
  let ma_data := get_default (td_moving_averages technical_data) empty_ma in
  sentiment_score <- read_sentiment sentiment_data sent_overall_score 0.0 ;;
  sentiment_label <- read_sentiment sentiment_data sent_label "neutral" ;;
  let price := truthy_dict price_nonempty price_data in
  let current_price := match price with Some pd => get (pd_price pd) | None => None end in
  let price_change_pct :=
    match price with
    | Some pd => get_default (pd_change_percent pd) 0
    | None => Some 0
    end in
  let volume := match price with Some pd => get (pd_volume pd) | None => None end in
  stats <- read_stats stats_data ;;
  let beta := stat stats st_beta in
  let pe_ratio := stat stats st_trailingPE in
  let debt_to_equity := stat stats st_debtToEquity in
  let fifty_two_week_high := stat stats st_fiftyTwoWeekHigh in
  let fifty_two_week_low := stat stats st_fiftyTwoWeekLow in
  let avg_volume := stat stats st_averageVolume in
  let metrics :=
    {| m_rsi := rsi; m_macd := macd_line; m_macd_signal := signal_line;
       m_macd_histogram := macd_histogram; m_sentiment_score := sentiment_score;
       m_sentiment_label := sentiment_label; m_price := current_price;
       m_change_pct := price_change_pct; m_volume := volume; m_avg_volume := avg_volume;
       m_beta := beta; m_pe_ratio := pe_ratio; m_debt_to_equity := debt_to_equity |} in
  let reasons := missing_data_reasons rsi macd_line signal_line in
  buy <- buy_side rules sentiment_score rsi macd_line signal_line macd_histogram
           current_price fifty_two_week_high fifty_two_week_low pe_ratio volume avg_volume
           bollinger stochastic ma_data adx_data ;;
  sell <- sell_side rules sentiment_score rsi macd_line signal_line current_price
            fifty_two_week_high fifty_two_week_low beta debt_to_equity
            bollinger stochastic ma_data adx_data ;;
  let d := resolve reasons buy sell beta debt_to_equity rsi in
  let reasons := price_context current_price price_change_pct (dec_reasons d) in
  news <- news_context (read_news_count news_data) reasons ;;
  let '(news_count, reasons) := news in
  swing_trade <- _calculate_swing_trade_levels (dec_signal d) current_price technical_data
                   stats_data (dec_confidence d) ;;
  Ok {| res_signal := dec_signal d;
        res_confidence := dec_confidence d;
        res_reasons := reasons;
        res_metrics := metrics;
        res_risk_level := dec_risk_level d;
        res_news_count := news_count;
        res_buy_score := score buy;
        res_sell_score := score sell;
        res_swing_trade := swing_trade |}.

(** [__init__]: the rules given, or [SIGNAL_RULES]. *)
Definition init (rules : option rules_t) : rules_t :=
  match rules with
  | Some r => r
  | None => SIGNAL_RULES
  end.

End SignalEngine.

(** ** The module-level [generate_signal], lines 675-711 *)

Definition generate_signal (symbol : string) (technical_data : technical_dict)
    (sentiment_data : sentiment_data_dict) (news_data : option news_dict)
    (price_data : option price_dict) (stats_data : option stats_data_dict) : response_t :=
  let engine := SignalEngine.init None in
  match SignalEngine.generate_signal engine technical_data sentiment_data news_data
          price_data stats_data with
  | Ok result =>
      {| resp_success := true;
         resp_symbol := symbol;
         resp_signal := res_signal result;
         resp_confidence := res_confidence result;
         resp_reasons := res_reasons result;
         resp_risk_level := res_risk_level result;
         resp_error := None;
         resp_result := Some result |}
  | Raise e =>
      {| resp_success := false;
         resp_symbol := symbol;
         resp_signal := ERROR;
         resp_confidence := 0.5;
         resp_reasons := ["Error: " ++ str_of_exn e];
         resp_risk_level := High;
         resp_error := Some ("Signal generation error: " ++ str_of_exn e);
         resp_result := None |}
  end.

(** ** Vocabulary of the properties *)

(** [needle in hay] on strings. *)
Fixpoint mentions (needle hay : string) : bool :=
  String.prefix needle hay
  || match hay with
     | EmptyString => false
     | String _ rest => mentions needle rest
     end.

(** A key that is missing or bound to [None]. *)
Definition absent {A : Type} (e : entry A) : bool :=
  match e with
  | Bound _ => false
  | _ => true
  end.

(** No technical indicator: every key of [technical_data] is absent; the
    MACD dictionary, which the engine reads without a guard, is missing or
    holds no line, signal or histogram. *)
Definition no_technical (td : technical_dict) : bool :=
  absent (td_rsi td)
  && match td_macd td with
     | Missing => true
     | IsNone => false
     | Bound m => absent (macd_macd m) && absent (macd_signal m) && absent (macd_histogram m)
     end
  && absent (td_bollinger td) && absent (td_stochastic td) && absent (td_adx td)
  && absent (td_moving_averages td) && absent (td_atr td).

(** Sentiment absent or neutral: the analysis did not succeed, or it carries
    no score, or the score is zero. *)
Definition neutral_sentiment (sd : sentiment_data_dict) : bool :=
  negb (sd_success sd)
  || match sd_sentiment sd with
     | Missing => true
     | IsNone => false
     | Bound s =>
         match sent_overall_score s with
         | Missing => true
         | IsNone => false
         | Bound x => Qeq_bool x 0
         end
     end.

(** No current price. *)
Definition no_price (pd : option price_dict) : bool :=
  match pd with
  | None => true
  | Some d => absent (pd_price d)
  end.

(** No fundamentals: no statistics, statistics that did not succeed, or no
    key in them. *)
Definition no_fundamentals (sd : option stats_data_dict) : bool :=
  match sd with
  | None => true
  | Some d =>
      negb (sdd_success d)
      || match sdd_data d with
         | Missing => true
         | IsNone => false
         | Bound s =>
             absent (st_beta s) && absent (st_trailingPE s) && absent (st_debtToEquity s)
             && absent (st_fiftyTwoWeekHigh s) && absent (st_fiftyTwoWeekLow s)
             && absent (st_averageVolume s)
         end
  end.

(** The article count is an integer (not [None]) whenever it is read. *)
Definition news_counted (nd : option news_dict) : bool :=
  match SignalEngine.read_news_count nd with
  | Some _ => true
  | None => false
  end.

(** The exception is a [ZeroDivisionError]. *)
Definition is_zero_division (e : exn) : bool :=
  match e with
  | ZeroDivisionError _ => true
  | _ => false
  end.

(** ** Sample snapshots *)

Definition no_sentiment : sentiment_data_dict :=
  {| sd_success := false; sd_sentiment := Missing |}.

Definition sentiment_of (overall_score : Q) (label : string) : sentiment_data_dict :=
  {| sd_success := true;
     sd_sentiment := Bound {| sent_overall_score := Bound overall_score;
                              sent_label := Bound label |} |}.

Definition price_of (price change_percent : Q) : option price_dict :=
  Some {| pd_price := Bound price;
          pd_change_percent := Bound change_percent;
          pd_volume := Missing |}.

Definition macd_of (line signal_line histogram : Q) : entry macd_dict :=
  Bound {| macd_macd := Bound line;
           macd_signal := Bound signal_line;
           macd_histogram := Bound histogram |}.

(** Oversold RSI, bullish MACD: scenario A of the specification. *)
Definition scenario_A_technical : technical_dict :=
  {| td_rsi := Bound 25; td_macd := macd_of 1.2 0.5 0.3;
     td_bollinger := Missing; td_stochastic := Missing; td_adx := Missing;
     td_moving_averages := Missing; td_atr := Missing |}.

Definition scenario_A_stats : option stats_data_dict :=
  Some {| sdd_success := true;
          sdd_data := Bound {| st_beta := Missing; st_trailingPE := Bound 12;
                               st_debtToEquity := Missing;
                               st_fiftyTwoWeekHigh := Bound 150;
                               st_fiftyTwoWeekLow := Bound 80;
                               st_averageVolume := Missing |} |}.

(** Overbought RSI, bearish MACD, risky fundamentals: scenario B. *)
Definition scenario_B_technical : technical_dict :=
  {| td_rsi := Bound 78;
     td_macd := Bound {| macd_macd := Bound 0.2; macd_signal := Bound 0.9;
                         macd_histogram := Missing |};
     td_bollinger := Missing; td_stochastic := Missing; td_adx := Missing;
     td_moving_averages := Missing; td_atr := Missing |}.

Definition scenario_B_stats : option stats_data_dict :=
  Some {| sdd_success := true;
          sdd_data := Bound {| st_beta := Bound 1.8; st_trailingPE := Missing;
                               st_debtToEquity := Bound 2.5;
                               st_fiftyTwoWeekHigh := Missing;
                               st_fiftyTwoWeekLow := Missing;
                               st_averageVolume := Missing |} |}.

(** Scenario A with the price above the upper Bollinger band. *)
Definition above_band_technical : technical_dict :=
  {| td_rsi := Bound 25; td_macd := macd_of 1.2 0.5 0.3;
     td_bollinger := Bound {| bollinger_upper := Bound 90; bollinger_lower := Bound 80;
                              bollinger_percent_b := Bound 1.2 |};
     td_stochastic := Missing; td_adx := Missing;
     td_moving_averages := Missing; td_atr := Missing |}.

(** A bullish MACD and nothing else. *)
Definition macd_only_technical : technical_dict :=
  {| td_rsi := Missing; td_macd := macd_of 1.2 0.5 0.3;
     td_bollinger := Missing; td_stochastic := Missing; td_adx := Missing;
     td_moving_averages := Missing; td_atr := Missing |}.

(** The result [get_enhanced_technical_indicators] starts from and returns
    when no indicator could be calculated ([enhanced_indicators.py],
    lines 222-233). *)
Definition uncalculated_technical : technical_dict :=
  {| td_rsi := IsNone; td_macd := Bound empty_macd;
     td_bollinger := IsNone; td_stochastic := IsNone; td_adx := IsNone;
     td_moving_averages := IsNone; td_atr := IsNone |}.

(** A stochastic oscillator at the bottom of its range and nothing else. *)
Definition stochastic_zero_technical : technical_dict :=
  {| td_rsi := Missing; td_macd := Missing; td_bollinger := Missing;
     td_stochastic := Bound {| stochastic_k := Bound 0 |}; td_adx := Missing;
     td_moving_averages := Missing; td_atr := Missing |}.

(** A key bound to [None]. *)
Definition is_none {A : Type} (e : entry A) : bool :=
  match e with
  | IsNone => true
  | _ => false
  end.

(** A structurally valid snapshot: none of the dictionaries the engine reads
    with [.get] is [None], and the Bollinger %B, the sentiment score and the
    article count are numbers wherever they are present. *)
Definition well_formed (td : technical_dict) (sd : sentiment_data_dict)
    (nd : option news_dict) (std : option stats_data_dict) : bool :=
  negb (is_none (td_macd td))
  && negb (is_none (td_bollinger td))
  && negb (is_none (td_moving_averages td))
  && match td_bollinger td with
     | Bound bb => negb (is_none (bollinger_percent_b bb))
     | _ => true
     end
  && (negb (sd_success sd)
      || match sd_sentiment sd with
         | Missing => true
         | IsNone => false
         | Bound s => negb (is_none (sent_overall_score s))
         end)
  && match std with
     | Some d => negb (sdd_success d) || negb (is_none (sdd_data d))
     | None => true
     end
  && news_counted nd.

(** Every point of a score is accounted for: a positive score comes with at
    least one fired condition. *)
Definition explained (st : scoring) : Prop :=
  0 < score st -> (conditions st ++ additional st)%list <> [].

(** * The producers of the engine's inputs *)

(** ** Python strings

    Text is a string of ASCII characters: [lower], [strip] and slicing work
    on characters, which for ASCII text are the bytes of a [string]. *)

Module PyStr.

(** [c.lower()] *)
Definition lower_ascii (c : Ascii.ascii) : Ascii.ascii :=
  let n := Ascii.nat_of_ascii c in
  if (65 <=? n)%nat && (n <=? 90)%nat then Ascii.ascii_of_nat (n + 32) else c.

(** [s.lower()] *)
Fixpoint lower (s : string) : string :=
  match s with
  | EmptyString => EmptyString
  | String c rest => String (lower_ascii c) (lower rest)
  end.

(** [c.upper()] and [s.upper()] *)
Definition upper_ascii (c : Ascii.ascii) : Ascii.ascii :=
  let n := Ascii.nat_of_ascii c in
  if (97 <=? n)%nat && (n <=? 122)%nat then Ascii.ascii_of_nat (n - 32) else c.

Fixpoint upper (s : string) : string :=
  match s with
  | EmptyString => EmptyString
  | String c rest => String (upper_ascii c) (upper rest)
  end.

(** [needle in hay] *)
Fixpoint contains (needle hay : string) : bool :=
  if String.prefix needle hay then true
  else match hay with
       | EmptyString => false
       | String _ rest => contains needle rest
       end.

(** [c.isspace()]: tab, line feed, vertical tab, form feed, carriage
    return, the four separators 0x1c-0x1f and the space. *)
Definition isspace (c : Ascii.ascii) : bool :=
  let n := Ascii.nat_of_ascii c in
  ((9 <=? n)%nat && (n <=? 13)%nat) || ((28 <=? n)%nat && (n <=? 32)%nat).

(** [not s or not s.strip()]: nothing is left of [s] once the white space
    is stripped. *)
Fixpoint blank (s : string) : bool :=
  match s with
  | EmptyString => true
  | String c rest => isspace c && blank rest
  end.

(** [s[:n]] *)
Definition take (n : nat) (s : string) : string := String.substring 0 n s.

(** [s[n:]] *)
Definition drop (n : nat) (s : string) : string :=
  String.substring n (String.length s - n) s.

(** [[s[i:i+n] for i in range(0, len(s), n)]], for a positive [n]; every
    chunk takes at least one character, so [len(s)] steps are enough. *)
Fixpoint chunks_upto (steps n : nat) (s : string) : list string :=
  match steps with
  | O => []
  | S steps' =>
      match s with
      | EmptyString => []
      | _ => take n s :: chunks_upto steps' n (drop n s)
      end
  end.

Definition chunks (n : nat) (s : string) : list string :=
  chunks_upto (String.length s) n s.

(** [e if e is not None] as the value of a key that is always set. *)
Definition of_option {A : Type} (v : option A) : entry A :=
  match v with
  | Some x => Bound x
  | None => IsNone
  end.

(** [str(v)] of a string or [None]. *)
Definition str_of_option (v : option string) : string :=
  match v with
  | Some s => s
  | None => "None"
  end.

End PyStr.

Import PyStr.

(** ** [sentiment_analyzer.py] *)

Module SentimentAnalyzer.

(** The dictionary [analyze_text] returns. *)
Record text_sentiment : Type := {
  ts_label : string;
  ts_score : Q;
  ts_normalized_score : Q }.

(** The loaded model: [self.pipeline(text)[0]] as its ['label'] and
    ['score'], or the exception of the call. *)
Definition pipeline_t : Type := string -> result (string * Q).

(** [self]: [self.initialized] and [self.pipeline] ([None] until a model
    is loaded). *)
Record analyzer : Type := {
  initialized : bool;
  pipeline : option pipeline_t }.

(** [__init__], lines 21-50: [loaded] is the pipeline when the
    [transformers] library is there and the model could be loaded. *)
Definition init (loaded : option pipeline_t) : analyzer :=
  match loaded with
  | Some p => {| initialized := true; pipeline := Some p |}
  | None => {| initialized := false; pipeline := None |}
  end.

Definition positive_words : list string :=
  ["gain"; "profit"; "surge"; "rise"; "growth"; "boost"; "up"; "increase";
   "positive"; "beat"; "strong"; "outperform"; "bullish"; "rally"; "soar";
   "success"; "record"; "high"; "upgrade"; "buy"; "optimistic"].

Definition negative_words : list string :=
  ["loss"; "decline"; "fall"; "drop"; "plunge"; "crash"; "down"; "decrease";
   "negative"; "miss"; "weak"; "underperform"; "bearish"; "sell"; "downgrade";
   "concern"; "risk"; "low"; "poor"; "worst"; "cut"; "pessimistic"].

(** [sum(1 for word in words if word in text)] *)
Definition count_words (words : list string) (text : string) : Z :=
  Z.of_nat (List.length (filter (fun word => contains word text) words)).

(** [_fallback_sentiment], lines 108-155. *)
Definition _fallback_sentiment (text : string) : result text_sentiment :=
  let text_lower := lower text in
  let pos_count := count_words positive_words text_lower in
  let neg_count := count_words negative_words text_lower in
  if (pos_count >? neg_count)%Z then
    ratio <- div (inject_Z pos_count) (inject_Z (pos_count + neg_count + 1)) ;;
    let score := min2 ratio 0.8 in
    Ok {| ts_label := "positive"; ts_score := score; ts_normalized_score := score |}
  else if (neg_count >? pos_count)%Z then
    ratio <- div (inject_Z neg_count) (inject_Z (pos_count + neg_count + 1)) ;;
    let score := min2 ratio 0.8 in
    Ok {| ts_label := "negative"; ts_score := score; ts_normalized_score := - score |}
  else
    Ok {| ts_label := "neutral"; ts_score := 0.5; ts_normalized_score := 0.0 |}.

(** [analyze_text], lines 52-106.  The text handed to the fallback after an
    exception of the model is the truncated one. *)
Definition analyze_text (self : analyzer) (text : string) : result text_sentiment :=
  if blank text then
    Ok {| ts_label := "neutral"; ts_score := 0.0; ts_normalized_score := 0.0 |}
  else
    match (if initialized self then pipeline self else None) with
    | None => _fallback_sentiment text
    | Some run =>
        let text := take 512 text in
        match run text with
        | Ok (raw_label, score) =>
            let label := lower raw_label in
            if contains "negative" label || (label =? "label_0")%string then
              Ok {| ts_label := "negative"; ts_score := score;
                    ts_normalized_score := - score |}
            else if contains "positive" label || (label =? "label_2")%string then
              Ok {| ts_label := "positive"; ts_score := score;
                    ts_normalized_score := score |}
            else
              Ok {| ts_label := "neutral"; ts_score := score;
                    ts_normalized_score := 0.0 |}
        | Raise _ => _fallback_sentiment text
        end
    end.

(** [analyze_batch], lines 157-167. *)
Fixpoint analyze_batch (self : analyzer) (texts : list string)
  : result (list text_sentiment) :=
  match texts with
  | [] => Ok []
  | text :: rest =>
      r <- analyze_text self text ;;
      rs <- analyze_batch self rest ;;
      Ok (r :: rs)
  end.

(** The dictionary [get_aggregate_sentiment] returns; ['total_articles'] is
    set only for a list that is not empty. *)
Record aggregate : Type := {
  agg_overall_score : Q;
  agg_positive_count : Z;
  agg_negative_count : Z;
  agg_neutral_count : Z;
  agg_label : string;
  agg_total_articles : entry Z }.

(** [sum(1 for r in results if r['label'] == label)] *)
Definition count_label (label : string) (results : list text_sentiment) : Z :=
  Z.of_nat (List.length (filter (fun r => (ts_label r =? label)%string) results)).

(** [sum(r['normalized_score'] for r in results)] *)
Definition sum_scores (results : list text_sentiment) : Q :=
  fold_left Qplus (map ts_normalized_score results) 0.

(** [get_aggregate_sentiment], lines 169-218. *)
Definition get_aggregate_sentiment (self : analyzer) (texts : list string)
  : result aggregate :=
  match texts with
  | [] =>
      Ok {| agg_overall_score := 0.0; agg_positive_count := 0; agg_negative_count := 0;
            agg_neutral_count := 0; agg_label := "neutral";
            agg_total_articles := Missing |}
  | _ =>
      results <- analyze_batch self texts ;;
      let positive_count := count_label "positive" results in
      let negative_count := count_label "negative" results in
      let neutral_count := count_label "neutral" results in
      overall_score <- div (sum_scores results)
                         (inject_Z (Z.of_nat (List.length results))) ;;
      let overall_label :=
        if gtb overall_score 0.1 then "positive"
        else if ltb overall_score (-0.1) then "negative"
        else "neutral" in
      Ok {| agg_overall_score := overall_score; agg_positive_count := positive_count;
            agg_negative_count := negative_count; agg_neutral_count := neutral_count;
            agg_label := overall_label;
            agg_total_articles := Bound (Z.of_nat (List.length texts)) |}
  end.

End SentimentAnalyzer.

(** The argument of [get_sentiment_score]: a string, a list of strings, or
    a value of another type. *)
Inductive headlines_t : Type :=
| Text (s : string)
| Headlines (l : list string)
| OtherType.

(** The dictionary [get_sentiment_score] returns. *)
Record sentiment_result : Type := {
  sr_success : bool;
  sr_sentiment : option SentimentAnalyzer.aggregate;
  sr_error : option string }.

(** [get_sentiment_score], lines 221-264; [loaded] is what
    [SentimentAnalyzer()] could load. *)
Definition get_sentiment_score (loaded : option SentimentAnalyzer.pipeline_t)
    (news_headlines : headlines_t) : sentiment_result :=
  let analyzer := SentimentAnalyzer.init loaded in
  let attempt :=
    match news_headlines with
    | Text s =>
        let chunks := chunks 500 s in
        sentiment <- SentimentAnalyzer.get_aggregate_sentiment analyzer chunks ;;
        Ok (Some sentiment)
    | Headlines l =>
        sentiment <- SentimentAnalyzer.get_aggregate_sentiment analyzer l ;;
        Ok (Some sentiment)
    | OtherType => Ok None
    end in
  match attempt with
  | Ok (Some sentiment) =>
      {| sr_success := true; sr_sentiment := Some sentiment; sr_error := None |}
  | Ok None =>
      {| sr_success := false; sr_sentiment := None;
         sr_error := Some "Invalid input type for news_headlines" |}
  | Raise e =>
      {| sr_success := false; sr_sentiment := None;
         sr_error := Some ("Sentiment analysis error: " ++ str_of_exn e) |}
  end.

(** The keys of a sentiment result that the engine reads. *)
Definition sentiment_data_of (r : sentiment_result) : sentiment_data_dict :=
  {| sd_success := sr_success r;
     sd_sentiment :=
       match sr_sentiment r with
       | Some a =>
           Bound {| sent_overall_score := Bound (SentimentAnalyzer.agg_overall_score a);
                    sent_label := Bound (SentimentAnalyzer.agg_label a) |}
       | None => IsNone
       end |}.
(** A sentiment of a text is one of the three labels, and its normalized
    score carries the sign of the label. *)
Definition labelled (r : SentimentAnalyzer.text_sentiment) : Prop :=
  (SentimentAnalyzer.ts_label r = "positive"
   /\ SentimentAnalyzer.ts_normalized_score r == SentimentAnalyzer.ts_score r)
  \/ (SentimentAnalyzer.ts_label r = "negative"
      /\ SentimentAnalyzer.ts_normalized_score r == - SentimentAnalyzer.ts_score r)
  \/ (SentimentAnalyzer.ts_label r = "neutral"
      /\ SentimentAnalyzer.ts_normalized_score r == 0).

(** The scores of the model are probabilities. *)
Definition probabilities (loaded : option SentimentAnalyzer.pipeline_t) : Prop :=
  forall run text label score,
    loaded = Some run -> run text = Ok (label, score) -> 0 <= score <= 1.
(** ** [news_api.py] *)

Module NewsApi.

(** An article of the JSON answer, as far as [get_news] reads it. *)
Record source_dict : Type := {
  source_name : entry string }.

Record raw_article : Type := {
  raw_title : entry string;
  raw_description : entry string;
  raw_publishedAt : entry string;
  raw_url : entry string;
  raw_source : entry source_dict }.

(** An article of the result: the five keys are always set. *)
Record article : Type := {
  article_title : option string;
  article_description : option string;
  article_publishedAt : option string;
  article_url : option string;
  article_source : option string }.

(** What the request came to, as far as [get_news] tells the cases apart:
    no API key, status 429, the exceptions of the three handlers, or a JSON
    answer with its status, message and articles. *)
Inductive response : Type :=
| NoApiKey
| RateLimited
| Timeout
| RequestException (e : string)
| OtherException (e : string)
| Json (status_ok : bool) (message : entry string) (articles : entry (list raw_article)).

(** The dictionary [get_news] returns; ['count'] is set on success only. *)
Record news_result : Type := {
  nr_success : bool;
  nr_articles : list article;
  nr_count : entry Z;
  nr_error : option string }.

Definition failure (error : option string) : news_result :=
  {| nr_success := false; nr_articles := []; nr_count := Missing; nr_error := error |}.

(** Lines 76-83: one turn of the loop. *)
Definition extract (a : raw_article) : result article :=
  source <- attr_get (get_default (raw_source a) {| source_name := Missing |}) ;;
  Ok {| article_title := get_default (raw_title a) "";
        article_description := get_default (raw_description a) "";
        article_publishedAt := get_default (raw_publishedAt a) "";
        article_url := get_default (raw_url a) "";
        article_source := get_default (source_name source) "Unknown" |}.

Fixpoint extract_all (l : list raw_article) : result (list article) :=
  match l with
  | [] => Ok []
  | a :: rest =>
      x <- extract a ;;
      xs <- extract_all rest ;;
      Ok (x :: xs)
  end.

(** [get_news], lines 11-109. *)
Definition get_news (r : response) : news_result :=
  match r with
  | NoApiKey => failure (Some "NEWS_API_KEY not configured")
  | RateLimited => failure (Some "Rate limit exceeded for News API")
  | Timeout => failure (Some "Request timeout while fetching news")
  | RequestException e => failure (Some ("Network error: " ++ e))
  | OtherException e => failure (Some ("Unexpected error: " ++ e))
  | Json false message _ => failure (get_default message "Unknown error from News API")
  | Json true _ articles =>
      let extracted :=
        match get_default articles [] with
        | None => Raise (TypeError "'NoneType' object is not iterable")
        | Some l => extract_all l
        end in
      match extracted with
      | Ok articles =>
          {| nr_success := true; nr_articles := articles;
             nr_count := Bound (Z.of_nat (List.length articles)); nr_error := None |}
      | Raise e => failure (Some ("Unexpected error: " ++ str_of_exn e))
      end
  end.

End NewsApi.

(** The keys of a news result that the engine reads. *)
Definition news_data_of (r : NewsApi.news_result) : news_dict :=
  {| news_success := NewsApi.nr_success r; news_count_entry := NewsApi.nr_count r |}.

(** [[article['title'] for article in news_result['articles']
      if article.get('title')]] *)
Definition headlines_of (r : NewsApi.news_result) : list string :=
  flat_map (fun a => match NewsApi.article_title a with
                     | Some t => if (t =? "")%string then [] else [t]
                     | None => []
                     end)
    (NewsApi.nr_articles r).

(** ** [market_data.py]: [get_technical_indicators] *)

Module MarketData.

(** ['data'] of [get_quote_fmp]: seven keys, each a value of the answer or
    [None]. *)
Record quote_dict : Type := {
  quote_symbol : option string;
  quote_price : option Q;
  quote_change : option Q;
  quote_changesPercentage : option Q;
  quote_volume : option Q;
  quote_marketCap : option Q;
  quote_timestamp : option Q }.

(** The dictionaries of [get_quote_fmp], of [get_rsi_fmp] and
    [get_rsi_alpha_vantage], and of [get_macd_fmp] and
    [get_macd_alpha_vantage]. *)
Record quote_result : Type := {
  qr_success : bool;
  qr_data : option quote_dict;
  qr_error : option string }.

Record rsi_result : Type := {
  rr_success : bool;
  rr_rsi : option Q;
  rr_error : option string }.

Record macd_result : Type := {
  mr_success : bool;
  mr_macd : option Q;
  mr_signal : option Q;
  mr_histogram : option Q;
  mr_error : option string }.

(** The dictionary [get_technical_indicators] returns. *)
Record technical_result : Type := {
  tr_success : bool;
  tr_rsi : option Q;
  tr_macd : macd_dict;
  tr_quote : option quote_dict;
  tr_errors : option (list string) }.

(** [{'macd': r.get('macd'), 'signal': r.get('signal'),
      'histogram': r.get('histogram')}] *)
Definition macd_data_of (r : macd_result) : macd_dict :=
  {| macd_macd := of_option (mr_macd r);
     macd_signal := of_option (mr_signal r);
     macd_histogram := of_option (mr_histogram r) |}.

(** [get_technical_indicators], lines 458-526.  The two Alpha Vantage
    results are those of the calls the function makes when the FMP result
    is not a success. *)
Definition get_technical_indicators (quote_result : quote_result)
    (rsi_result rsi_result_av : rsi_result) (macd_result macd_result_av : macd_result)
  : technical_result :=
  let errors := [] in
  let quote_data := if qr_success quote_result then qr_data quote_result else None in
  let errors :=
    if negb (qr_success quote_result) then
      append_item errors ("Quote: " ++ str_of_option (qr_error quote_result))
    else errors in
  let rsi_value := rr_rsi rsi_result in
  let '(rsi_value, errors) :=
    if negb (rr_success rsi_result) then
      let errors := append_item errors ("RSI (FMP): " ++ str_of_option (rr_error rsi_result)) in
      let rsi_value := rr_rsi rsi_result_av in
      if negb (rr_success rsi_result_av) then
        (rsi_value,
         append_item errors
           ("RSI (Alpha Vantage): " ++ str_of_option (rr_error rsi_result_av)))
      else (rsi_value, errors)
    else (rsi_value, errors) in
  let macd_data := macd_data_of macd_result in
  let '(macd_data, errors) :=
    if negb (mr_success macd_result) then
      let errors :=
        append_item errors ("MACD (FMP): " ++ str_of_option (mr_error macd_result)) in
      let macd_data := macd_data_of macd_result_av in
      if negb (mr_success macd_result_av) then
        (macd_data,
         append_item errors
           ("MACD (Alpha Vantage): " ++ str_of_option (mr_error macd_result_av)))
      else (macd_data, errors)
    else (macd_data, errors) in
  let success :=
    match rsi_value, get (macd_macd macd_data), quote_data with
    | None, None, None => false
    | _, _, _ => true
    end in
  {| tr_success := success;
     tr_rsi := rsi_value;
     tr_macd := macd_data;
     tr_quote := quote_data;
     tr_errors := match errors with [] => None | _ => Some errors end |}.

End MarketData.

(** The keys of the result of [get_technical_indicators] that the engine
    reads. *)
Definition technical_data_of (r : MarketData.technical_result) : technical_dict :=
  {| td_rsi := of_option (MarketData.tr_rsi r);
     td_macd := Bound (MarketData.tr_macd r);
     td_bollinger := Missing; td_stochastic := Missing; td_adx := Missing;
     td_moving_averages := Missing; td_atr := Missing |}.

(** ** [enhanced_indicators.py]: [get_enhanced_technical_indicators] *)

Module EnhancedIndicators.

(** The dictionaries of the calculators of lines 17-205: every value is a
    number, but for the averages and flags of [calculate_moving_averages]
    that need 50 or 200 prices. *)
Record macd_values : Type := {
  mv_macd : Q; mv_signal : Q; mv_histogram : Q }.

Record bollinger_values : Type := {
  bv_upper : Q; bv_middle : Q; bv_lower : Q; bv_percent_b : Q }.

Record stochastic_values : Type := {
  sv_k : Q; sv_d : Q }.

Record adx_values : Type := {
  av_adx : Q; av_di_plus : Q; av_di_minus : Q }.

Record ma_values : Type := {
  mav_ema_12 : Q; mav_ema_26 : Q; mav_ema_50 : option Q;
  mav_sma_20 : Q; mav_sma_50 : option Q; mav_sma_200 : option Q;
  mav_price : Q;
  mav_above_sma_20 : bool; mav_above_sma_50 : option bool;
  mav_above_sma_200 : option bool }.

(** A price history as far as the function looks at it: [hist_data.empty],
    [len(hist_data)], and what each calculator returns for it (its
    dictionary or number, or [None]). *)
Record dataframe : Type := {
  df_empty : bool;
  df_len : Z;
  calculate_macd_from_prices : option macd_values;
  calculate_rsi_from_prices : option Q;
  calculate_bollinger_bands : option bollinger_values;
  calculate_stochastic : option stochastic_values;
  calculate_adx : option adx_values;
  calculate_moving_averages : option ma_values;
  calculate_atr : option Q;
  calculate_obv : option Q }.

(** The dictionary [get_enhanced_technical_indicators] returns;
    ['calculation_source'] is set only when something was calculated. *)
Record enhanced_result : Type := {
  er_success : bool;
  er_rsi : option Q;
  er_macd : macd_dict;
  er_bollinger : option bollinger_values;
  er_stochastic : option stochastic_values;
  er_adx : option adx_values;
  er_moving_averages : option ma_values;
  er_atr : option Q;
  er_obv : option Q;
  er_errors : option (list string);
  er_calculation_source : entry string }.

Definition macd_dict_of (v : macd_values) : macd_dict :=
  {| macd_macd := Bound (mv_macd v); macd_signal := Bound (mv_signal v);
     macd_histogram := Bound (mv_histogram v) |}.

(** Truth value of the ['macd'] dictionary. *)
Definition macd_nonempty (d : macd_dict) : bool :=
  negb (is_missing (macd_macd d) && is_missing (macd_signal d)
        && is_missing (macd_histogram d)).

Definition is_some {A : Type} (v : option A) : bool :=
  match v with
  | Some _ => true
  | None => false
  end.

(** [calculated.append(name)] when the value was set. *)
Definition source (set : bool) (name : string) : list string :=
  if set then [name] else [].

(** [get_enhanced_technical_indicators], lines 207-327.  [api_result] is
    the result of [get_technical_indicators], which the function calls when
    the core indicators could not be calculated. *)
Definition get_enhanced_technical_indicators (hist_data : option dataframe)
    (api_result : MarketData.technical_result) : enhanced_result :=
  (* lines 239-296: calculated only from a history of at least 26 rows *)
  let frame :=
    match hist_data with
    | Some df => if negb (df_empty df) && (26 <=? df_len df)%Z then Some df else None
    | None => None
    end in
  let calculated {A : Type} (f : dataframe -> option A) : option A :=
    match frame with
    | Some df => f df
    | None => None
    end in
  let calculated_macd := calculated calculate_macd_from_prices in
  let calculated_rsi := nonzero (calculated calculate_rsi_from_prices) in
  let bollinger := calculated calculate_bollinger_bands in
  let stochastic := calculated calculate_stochastic in
  let adx := calculated calculate_adx in
  let ma := calculated calculate_moving_averages in
  let atr := nonzero (calculated calculate_atr) in
  let obv := nonzero (calculated calculate_obv) in
  let macd := match calculated_macd with Some v => macd_dict_of v | None => empty_macd end in
  let sources :=
    (source (is_some calculated_macd) "MACD" ++ source (is_some calculated_rsi) "RSI"
     ++ source (is_some bollinger) "BB" ++ source (is_some stochastic) "Stoch"
     ++ source (is_some adx) "ADX" ++ source (is_some ma) "MA"
     ++ source (is_some atr) "ATR" ++ source (is_some obv) "OBV")%list in
  let success := match sources with [] => false | _ => true end in
  (* lines 298-313: the API as a backup for RSI and MACD *)
  let backup := negb success || negb (is_some calculated_rsi) || negb (macd_nonempty macd) in
  let api_rsi := nonzero (MarketData.tr_rsi api_result) in
  let rsi_from_api := backup && negb (is_some calculated_rsi) && is_some api_rsi in
  let rsi := if rsi_from_api then api_rsi else calculated_rsi in
  let macd_from_api :=
    backup && negb (macd_nonempty macd) && macd_nonempty (MarketData.tr_macd api_result) in
  let macd := if macd_from_api then MarketData.tr_macd api_result else macd in
  let sources :=
    (sources ++ source rsi_from_api "RSI (API)" ++ source macd_from_api "MACD (API)")%list in
  let success := success || (backup && MarketData.tr_success api_result) in
  (* lines 315-326 *)
  {| er_success := success;
     er_rsi := rsi;
     er_macd := macd;
     er_bollinger := bollinger;
     er_stochastic := stochastic;
     er_adx := adx;
     er_moving_averages := ma;
     er_atr := atr;
     er_obv := obv;
     er_errors :=
       if success then None
       else if negb (is_some (nonzero rsi)) && negb (macd_nonempty macd) then
         Some ["Unable to calculate indicators - insufficient data"]
       else Some [];
     er_calculation_source :=
       match sources with
       | [] => Missing
       | _ => Bound (join ", " sources)
       end |}.

End EnhancedIndicators.

(** The keys of the result of [get_enhanced_technical_indicators] that the
    engine reads. *)
Definition enhanced_data_of (r : EnhancedIndicators.enhanced_result) : technical_dict :=
  {| td_rsi := of_option (EnhancedIndicators.er_rsi r);
     td_macd := Bound (EnhancedIndicators.er_macd r);
     td_bollinger :=
       of_option
         (option_map
            (fun v => {| bollinger_upper := Bound (EnhancedIndicators.bv_upper v);
                         bollinger_lower := Bound (EnhancedIndicators.bv_lower v);
                         bollinger_percent_b := Bound (EnhancedIndicators.bv_percent_b v) |})
            (EnhancedIndicators.er_bollinger r));
     td_stochastic :=
       of_option
         (option_map (fun v => {| stochastic_k := Bound (EnhancedIndicators.sv_k v) |})
            (EnhancedIndicators.er_stochastic r));
     td_adx :=
       of_option
         (option_map
            (fun v => {| adx_adx := Bound (EnhancedIndicators.av_adx v);
                         adx_di_plus := Bound (EnhancedIndicators.av_di_plus v);
                         adx_di_minus := Bound (EnhancedIndicators.av_di_minus v) |})
            (EnhancedIndicators.er_adx r));
     td_moving_averages :=
       of_option
         (option_map
            (fun v => {| ma_sma_20 := Bound (EnhancedIndicators.mav_sma_20 v);
                         ma_sma_50 := of_option (EnhancedIndicators.mav_sma_50 v);
                         ma_above_sma_20 := Bound (EnhancedIndicators.mav_above_sma_20 v);
                         ma_above_sma_50 :=
                           of_option (EnhancedIndicators.mav_above_sma_50 v) |})
            (EnhancedIndicators.er_moving_averages r));
     td_atr := of_option (EnhancedIndicators.er_atr r) |}.

(** ** The callers: [main.py] and [app_enhanced.py] *)

(** The sentiment both callers pass on when there is no news to analyze. *)
Definition neutral_sentiment_result : sentiment_data_dict :=
  {| sd_success := false;
     sd_sentiment := Bound {| sent_overall_score := Bound 0.0;
                              sent_label := Bound "neutral" |} |}.

(** [news_result.get('count', 0) > 0] *)
Definition has_articles (count : option Z) : result bool :=
  match count with
  | Some n => Ok (0 <? n)%Z
  | None => Raise (TypeError "'>' not supported between instances of 'NoneType' and 'int'")
  end.

(** [main.py], lines 96-100: the quote is printed with [:.2f], and its
    change compared with 0. *)
Definition print_quote (quote : option MarketData.quote_dict) : result unit :=
  match quote with
  | None => Ok tt
  | Some q =>
      match MarketData.quote_price q with
      | None => Raise (TypeError "unsupported format string passed to NoneType.__format__")
      | Some _ =>
          match MarketData.quote_changesPercentage q with
          | None =>
              Raise (TypeError
                       "'>' not supported between instances of 'NoneType' and 'int'")
          | Some _ =>
              match MarketData.quote_change q with
              | None =>
                  Raise (TypeError
                           "unsupported format string passed to NoneType.__format__")
              | Some _ => Ok tt
              end
          end
      end
  end.

(** [analyze_stock] of [main.py], lines 35-132, with [verbose] false: the
    ['signal'] of the dictionary it returns.  Of the printing only what can
    raise is kept.  The arguments are the results of the fetches the
    function makes. *)
Definition analyze_stock (symbol : string) (news_result : NewsApi.news_result)
    (loaded : option SentimentAnalyzer.pipeline_t)
    (quote_result : MarketData.quote_result)
    (rsi_result rsi_result_av : MarketData.rsi_result)
    (macd_result macd_result_av : MarketData.macd_result) : result response_t :=
  let symbol := upper symbol in
  let article_count :=
    if NewsApi.nr_success news_result then get_default (NewsApi.nr_count news_result) 0%Z
    else Some 0%Z in
  some <- has_articles article_count ;;
  let sentiment_result :=
    if some then
      let headlines := headlines_of news_result in
      let sentiment_result := get_sentiment_score loaded (Headlines headlines) in
      if sr_success sentiment_result then sentiment_data_of sentiment_result
      else neutral_sentiment_result
    else neutral_sentiment_result in
  let technical_result :=
    MarketData.get_technical_indicators quote_result rsi_result rsi_result_av
      macd_result macd_result_av in
  _ <- (if MarketData.tr_success technical_result then
          print_quote (MarketData.tr_quote technical_result)
        else Ok tt) ;;
  Ok (generate_signal symbol (technical_data_of technical_result) sentiment_result
        (Some (news_data_of news_result)) None None).

(** [{}] as price data. *)
Definition empty_price : price_dict := Build_price_dict Missing Missing Missing.

(** [analyze_stock_web] of [app_enhanced.py], lines 259-300: the
    ['signal'] of the dictionary it returns.  The arguments are the results
    of the fetches the function makes before it generates the signal. *)
Definition analyze_stock_web (symbol : string) (price_success : bool)
    (price_data_result : price_dict) (news_result : NewsApi.news_result)
    (loaded : option SentimentAnalyzer.pipeline_t)
    (hist_success : bool) (hist_data : EnhancedIndicators.dataframe)
    (api_result : MarketData.technical_result) (stats_result : stats_data_dict)
  : result response_t :=
  let price_data := if price_success then price_data_result else empty_price in
  some <- (if NewsApi.nr_success news_result then
             has_articles (get_default (NewsApi.nr_count news_result) 0%Z)
           else Ok false) ;;
  let sentiment_result :=
    if some then sentiment_data_of (get_sentiment_score loaded (Headlines (headlines_of news_result)))
    else neutral_sentiment_result in
  let hist_data_for_calc := if hist_success then Some hist_data else None in
  let technical_result :=
    EnhancedIndicators.get_enhanced_technical_indicators hist_data_for_calc api_result in
  Ok (generate_signal symbol (enhanced_data_of technical_result) sentiment_result
        (Some (news_data_of news_result)) (Some price_data) (Some stats_result)).

(** [hist_data is not None and not hist_data.empty and len(hist_data) >= 26] *)
Definition usable_history (hist_data : option EnhancedIndicators.dataframe) : bool :=
  match hist_data with
  | Some df =>
      negb (EnhancedIndicators.df_empty df) && (26 <=? EnhancedIndicators.df_len df)%Z
  | None => false
  end.

(** A model for the examples: sure of good news when it reads of profit,
    and failing on every other text. *)
Definition sample_model : SentimentAnalyzer.pipeline_t :=
  fun text =>
    if contains "profit" (lower text) then Ok ("LABEL_2", 0.9)
    else Raise (TypeError "model failure").

(** ** Comparisons *)

Section Comparisons.

Lemma ltb_true (x y : Q) : ltb x y = true <-> x < y.
Proof.
  unfold ltb. rewrite negb_true_iff. split; intro H.
  - apply Qnot_le_lt. intro Hle. apply Qle_bool_iff in Hle. congruence.
  - destruct (Qle_bool y x) eqn:E; [|reflexivity].
    apply Qle_bool_iff in E. lra.
Qed.

Lemma ltb_false (x y : Q) : ltb x y = false <-> y <= x.
Proof.
  unfold ltb. rewrite negb_false_iff. apply Qle_bool_iff.
Qed.

Lemma leb_true (x y : Q) : leb x y = true <-> x <= y.
Proof. apply Qle_bool_iff. Qed.

Lemma leb_false (x y : Q) : leb x y = false <-> y < x.
Proof.
  unfold leb. split; intro H.
  - apply Qnot_le_lt. intro Hle. apply Qle_bool_iff in Hle. congruence.
  - destruct (Qle_bool x y) eqn:E; [|reflexivity].
    apply Qle_bool_iff in E. lra.
Qed.

Lemma gtb_true (x y : Q) : gtb x y = true <-> y < x.
Proof. apply ltb_true. Qed.

Lemma gtb_false (x y : Q) : gtb x y = false <-> x <= y.
Proof. apply ltb_false. Qed.

Lemma geb_true (x y : Q) : geb x y = true <-> y <= x.
Proof. apply leb_true. Qed.

Lemma geb_false (x y : Q) : geb x y = false <-> x < y.
Proof. apply leb_false. Qed.

Lemma is_true_false (x : Q) : is_true x = false <-> x == 0.
Proof.
  unfold is_true. rewrite negb_false_iff. apply Qeq_bool_iff.
Qed.

Lemma is_true_true (x : Q) : is_true x = true <-> ~ x == 0.
Proof.
  unfold is_true. rewrite negb_true_iff. split; intro H.
  - intro E. apply Qeq_bool_iff in E. congruence.
  - destruct (Qeq_bool x 0) eqn:E; [|reflexivity].
    apply Qeq_bool_iff in E. contradiction.
Qed.

End Comparisons.

(** Turn the recorded outcomes of comparisons into order facts. *)
Ltac cmp_facts :=
  repeat match goal with
  | H : ltb _ _ = true |- _ => apply ltb_true in H
  | H : ltb _ _ = false |- _ => apply ltb_false in H
  | H : leb _ _ = true |- _ => apply leb_true in H
  | H : leb _ _ = false |- _ => apply leb_false in H
  | H : gtb _ _ = true |- _ => apply gtb_true in H
  | H : gtb _ _ = false |- _ => apply gtb_false in H
  | H : geb _ _ = true |- _ => apply geb_true in H
  | H : geb _ _ = false |- _ => apply geb_false in H
  | H : is_true _ = true |- _ => apply is_true_true in H
  | H : is_true _ = false |- _ => apply is_true_false in H
  end.

(** Case analysis on a comparison of the goal. *)
Ltac split_cmp :=
  match goal with
  | |- context [ltb ?a ?b] => destruct (ltb a b) eqn:?
  | |- context [leb ?a ?b] => destruct (leb a b) eqn:?
  | |- context [gtb ?a ?b] => destruct (gtb a b) eqn:?
  | |- context [geb ?a ?b] => destruct (geb a b) eqn:?
  | |- context [is_true ?a] => destruct (is_true a) eqn:?
  end.

(** ** The scorer *)

Section Scorer.

Import SignalEngine.

(** C6. An RSI of exactly 30 is not "below 30": the buy side adds 70% of the
    RSI weight, 0.25 * 0.7 = 0.175, with the "moderately oversold" reason. *)
Theorem buy_rsi_at_30 (rsi : Q) (st : scoring) :
  rsi == 30 ->
  buy_rsi (Some rsi) st
  = fire st (buy_weights_rsi * 0.7) ("○ RSI moderately oversold (" ++ format_f 1 rsi ++ ")")
  /\ score (buy_rsi (Some rsi) st) == score st + 0.175
  /\ ~ score (buy_rsi (Some rsi) st) == score st + buy_weights_rsi.
Proof.
  intro H. unfold buy_rsi.
  assert (L30 : ltb rsi 30 = false) by (apply ltb_false; lra).
  assert (L40 : ltb rsi 40 = true) by (apply ltb_true; lra).
  rewrite L30, L40. split; [reflexivity|].
  unfold fire, buy_weights_rsi; simpl. split; [lra|].
  intro E. lra.
Qed.

Lemma buy_rsi_at_30_witness :
  30 == 30 /\ score (buy_rsi (Some 30) scoring_init) == 0.175.
Proof.
  split; [reflexivity|].
  destruct (buy_rsi_at_30 30 scoring_init (Qeq_refl 30)) as [_ [H _]].
  rewrite H. reflexivity.
Defined.

(** C7. With the current price and both 52-week levels present and the high
    equal to the low, the position in range is the constant 0.5 (no
    division), and the momentum and the overextension category leave their
    score and conditions as they were, without raising. *)
Theorem degenerate_range_contributes_nothing (price high low : Q) (b s : scoring) :
  high == low ->
  position_in_range price high low = Ok 0.5
  /\ buy_momentum (Some price) (Some high) (Some low) b = Ok b
  /\ sell_overextension (Some price) (Some high) (Some low) s = Ok s.
Proof.
  intro H.
  assert (P : position_in_range price high low = Ok 0.5).
  { unfold position_in_range.
    assert (G : gtb (high - low) 0 = false) by (apply gtb_false; lra).
    rewrite G. reflexivity. }
  split; [exact P|].
  unfold buy_momentum, sell_overextension, nonzero.
  destruct (is_true price), (is_true high), (is_true low); try (split; reflexivity).
  rewrite P. split; reflexivity.
Qed.

Lemma degenerate_range_contributes_nothing_witness :
  120 == (240 # 2)
  /\ buy_momentum (Some 100) (Some 120) (Some (240 # 2)) scoring_init = Ok scoring_init
  /\ sell_overextension (Some 100) (Some 120) (Some (240 # 2)) scoring_init = Ok scoring_init.
Proof.
  assert (E : 120 == (240 # 2)) by reflexivity.
  split; [exact E|].
  exact (proj2 (degenerate_range_contributes_nothing 100 120 (240 # 2)
                  scoring_init scoring_init E)).
Defined.

(** Stochastic %K: a non-zero value below 20 earns the 0.05 buy bonus and a
    value above 80 the 0.05 sell bonus. *)
Lemma stochastic_bonus (k : Q) (st : scoring) :
  (~ k == 0 -> k < 20 ->
   buy_stochastic (Some {| stochastic_k := Bound k |}) st
   = fire_additional st 0.05 ("✓ Stochastic oversold (" ++ format_f 0 k ++ ")"))
  /\ (80 < k ->
      sell_stochastic (Some {| stochastic_k := Bound k |}) st
      = fire_additional st 0.05 ("⚠️ Stochastic overbought (" ++ format_f 0 k ++ ")")).
Proof.
  unfold buy_stochastic, sell_stochastic; simpl. split.
  - intros Hnz Hlt.
    assert (T : is_true k = true) by (apply is_true_true; exact Hnz).
    assert (L : ltb k 20 = true) by (apply ltb_true; exact Hlt).
    rewrite T, L. reflexivity.
  - intro Hgt.
    assert (T : is_true k = true) by (apply is_true_true; lra).
    assert (G : gtb k 80 = true) by (apply gtb_true; exact Hgt).
    rewrite T, G. reflexivity.
Qed.

(** C4. A stochastic %K of exactly 0 is below 20, but [stoch_k and
    stoch_k < 20] is false for it: the buy side is left unchanged, no 0.05
    bonus and no reason. *)
Theorem stochastic_zero_earns_no_bonus (st : scoring) :
  buy_stochastic (Some {| stochastic_k := Bound 0 |}) st = st
  /\ ~ score (buy_stochastic (Some {| stochastic_k := Bound 0 |}) st) == score st + 0.05.
Proof.
  split; [reflexivity|].
  change (buy_stochastic (Some {| stochastic_k := Bound 0 |}) st) with st.
  intro E. lra.
Qed.

(** *** Categories without input *)

Lemma rsi_skipped (st : scoring) : buy_rsi None st = st /\ sell_rsi None st = st.
Proof. split; reflexivity. Qed.

Lemma macd_skipped (macd_line signal_line macd_histogram : option Q) (st : scoring) :
  macd_line = None \/ signal_line = None ->
  buy_macd macd_line signal_line macd_histogram st = st
  /\ sell_macd macd_line signal_line st = st.
Proof.
  intros [-> | ->]; unfold buy_macd, sell_macd.
  - split; reflexivity.
  - destruct macd_line; split; reflexivity.
Qed.

Lemma momentum_skipped (current_price high low : option Q) (st : scoring) :
  current_price = None \/ high = None \/ low = None ->
  buy_momentum current_price high low st = Ok st
  /\ sell_overextension current_price high low st = Ok st.
Proof.
  intros [-> | [-> | ->]]; unfold buy_momentum, sell_overextension; simpl.
  - split; reflexivity.
  - destruct (nonzero current_price); split; reflexivity.
  - destruct (nonzero current_price), (nonzero high); split; reflexivity.
Qed.

Lemma valuation_skipped (st : scoring) : buy_valuation None st = st.
Proof. reflexivity. Qed.

Lemma volume_skipped (volume avg_volume : option Q) (st : scoring) :
  volume = None \/ avg_volume = None -> buy_volume volume avg_volume st = Ok st.
Proof.
  intros [-> | ->]; unfold buy_volume; simpl.
  - reflexivity.
  - destruct (nonzero volume); reflexivity.
Qed.

Lemma risk_factors_skipped (st : scoring) : sell_risk_factors None None st = st.
Proof. destruct st; reflexivity. Qed.

Lemma sentiment_skipped (st : scoring) :
  buy_sentiment SIGNAL_RULES (Some 0.0) st = Ok st
  /\ sell_sentiment SIGNAL_RULES (Some 0.0) st = Ok st.
Proof. split; reflexivity. Qed.

(** The four secondary indicators: key missing from [technical_data]
    (the default [{}]) or bound to [None]. *)
Lemma secondary_skipped (current_price : option Q) (st : scoring) :
  (forall bb, bb = None \/ bb = Some empty_bollinger ->
     buy_bollinger bb current_price st = Ok st
     /\ sell_bollinger bb current_price st = Ok st)
  /\ (forall d, d = None \/ d = Some empty_stochastic ->
        buy_stochastic d st = st /\ sell_stochastic d st = st)
  /\ (forall d, d = None \/ d = Some empty_ma ->
        buy_moving_averages d st = st /\ sell_moving_averages d st = st)
  /\ (forall d, d = None \/ d = Some empty_adx ->
        buy_adx d st = st /\ sell_adx d st = st).
Proof.
  repeat apply conj; intros d [-> | ->]; split; reflexivity.
Qed.

End Scorer.

(** ** The resolver and the engine *)

Section Engine.

Import SignalEngine.

Lemma append_item_app (l : list string) (x : string) : append_item l x = (l ++ [x])%list.
Proof. reflexivity. Qed.

Lemma price_context_extends (current_price price_change_pct : option Q) (reasons : list string) :
  exists rest, price_context current_price price_change_pct reasons = (reasons ++ rest)%list.
Proof.
  unfold price_context.
  destruct (nonzero current_price), price_change_pct;
    try (exists []; rewrite app_nil_r; reflexivity).
  eexists. apply append_item_app.
Qed.

Lemma news_context_extends (news_count : option Z) (reasons : list string) (n : Z)
    (reasons' : list string) :
  news_context news_count reasons = Ok (n, reasons') ->
  news_count = Some n /\ exists rest, reasons' = (reasons ++ rest)%list.
Proof.
  unfold news_context. destruct news_count as [k|]; [|discriminate].
  destruct (0 <? k)%Z; intro H; inversion H; subst; split; try reflexivity.
  - eexists. apply append_item_app.
  - exists []. rewrite app_nil_r. reflexivity.
Qed.

(** Every branch of the resolver keeps the reasons it is given in front. *)
Lemma resolve_reasons_extend (reasons : list string) (buy sell : scoring)
    (beta debt_to_equity rsi : option Q) :
  exists rest,
    dec_reasons (resolve reasons buy sell beta debt_to_equity rsi) = (reasons ++ rest)%list.
Proof.
  unfold resolve.
  destruct (geb (score buy) 0.65 && ltb (score sell) 0.3); [eexists; reflexivity|].
  destruct (geb (score sell) 0.60 && ltb (score buy) 0.3); [eexists; reflexivity|].
  destruct (gtb (score buy) (score sell) && geb (score buy) 0.45); [eexists; reflexivity|].
  destruct (gtb (score sell) (score buy) && geb (score sell) 0.45); [eexists; reflexivity|].
  destruct (ltb (Qabs (score buy - score sell)) 0.1);
    destruct (conditions buy), (conditions sell); cbn [dec_reasons];
    rewrite ?append_item_app, <- ?app_assoc; eexists; reflexivity.
Qed.

(** A SELL decision always carries the risk level High. *)
Lemma resolve_sell_is_high (reasons : list string) (buy sell : scoring)
    (beta debt_to_equity rsi : option Q) :
  dec_signal (resolve reasons buy sell beta debt_to_equity rsi) = SELL ->
  dec_risk_level (resolve reasons buy sell beta debt_to_equity rsi) = High.
Proof.
  unfold resolve.
  destruct (geb (score buy) 0.65 && ltb (score sell) 0.3); [discriminate|].
  destruct (geb (score sell) 0.60 && ltb (score buy) 0.3); [reflexivity|].
  destruct (gtb (score buy) (score sell) && geb (score buy) 0.45); [discriminate|].
  destruct (gtb (score sell) (score buy) && geb (score sell) 0.45); [reflexivity|].
  destruct (ltb (Qabs (score buy - score sell)) 0.1); discriminate.
Qed.

(** What a successful run of the engine returns, in terms of the resolver
    and the planner. *)
Lemma generate_signal_inv (rules : rules_t) (td : technical_dict) (sd : sentiment_data_dict)
    (nd : option news_dict) (pd : option price_dict) (std : option stats_data_dict)
    (r : signal_result) :
  SignalEngine.generate_signal rules td sd nd pd std = Ok r ->
  exists buy sell rest,
    let m := res_metrics r in
    let d := resolve (missing_data_reasons (m_rsi m) (m_macd m) (m_macd_signal m))
               buy sell (m_beta m) (m_debt_to_equity m) (m_rsi m) in
    m_rsi m = get (td_rsi td)
    /\ res_signal r = dec_signal d
    /\ res_confidence r = dec_confidence d
    /\ res_risk_level r = dec_risk_level d
    /\ res_reasons r = (dec_reasons d ++ rest)%list
    /\ res_buy_score r = score buy
    /\ res_sell_score r = score sell
    /\ _calculate_swing_trade_levels (res_signal r) (m_price m) td std (res_confidence r)
       = Ok (res_swing_trade r)
    /\ exists macd_data,
         attr_get (get_default (td_macd td) empty_macd) = Ok macd_data
         /\ m_macd m = get (macd_macd macd_data)
         /\ m_macd_signal m = get (macd_signal macd_data).
Proof.
  unfold SignalEngine.generate_signal. intro H.
  bind_inv H. bind_inv H. bind_inv H. bind_inv H. bind_inv H. bind_inv H. bind_inv H.
  match goal with p : (Z * list string)%type |- _ => destruct p as [n reasons'] end.
  bind_inv H. inversion H; subst; clear H. cbn.
  match goal with E : news_context _ _ = Ok _ |- _ =>
    apply news_context_extends in E; destruct E as [_ [rest2 ->]] end.
  match goal with |- context [price_context ?c ?p ?rs] =>
    destruct (price_context_extends c p rs) as [rest1 ->] end.
  do 2 eexists. exists (rest1 ++ rest2)%list.
  repeat split; try reflexivity; try assumption.
  - rewrite <- app_assoc. reflexivity.
  - eexists. repeat split.
Qed.

(** A plan the engine returns with a BUY signal is a plan of the planner's
    BUY branch, for the price and the confidence of the result. *)
Lemma engine_buy_plan (rules : rules_t) (td : technical_dict) (sd : sentiment_data_dict)
    (nd : option news_dict) (pd : option price_dict) (std : option stats_data_dict)
    (r : signal_result) (plan : recommendation_t) :
  SignalEngine.generate_signal rules td sd nd pd std = Ok r ->
  res_signal r = BUY ->
  res_swing_trade r = Some plan ->
  _calculate_swing_trade_levels BUY (m_price (res_metrics r)) td std (res_confidence r)
  = Ok (Some plan).
Proof.
  intros H S P.
  destruct (generate_signal_inv _ _ _ _ _ _ _ H) as (buy & sell & rest & I).
  cbv zeta in I. destruct I as (_ & _ & _ & _ & _ & _ & _ & Hp & _).
  rewrite S, P in Hp. exact Hp.
Qed.

(** C5. Whenever the engine resolves to SELL, the risk level it returns is
    High, whatever beta, debt-to-equity and RSI are. *)
Theorem sell_is_high_risk (rules : rules_t) (td : technical_dict) (sd : sentiment_data_dict)
    (nd : option news_dict) (pd : option price_dict) (std : option stats_data_dict)
    (r : signal_result) :
  SignalEngine.generate_signal rules td sd nd pd std = Ok r ->
  res_signal r = SELL ->
  res_risk_level r = High.
Proof.
  intros H S.
  destruct (generate_signal_inv _ _ _ _ _ _ _ H)
    as (buy & sell & rest & _ & Hs & _ & Hr & _).
  rewrite Hr. apply resolve_sell_is_high. rewrite <- Hs. exact S.
Qed.

End Engine.

(** ** The swing-trade planner *)

Section Planner.

Import SignalEngine.

Lemma max2_ge_r (a b : Q) : b <= max2 a b.
Proof. unfold max2. split_cmp; cmp_facts; lra. Qed.

Lemma max2_ge_l (a b : Q) : a <= max2 a b.
Proof. unfold max2. split_cmp; cmp_facts; lra. Qed.

Lemma min2_le_l (a b : Q) : min2 a b <= a.
Proof. unfold min2. split_cmp; cmp_facts; lra. Qed.

Lemma nonzero_some (v : option Q) (x : Q) : nonzero v = Some x -> v = Some x /\ ~ x == 0.
Proof.
  unfold nonzero. destruct v as [y|]; [|discriminate].
  destruct (is_true y) eqn:T; [|discriminate].
  intro H; inversion H; subst. split; [reflexivity|]. apply is_true_true, T.
Qed.

(** The division of the planner, guarded by [risk > 0], never raises. *)
Lemma risk_reward_total (entry_price target_price stop_loss : Q) :
  exists ratio,
    risk_reward entry_price target_price stop_loss = Ok ratio
    /\ (entry_price <= stop_loss -> ratio = 0)
    /\ (stop_loss < entry_price ->
        ratio = (target_price - entry_price) / (entry_price - stop_loss)).
Proof.
  unfold risk_reward.
  destruct (gtb (entry_price - stop_loss) 0) eqn:G; cmp_facts.
  - unfold div.
    destruct (Qeq_bool (entry_price - stop_loss) 0) eqn:Z.
    + apply Qeq_bool_iff in Z. lra.
    + eexists; split; [reflexivity|]. split; intro; [lra | reflexivity].
  - exists 0. split; [reflexivity|]. split; intro; [reflexivity | lra].
Qed.

(** The entry price of a BUY plan is the current price or a pullback below
    [current_price * 0.98]. *)
Lemma buy_entry_cases (current_price : Q) (rsi bb_lower sma_20 : option Q) :
  let entry_price := fst (buy_entry current_price rsi bb_lower sma_20) in
  entry_price = current_price \/ entry_price <= current_price * 0.98.
Proof.
  unfold buy_entry.
  destruct (num_and rsi _); [left; reflexivity|].
  destruct (num_and bb_lower _); [left; reflexivity|].
  right. cbn [fst].
  destruct (nonzero sma_20); [apply min2_le_l | lra].
Qed.

(** What the planner returns for BUY, in terms of its parts. *)
Lemma buy_plan_inv (current_price : option Q) (td : technical_dict)
    (std : option stats_data_dict) (confidence : Q) (plan : recommendation_t) :
  _calculate_swing_trade_levels BUY current_price td std confidence = Ok (Some plan) ->
  exists price atr_value rsi bb_lower sma_20 bb_upper sma_50 high low ratio,
    let entry_price := fst (buy_entry price rsi bb_lower sma_20) in
    let target_price := buy_target price confidence bb_upper sma_50 high in
    let stop_loss := buy_stop_loss price entry_price atr_value bb_lower sma_20 low in
    current_price = Some price
    /\ rec_action plan = BUY
    /\ rec_current_price plan = price
    /\ rec_entry_price plan = Some entry_price
    /\ rec_target_price plan = Some target_price
    /\ rec_stop_loss plan = Some stop_loss
    /\ rec_risk_reward_ratio plan = Some ratio
    /\ risk_reward entry_price target_price stop_loss = Ok ratio.
Proof.
  unfold _calculate_swing_trade_levels. intro H.
  destruct (nonzero current_price) as [price|] eqn:N; [|discriminate].
  apply nonzero_some in N. destruct N as [-> _].
  bind_inv H. bind_inv H.
  match goal with p : (option Q * option Q)%type |- _ => destruct p as [high low] end.
  bind_inv H. inversion H; subst; clear H.
  match goal with E : plan_buy _ _ _ _ _ _ _ _ = Ok _ |- _ =>
    unfold plan_buy in E; bind_inv E; bind_inv E;
    destruct (buy_entry _ _ _ _) as [entry_price entry_note] eqn:B;
    bind_inv E; inversion E; subst; clear E end.
  do 10 eexists. cbn -[buy_entry buy_target buy_stop_loss risk_reward].
  rewrite B. cbn [fst].
  repeat split; try reflexivity. eassumption.
Qed.

(** C8. The stop-loss of a BUY plan is never below 92% of its entry price:
    the loss from entry to stop is at most 8% of the entry price. *)
Theorem buy_stop_loss_floor (current_price : option Q) (td : technical_dict)
    (std : option stats_data_dict) (confidence : Q) (plan : recommendation_t) :
  _calculate_swing_trade_levels BUY current_price td std confidence = Ok (Some plan) ->
  exists entry_price stop_loss,
    rec_entry_price plan = Some entry_price
    /\ rec_stop_loss plan = Some stop_loss
    /\ entry_price * 0.92 <= stop_loss
    /\ entry_price - stop_loss <= 0.08 * entry_price.
Proof.
  intro H.
  destruct (buy_plan_inv _ _ _ _ _ H)
    as (price & atr_value & rsi & bb_lower & sma_20 & bb_upper & sma_50 & high & low & ratio
        & _ & _ & _ & He & _ & Hs & _).
  do 2 eexists. split; [exact He|]. split; [exact Hs|].
  unfold buy_stop_loss.
  match goal with |- _ <= max2 ?a ?b /\ _ => pose proof (max2_ge_r a b) as M end.
  split; lra.
Qed.

Lemma buy_stop_loss_floor_witness :
  exists plan entry_price stop_loss,
    _calculate_swing_trade_levels BUY (Some 100) scenario_A_technical scenario_A_stats 0.95
    = Ok (Some plan)
    /\ rec_entry_price plan = Some entry_price
    /\ rec_stop_loss plan = Some stop_loss
    /\ entry_price * 0.92 <= stop_loss.
Proof.
  assert (H : exists plan,
             _calculate_swing_trade_levels BUY (Some 100) scenario_A_technical
               scenario_A_stats 0.95 = Ok (Some plan))
    by (eexists; vm_compute; reflexivity).
  destruct H as [plan H].
  destruct (buy_stop_loss_floor _ _ _ _ _ H) as (e & s & He & Hs & Hf & _).
  exists plan, e, s. repeat split; assumption.
Defined.

(** C2, as the code has it.  The risk:reward ratio of a BUY plan is 0 when
    the stop is at or above the entry, and (target - entry) / (entry - stop)
    otherwise.  It is non-negative when the target is at or above the entry;
    with the stop below the entry and the target below the entry it is
    negative: only the denominator is guarded. *)
Theorem buy_risk_reward_ratio (current_price : option Q) (td : technical_dict)
    (std : option stats_data_dict) (confidence : Q) (plan : recommendation_t) :
  _calculate_swing_trade_levels BUY current_price td std confidence = Ok (Some plan) ->
  exists entry_price target_price stop_loss ratio,
    rec_entry_price plan = Some entry_price
    /\ rec_target_price plan = Some target_price
    /\ rec_stop_loss plan = Some stop_loss
    /\ rec_risk_reward_ratio plan = Some ratio
    /\ (entry_price <= stop_loss -> ratio = 0)
    /\ (stop_loss < entry_price ->
        ratio = (target_price - entry_price) / (entry_price - stop_loss))
    /\ (entry_price <= target_price -> 0 <= ratio)
    /\ (stop_loss < entry_price -> target_price < entry_price -> ratio < 0).
Proof.
  intro H.
  destruct (buy_plan_inv _ _ _ _ _ H)
    as (price & atr_value & rsi & bb_lower & sma_20 & bb_upper & sma_50 & high & low & ratio
        & _ & _ & _ & He & Ht & Hs & Hr & Hrr).
  cbv zeta in *.
  set (entry_price := fst (buy_entry price rsi bb_lower sma_20)) in *.
  set (target_price := buy_target price confidence bb_upper sma_50 high) in *.
  set (stop_loss := buy_stop_loss price entry_price atr_value bb_lower sma_20 low) in *.
  destruct (risk_reward_total entry_price target_price stop_loss) as (ratio' & R & Z & P).
  rewrite R in Hrr. inversion Hrr; subst ratio'; clear Hrr.
  exists entry_price, target_price, stop_loss, ratio.
  repeat split; try assumption.
  - intro Hle.
    destruct (Qlt_le_dec stop_loss entry_price) as [Hlt | Hge].
    + rewrite (P Hlt). apply Qle_shift_div_l; lra.
    + rewrite (Z Hge). lra.
  - intros Hlt Hneg. rewrite (P Hlt). apply Qlt_shift_div_r; lra.
Qed.

Lemma buy_risk_reward_ratio_witness :
  exists plan ratio,
    _calculate_swing_trade_levels BUY (Some 100) scenario_A_technical scenario_A_stats 0.95
    = Ok (Some plan)
    /\ rec_risk_reward_ratio plan = Some ratio
    /\ 0 <= ratio.
Proof.
  assert (H : exists plan,
             _calculate_swing_trade_levels BUY (Some 100) scenario_A_technical
               scenario_A_stats 0.95 = Ok (Some plan)
             /\ rec_entry_price plan = Some 100
             /\ rec_target_price plan = Some 125.0)
    by (eexists; vm_compute; repeat split; reflexivity).
  destruct H as (plan & H & He & Ht).
  destruct (buy_risk_reward_ratio _ _ _ _ _ H)
    as (e & t & s & ratio & He' & Ht' & _ & Hr & _ & _ & Hpos & _).
  exists plan, ratio. repeat split; try assumption.
  apply Hpos.
  rewrite He in He'. rewrite Ht in Ht'. inversion He'. inversion Ht'.
  vm_compute. discriminate.
Defined.

(** C2, as stated, fails: with the price above the upper Bollinger band the
    engine answers BUY with entry 100, target 90 and stop 96, and reports the
    ratio (90 - 100) / (100 - 96) = -2.5. *)
Lemma negative_risk_reward_ratio :
  exists r plan entry_price target_price ratio,
    SignalEngine.generate_signal SIGNAL_RULES above_band_technical
      (sentiment_of 0.4 "positive") None (price_of 100 1.5) None = Ok r
    /\ res_signal r = BUY
    /\ res_swing_trade r = Some plan
    /\ rec_entry_price plan = Some entry_price
    /\ rec_target_price plan = Some target_price
    /\ rec_risk_reward_ratio plan = Some ratio
    /\ target_price <= entry_price
    /\ ratio == -2.5
    /\ ratio < 0.
Proof.
  do 5 eexists. vm_compute.
  repeat split; try reflexivity; discriminate.
Qed.

(** C10, for a positive price.  The entry of a BUY plan is the current price
    or a pullback of at least 2% below it, so it never exceeds the current
    price. *)
Theorem buy_entry_at_most_price (price : Q) (td : technical_dict)
    (std : option stats_data_dict) (confidence : Q) (plan : recommendation_t) :
  0 < price ->
  _calculate_swing_trade_levels BUY (Some price) td std confidence = Ok (Some plan) ->
  exists entry_price,
    rec_entry_price plan = Some entry_price
    /\ entry_price <= price.
Proof.
  intros Hpos H.
  destruct (buy_plan_inv _ _ _ _ _ H)
    as (price' & atr_value & rsi & bb_lower & sma_20 & bb_upper & sma_50 & high & low & ratio
        & Hp & _ & _ & He & _).
  inversion Hp; subst price'; clear Hp.
  eexists. split; [exact He|].
  destruct (buy_entry_cases price rsi bb_lower sma_20) as [-> | Hle]; lra.
Qed.

Lemma buy_entry_at_most_price_witness :
  0 < 100
  /\ exists plan entry_price,
       _calculate_swing_trade_levels BUY (Some 100) macd_only_technical None 0.75
       = Ok (Some plan)
       /\ rec_entry_price plan = Some entry_price
       /\ entry_price <= 100.
Proof.
  assert (P : 0 < 100) by reflexivity.
  split; [exact P|].
  assert (H : exists plan,
             _calculate_swing_trade_levels BUY (Some 100) macd_only_technical None 0.75
             = Ok (Some plan))
    by (eexists; vm_compute; reflexivity).
  destruct H as [plan H].
  destruct (buy_entry_at_most_price 100 _ _ _ _ P H) as (e & He & Hle).
  exists plan, e. repeat split; assumption.
Defined.

(** C10, as stated, fails at a negative price: the 2% pullback of -100 is
    -98, above the current price. *)
Lemma pullback_above_negative_price :
  exists r plan entry_price,
    SignalEngine.generate_signal SIGNAL_RULES macd_only_technical
      (sentiment_of 0.4 "positive") None (price_of (-100) 1.5) None = Ok r
    /\ res_signal r = BUY
    /\ res_swing_trade r = Some plan
    /\ rec_current_price plan = -100
    /\ rec_entry_price plan = Some entry_price
    /\ entry_price == -98
    /\ ~ entry_price <= rec_current_price plan.
Proof.
  do 3 eexists. vm_compute.
  repeat split; try reflexivity.
  intro H. apply H. reflexivity.
Qed.

End Planner.

(** ** Guarded divisions *)

Section GuardedDivisions.

Import SignalEngine.

Lemma div_total (a b : Q) : ~ b == 0 -> div a b = Ok (a / b).
Proof.
  intro H. unfold div. destruct (Qeq_bool b 0) eqn:E; [|reflexivity].
  apply Qeq_bool_iff in E. contradiction.
Qed.

Lemma position_in_range_total (current_price high low : Q) :
  exists position, position_in_range current_price high low = Ok position.
Proof.
  unfold position_in_range. split_cmp; cmp_facts; [|eexists; reflexivity].
  rewrite div_total by lra. eexists; reflexivity.
Qed.

Lemma buy_momentum_total (current_price high low : option Q) (st : scoring) :
  exists st', buy_momentum current_price high low st = Ok st'.
Proof.
  unfold buy_momentum.
  destruct (nonzero current_price) as [p|], (nonzero high) as [h|], (nonzero low) as [l|];
    try (eexists; reflexivity).
  destruct (position_in_range_total p h l) as [pos ->]. cbn [bind].
  repeat split_cmp; eexists; reflexivity.
Qed.

Lemma sell_overextension_total (current_price high low : option Q) (st : scoring) :
  exists st', sell_overextension current_price high low st = Ok st'.
Proof.
  unfold sell_overextension.
  destruct (nonzero current_price) as [p|], (nonzero high) as [h|], (nonzero low) as [l|];
    try (eexists; reflexivity).
  destruct (position_in_range_total p h l) as [pos ->]. cbn [bind].
  repeat split_cmp; eexists; reflexivity.
Qed.

Lemma buy_volume_total (volume avg_volume : option Q) (st : scoring) :
  exists st', buy_volume volume avg_volume st = Ok st'.
Proof.
  unfold buy_volume.
  destruct (nonzero volume) as [v|]; [|eexists; reflexivity].
  destruct (nonzero avg_volume) as [a|] eqn:N; [|eexists; reflexivity].
  apply nonzero_some in N. destruct N as [_ Ha].
  split_cmp; [|eexists; reflexivity].
  rewrite (div_total v a Ha). eexists; reflexivity.
Qed.

Lemma support_entry_total (label : string) (current_price : Q) (level : option Q)
    (better_entries : list string) :
  ~ current_price == 0 ->
  exists entries, support_entry label current_price level better_entries = Ok entries.
Proof.
  intro H. unfold support_entry.
  destruct (nonzero level) as [x|]; [|eexists; reflexivity].
  split_cmp; [|eexists; reflexivity].
  rewrite (div_total _ _ H). eexists; reflexivity.
Qed.

Lemma hold_range_note_total (current_price : Q) (high low : option Q) (notes : list string) :
  exists notes', hold_range_note current_price high low notes = Ok notes'.
Proof.
  unfold hold_range_note.
  destruct (nonzero high) as [h|], (nonzero low) as [l|]; try (eexists; reflexivity).
  destruct (position_in_range_total current_price h l) as [pos ->]. cbn [bind].
  repeat split_cmp; eexists; reflexivity.
Qed.

Lemma attr_get_raises {D : Type} (d : option D) (e : exn) :
  attr_get d = Raise e -> is_zero_division e = false.
Proof.
  destruct d; intro H; inversion H. reflexivity.
Qed.

Lemma sentiment_raises (rules : rules_t) (sentiment_score : option Q) (st : scoring)
    (e : exn) :
  (buy_sentiment rules sentiment_score st = Raise e -> is_zero_division e = false)
  /\ (sell_sentiment rules sentiment_score st = Raise e -> is_zero_division e = false).
Proof.
  unfold buy_sentiment, sell_sentiment.
  destruct sentiment_score; split;
    try (intro H; inversion H; reflexivity);
    repeat split_cmp; discriminate.
Qed.

Lemma bollinger_raises (bollinger : option bollinger_dict) (current_price : option Q)
    (st : scoring) (e : exn) :
  (buy_bollinger bollinger current_price st = Raise e -> is_zero_division e = false)
  /\ (sell_bollinger bollinger current_price st = Raise e -> is_zero_division e = false).
Proof.
  unfold buy_bollinger, sell_bollinger.
  destruct (truthy_dict bollinger_nonempty bollinger), (nonzero current_price);
    try (split; discriminate).
  destruct (get_default _ _); split;
    try (intro H; inversion H; reflexivity);
    repeat split_cmp; discriminate.
Qed.

Lemma buy_side_raises (rules : rules_t) (sentiment_score rsi macd_line signal_line
    macd_histogram current_price high low pe_ratio volume avg_volume : option Q)
    (bollinger : option bollinger_dict) (stochastic : option stochastic_dict)
    (ma_data : option ma_dict) (adx_data : option adx_dict) (e : exn) :
  buy_side rules sentiment_score rsi macd_line signal_line macd_histogram current_price
    high low pe_ratio volume avg_volume bollinger stochastic ma_data adx_data = Raise e ->
  is_zero_division e = false.
Proof.
  unfold buy_side. intro H.
  raise_inv H; [|eapply (proj1 (sentiment_raises _ _ _ _)); eassumption].
  match type of H with context [buy_momentum ?p ?h ?l ?st] =>
    destruct (buy_momentum_total p h l st) as [st1 M] end.
  rewrite M in H; cbn [bind] in H.
  match type of H with context [buy_volume ?v ?a ?st] =>
    destruct (buy_volume_total v a st) as [st2 V] end.
  rewrite V in H; cbn [bind] in H.
  raise_inv H; [discriminate|].
  eapply (proj1 (bollinger_raises _ _ _ _)); eassumption.
Qed.

Lemma sell_side_raises (rules : rules_t) (sentiment_score rsi macd_line signal_line
    current_price high low beta debt_to_equity : option Q)
    (bollinger : option bollinger_dict) (stochastic : option stochastic_dict)
    (ma_data : option ma_dict) (adx_data : option adx_dict) (e : exn) :
  sell_side rules sentiment_score rsi macd_line signal_line current_price high low
    beta debt_to_equity bollinger stochastic ma_data adx_data = Raise e ->
  is_zero_division e = false.
Proof.
  unfold sell_side. intro H.
  raise_inv H; [|eapply (proj2 (sentiment_raises _ _ _ _)); eassumption].
  match type of H with context [sell_overextension ?p ?h ?l ?st] =>
    destruct (sell_overextension_total p h l st) as [st1 M] end.
  rewrite M in H; cbn [bind] in H.
  raise_inv H; [discriminate|].
  eapply (proj2 (bollinger_raises _ _ _ _)); eassumption.
Qed.

Lemma fifty_two_week_levels_raises (std : option stats_data_dict) (e : exn) :
  fifty_two_week_levels std = Raise e -> is_zero_division e = false.
Proof.
  unfold fifty_two_week_levels. destruct std as [d|]; [|discriminate].
  destruct (sdd_success d); [|discriminate].
  intro H. raise_inv H; [discriminate|]. eapply attr_get_raises; eassumption.
Qed.

Lemma plan_buy_raises (current_price confidence atr_value : Q) (rsi : option Q)
    (bollinger : option bollinger_dict) (ma_data : option ma_dict)
    (high low : option Q) (e : exn) :
  plan_buy current_price confidence atr_value rsi bollinger ma_data high low = Raise e ->
  is_zero_division e = false.
Proof.
  unfold plan_buy. intro H.
  raise_inv H; [|eapply attr_get_raises; eassumption].
  raise_inv H; [|eapply attr_get_raises; eassumption].
  destruct (buy_entry _ _ _ _) as [entry_price entry_note].
  match type of H with context [risk_reward ?a ?b ?c] =>
    destruct (risk_reward_total a b c) as (ratio & R & _) end.
  rewrite R in H; cbn [bind] in H. discriminate.
Qed.

Lemma plan_hold_raises (signal : signal_t) (current_price : Q)
    (rsi macd_line signal_line : option Q) (bollinger : option bollinger_dict)
    (ma_data : option ma_dict) (high low : option Q) (e : exn) :
  ~ current_price == 0 ->
  plan_hold signal current_price rsi macd_line signal_line bollinger ma_data high low
  = Raise e ->
  is_zero_division e = false.
Proof.
  unfold plan_hold. intros Hnz H.
  raise_inv H; [|eapply attr_get_raises; eassumption].
  raise_inv H; [|eapply attr_get_raises; eassumption].
  repeat match type of H with context [support_entry ?l ?p ?v ?es] =>
    let S := fresh "S" in
    destruct (support_entry_total l p v es Hnz) as [? S];
    rewrite S in H; cbn [bind] in H end.
  match type of H with context [hold_range_note ?p ?h ?l ?ns] =>
    destruct (hold_range_note_total p h l ns) as [? N] end.
  rewrite N in H; cbn [bind] in H. discriminate.
Qed.

Lemma swing_trade_levels_raise (signal : signal_t) (current_price : option Q)
    (td : technical_dict) (std : option stats_data_dict) (confidence : Q) (e : exn) :
  _calculate_swing_trade_levels signal current_price td std confidence = Raise e ->
  is_zero_division e = false.
Proof.
  unfold _calculate_swing_trade_levels.
  destruct (nonzero current_price) as [price|] eqn:N; [|discriminate].
  apply nonzero_some in N. destruct N as [_ Hnz]. intro H.
  raise_inv H; [|eapply attr_get_raises; eassumption].
  raise_inv H; [|eapply fifty_two_week_levels_raises; eassumption].
  match goal with p : (option Q * option Q)%type |- _ => destruct p as [high low] end.
  destruct signal;
    try (raise_inv H; [discriminate | eapply plan_hold_raises; eassumption]).
  - raise_inv H; [discriminate | eapply plan_buy_raises; eassumption].
  - discriminate.
Qed.

(** X15. Every division of the engine is guarded: whatever the snapshot, a
    run never ends in a [ZeroDivisionError]. *)
Lemma generate_signal_never_divides_by_zero (rules : rules_t) (td : technical_dict)
    (sd : sentiment_data_dict) (nd : option news_dict) (pd : option price_dict)
    (std : option stats_data_dict) (e : exn) :
  SignalEngine.generate_signal rules td sd nd pd std = Raise e ->
  is_zero_division e = false.
Proof.
  unfold SignalEngine.generate_signal. intro H.
  raise_inv H; [|eapply attr_get_raises; eassumption].
  raise_inv H;
    [|match goal with R : read_sentiment _ _ _ = Raise _ |- _ =>
        unfold read_sentiment in R; destruct (sd_success sd); [|discriminate];
        raise_inv R; [discriminate | eapply attr_get_raises; eassumption] end].
  raise_inv H;
    [|match goal with R : read_sentiment _ _ _ = Raise _ |- _ =>
        unfold read_sentiment in R; destruct (sd_success sd); [|discriminate];
        raise_inv R; [discriminate | eapply attr_get_raises; eassumption] end].
  raise_inv H;
    [|match goal with R : read_stats _ = Raise _ |- _ =>
        unfold read_stats in R; destruct std as [d|]; [|discriminate];
        destruct (sdd_success d); [|discriminate];
        raise_inv R; [discriminate | eapply attr_get_raises; eassumption] end].
  raise_inv H; [|eapply buy_side_raises; eassumption].
  raise_inv H; [|eapply sell_side_raises; eassumption].
  raise_inv H;
    [|match goal with R : news_context _ _ = Raise _ |- _ =>
        unfold news_context in R; destruct (read_news_count nd);
        [destruct (0 <? _)%Z; discriminate | inversion R; reflexivity] end].
  match goal with p : (Z * list string)%type |- _ => destruct p as [n reasons'] end.
  raise_inv H; [discriminate|].
  eapply swing_trade_levels_raise; eassumption.
Qed.

End GuardedDivisions.

(** ** Snapshots without data *)

Section EmptySnapshot.

Import SignalEngine.

Lemma absent_get {A : Type} (e : entry A) : absent e = true -> get e = None.
Proof. destruct e; [reflexivity | reflexivity | discriminate]. Qed.

(** A key that is absent reads as [None] or as the default [{}]. *)
Lemma absent_get_default {A : Type} (e : entry A) (default : A) :
  absent e = true -> get_default e default = None \/ get_default e default = Some default.
Proof. destruct e; [right | left | discriminate]; reflexivity. Qed.

Lemma neutral_score (x : Q) (st : scoring) :
  x == 0 ->
  buy_sentiment SIGNAL_RULES (Some x) st = Ok st
  /\ sell_sentiment SIGNAL_RULES (Some x) st = Ok st.
Proof.
  intro H. unfold buy_sentiment, sell_sentiment; cbn [SIGNAL_RULES
    rules_BUY_sentiment_threshold rules_SELL_sentiment_threshold].
  assert (G1 : geb x 0.3 = false) by (apply geb_false; lra).
  assert (G2 : geb x 0.1 = false) by (apply geb_false; lra).
  assert (L1 : leb x (-0.3) = false) by (apply leb_false; lra).
  assert (L2 : leb x (-0.1) = false) by (apply leb_false; lra).
  rewrite G1, G2, L1, L2. split; reflexivity.
Qed.

Lemma neutral_sentiment_reads (sd : sentiment_data_dict) :
  neutral_sentiment sd = true ->
  exists x label,
    read_sentiment sd sent_overall_score 0.0 = Ok (Some x)
    /\ x == 0
    /\ read_sentiment sd sent_label "neutral" = Ok label.
Proof.
  unfold neutral_sentiment, read_sentiment.
  destruct (sd_success sd); cbn [negb orb].
  - destruct (sd_sentiment sd) as [| |s]; try discriminate; cbn.
    + intros _. exists 0.0, (Some "neutral"). repeat split; reflexivity.
    + destruct (sent_overall_score s) as [| |x]; try discriminate; cbn.
      * intros _. exists 0.0. eexists. repeat split; reflexivity.
      * intro E. apply Qeq_bool_iff in E. exists x. eexists.
        repeat split; try reflexivity. exact E.
  - intros _. exists 0.0, (Some "neutral"). repeat split; reflexivity.
Qed.

Lemma no_price_reads (pd : option price_dict) :
  no_price pd = true ->
  match truthy_dict price_nonempty pd with
  | Some d => get (pd_price d)
  | None => None
  end = None.
Proof.
  unfold no_price, truthy_dict. destruct pd as [d|]; [|reflexivity].
  intro H. destruct (price_nonempty d); [apply absent_get, H | reflexivity].
Qed.

Lemma no_fundamentals_reads (std : option stats_data_dict) :
  no_fundamentals std = true ->
  exists stats,
    read_stats std = Ok stats
    /\ stat stats st_beta = None /\ stat stats st_trailingPE = None
    /\ stat stats st_debtToEquity = None /\ stat stats st_fiftyTwoWeekHigh = None
    /\ stat stats st_fiftyTwoWeekLow = None /\ stat stats st_averageVolume = None.
Proof.
  unfold no_fundamentals, read_stats.
  destruct std as [d|]; [|intros _; exists None; repeat split; reflexivity].
  destruct (sdd_success d); cbn [negb orb];
    [|intros _; exists None; repeat split; reflexivity].
  destruct (sdd_data d) as [| |s]; try discriminate; cbn.
  - intros _. exists (Some empty_stats). repeat split; reflexivity.
  - intro H. repeat (apply andb_prop in H; destruct H as [H ?]).
    exists (Some s). cbn [stat]. repeat split; try reflexivity; apply absent_get; assumption.
Qed.

Lemma no_technical_reads (td : technical_dict) :
  no_technical td = true ->
  get (td_rsi td) = None
  /\ get (td_atr td) = None
  /\ (exists m, attr_get (get_default (td_macd td) empty_macd) = Ok m
        /\ get (macd_macd m) = None /\ get (macd_signal m) = None
        /\ get (macd_histogram m) = None)
  /\ (get_default (td_bollinger td) empty_bollinger = None
      \/ get_default (td_bollinger td) empty_bollinger = Some empty_bollinger)
  /\ (get_default (td_stochastic td) empty_stochastic = None
      \/ get_default (td_stochastic td) empty_stochastic = Some empty_stochastic)
  /\ (get_default (td_adx td) empty_adx = None
      \/ get_default (td_adx td) empty_adx = Some empty_adx)
  /\ (get_default (td_moving_averages td) empty_ma = None
      \/ get_default (td_moving_averages td) empty_ma = Some empty_ma).
Proof.
  unfold no_technical. intro H.
  repeat (apply andb_prop in H; destruct H as [H ?]).
  repeat split; try (apply absent_get; assumption);
    try (apply absent_get_default; assumption).
  destruct (td_macd td) as [| |m]; try discriminate.
  - exists empty_macd. repeat split; reflexivity.
  - match goal with M : _ && _ && _ = true |- _ =>
      repeat (apply andb_prop in M; destruct M as [M ?]) end.
    exists m. repeat split; try reflexivity; apply absent_get; assumption.
Qed.

(** With no input but a neutral sentiment, neither side scores. *)
Lemma buy_side_empty (x : Q) (volume : option Q) (bb : option bollinger_dict)
    (st : option stochastic_dict) (ma : option ma_dict) (adx : option adx_dict) :
  x == 0 ->
  bb = None \/ bb = Some empty_bollinger ->
  st = None \/ st = Some empty_stochastic ->
  adx = None \/ adx = Some empty_adx ->
  ma = None \/ ma = Some empty_ma ->
  buy_side SIGNAL_RULES (Some x) None None None None None None None None volume None
    bb st ma adx = Ok scoring_init.
Proof.
  intros Hx Hbb Hst Hadx Hma. unfold buy_side.
  rewrite (proj1 (neutral_score x scoring_init Hx)); cbn [bind].
  cbn [buy_rsi buy_macd buy_valuation].
  rewrite (proj1 (momentum_skipped None None None scoring_init (or_introl eq_refl)));
    cbn [bind].
  rewrite (volume_skipped volume None scoring_init (or_intror eq_refl)); cbn [bind].
  destruct (secondary_skipped None scoring_init) as (B & S & M & A).
  rewrite (proj1 (B bb Hbb)); cbn [bind].
  rewrite (proj1 (S st Hst)), (proj1 (M ma Hma)), (proj1 (A adx Hadx)).
  reflexivity.
Qed.

Lemma sell_side_empty (x : Q) (bb : option bollinger_dict)
    (st : option stochastic_dict) (ma : option ma_dict) (adx : option adx_dict) :
  x == 0 ->
  bb = None \/ bb = Some empty_bollinger ->
  st = None \/ st = Some empty_stochastic ->
  adx = None \/ adx = Some empty_adx ->
  ma = None \/ ma = Some empty_ma ->
  sell_side SIGNAL_RULES (Some x) None None None None None None None None
    bb st ma adx = Ok scoring_init.
Proof.
  intros Hx Hbb Hst Hadx Hma. unfold sell_side.
  rewrite (proj2 (neutral_score x scoring_init Hx)); cbn [bind].
  cbn [sell_rsi sell_macd].
  rewrite (proj2 (momentum_skipped None None None scoring_init (or_introl eq_refl)));
    cbn [bind].
  rewrite risk_factors_skipped.
  destruct (secondary_skipped None scoring_init) as (B & S & M & A).
  rewrite (proj2 (B bb Hbb)); cbn [bind].
  rewrite (proj2 (S st Hst)), (proj2 (M ma Hma)), (proj2 (A adx Hadx)).
  reflexivity.
Qed.

(** C1. On a snapshot with no technical indicator, no price, no fundamentals
    and an absent or neutral sentiment, the engine answers HOLD with
    confidence exactly 0.35, risk level Low and no swing-trade plan. *)
Theorem empty_snapshot_is_uncertain_hold (td : technical_dict) (sd : sentiment_data_dict)
    (nd : option news_dict) (pd : option price_dict) (std : option stats_data_dict) :
  no_technical td = true ->
  neutral_sentiment sd = true ->
  no_price pd = true ->
  no_fundamentals std = true ->
  news_counted nd = true ->
  exists r,
    SignalEngine.generate_signal SIGNAL_RULES td sd nd pd std = Ok r
    /\ res_signal r = HOLD
    /\ res_confidence r = 0.35
    /\ res_risk_level r = Low
    /\ res_swing_trade r = None.
Proof.
  intros T S P F N.
  destruct (no_technical_reads _ T)
    as (Hrsi & Hatr & (m & Hm & Hml & Hms & Hmh) & Hbb & Hst & Hadx & Hma).
  destruct (neutral_sentiment_reads _ S) as (x & label & Hx & Hx0 & Hl).
  pose proof (no_price_reads _ P) as Hp.
  destruct (no_fundamentals_reads _ F) as (stats & Hs & F1 & F2 & F3 & F4 & F5 & F6).
  unfold news_counted in N.
  destruct (read_news_count nd) as [n|] eqn:Hn; [|discriminate].
  unfold SignalEngine.generate_signal.
  rewrite Hm; cbn [bind]. rewrite Hx; cbn [bind]. rewrite Hl; cbn [bind].
  rewrite Hs; cbn [bind]. cbv zeta.
  rewrite Hrsi, Hml, Hms, Hmh, Hp, F1, F2, F3, F4, F5, F6.
  rewrite (buy_side_empty x _ _ _ _ _ Hx0 Hbb Hst Hadx Hma); cbn [bind].
  rewrite (sell_side_empty x _ _ _ _ Hx0 Hbb Hst Hadx Hma); cbn [bind].
  rewrite Hn. unfold news_context, _calculate_swing_trade_levels.
  destruct (0 <? n)%Z; cbn [bind nonzero]; eexists; (split; [reflexivity|]);
    repeat split; reflexivity.
Qed.

Lemma empty_snapshot_is_uncertain_hold_witness :
  exists r,
    SignalEngine.generate_signal SIGNAL_RULES empty_technical no_sentiment None None None
    = Ok r
    /\ res_signal r = HOLD
    /\ res_confidence r = 0.35
    /\ res_risk_level r = Low
    /\ res_swing_trade r = None.
Proof.
  exact (empty_snapshot_is_uncertain_hold empty_technical no_sentiment None None None
           eq_refl eq_refl eq_refl eq_refl eq_refl).
Defined.

End EmptySnapshot.

(** ** SELL signals and missing data *)

Section Reporting.

Import SignalEngine.

Lemma sell_is_high_risk_witness :
  exists r,
    SignalEngine.generate_signal SIGNAL_RULES scenario_B_technical
      (sentiment_of (-0.4) "negative") None None scenario_B_stats = Ok r
    /\ res_signal r = SELL
    /\ res_risk_level r = High.
Proof.
  assert (H : exists r,
             SignalEngine.generate_signal SIGNAL_RULES scenario_B_technical
               (sentiment_of (-0.4) "negative") None None scenario_B_stats = Ok r
             /\ res_signal r = SELL)
    by (eexists; vm_compute; split; reflexivity).
  destruct H as (r & H & S).
  exists r. repeat split; try assumption.
  exact (sell_is_high_risk _ _ _ _ _ _ _ H S).
Defined.

(** The warning names each missing indicator. *)
Lemma missing_data_warning (rsi macd_line signal_line : option Q) :
  rsi = None \/ macd_line = None \/ signal_line = None ->
  let warning := "⚠️ Missing data: " ++ join ", " (missing_data rsi macd_line signal_line) in
  missing_data_reasons rsi macd_line signal_line = [warning]
  /\ (rsi = None -> mentions "RSI" warning = true)
  /\ (macd_line = None \/ signal_line = None -> mentions "MACD" warning = true).
Proof.
  intro H.
  destruct rsi, macd_line, signal_line; cbn;
    repeat split; intros; try reflexivity;
    repeat match goal with
    | D : _ \/ _ |- _ => destruct D
    end; discriminate.
Qed.

(** C3, as the code has it.  A category whose inputs are absent leaves its
    score and its conditions as they were; but when the RSI, the MACD line
    or the MACD signal is absent ([m_rsi], [m_macd] and [m_macd_signal] of
    the returned metrics are the values read from [technical_data]), the
    reasons the engine returns open with a warning that names the missing
    indicator. *)
Theorem missing_inputs_skipped_but_reported (rules : rules_t) (td : technical_dict)
    (sd : sentiment_data_dict) (nd : option news_dict) (pd : option price_dict)
    (std : option stats_data_dict) (r : signal_result) :
  SignalEngine.generate_signal rules td sd nd pd std = Ok r ->
  let m := res_metrics r in
  let warning :=
    "⚠️ Missing data: " ++ join ", " (missing_data (m_rsi m) (m_macd m) (m_macd_signal m)) in
  m_rsi m = None \/ m_macd m = None \/ m_macd_signal m = None ->
  (forall st,
      (m_rsi m = None -> buy_rsi (m_rsi m) st = st /\ sell_rsi (m_rsi m) st = st)
      /\ (m_macd m = None \/ m_macd_signal m = None ->
          buy_macd (m_macd m) (m_macd_signal m) (m_macd_histogram m) st = st
          /\ sell_macd (m_macd m) (m_macd_signal m) st = st)
      /\ (forall price high low,
             price = None \/ high = None \/ low = None ->
             buy_momentum price high low st = Ok st
             /\ sell_overextension price high low st = Ok st)
      /\ buy_valuation None st = st
      /\ (forall volume avg_volume,
             volume = None \/ avg_volume = None -> buy_volume volume avg_volume st = Ok st)
      /\ sell_risk_factors None None st = st
      /\ (forall price,
             buy_bollinger None price st = Ok st /\ sell_bollinger None price st = Ok st)
      /\ (buy_stochastic None st = st /\ sell_stochastic None st = st)
      /\ (buy_moving_averages None st = st /\ sell_moving_averages None st = st)
      /\ (buy_adx None st = st /\ sell_adx None st = st))
  /\ m_rsi m = get (td_rsi td)
  /\ (exists macd_data,
        attr_get (get_default (td_macd td) empty_macd) = Ok macd_data
        /\ m_macd m = get (macd_macd macd_data)
        /\ m_macd_signal m = get (macd_signal macd_data))
  /\ (exists rest, res_reasons r = warning :: rest)
  /\ (m_rsi m = None -> mentions "RSI" warning = true)
  /\ (m_macd m = None \/ m_macd_signal m = None -> mentions "MACD" warning = true).
Proof.
  intros H m warning Hmiss.
  destruct (generate_signal_inv _ _ _ _ _ _ _ H)
    as (buy & sell & rest & Hrsi & _ & _ & _ & Hreasons & _ & _ & _ & Hmacd).
  fold m in Hrsi, Hreasons, Hmacd.
  destruct (missing_data_warning _ _ _ Hmiss) as (Hw & Hr & Hm).
  split; [|split; [exact Hrsi | split; [exact Hmacd | split; [| split; [exact Hr | exact Hm]]]]].
  - intro st.
    split; [intro E; rewrite E; exact (rsi_skipped st)|].
    split; [intro E; exact (macd_skipped _ _ _ st E)|].
    split; [intros price high low E; exact (momentum_skipped _ _ _ st E)|].
    split; [reflexivity|].
    split; [intros volume avg_volume E; exact (volume_skipped _ _ st E)|].
    split; [exact (risk_factors_skipped st)|].
    repeat split; reflexivity.
  - match type of Hreasons with
    | _ = (dec_reasons (resolve ?rs ?b ?s ?be ?d ?x) ++ _)%list =>
        destruct (resolve_reasons_extend rs b s be d x) as [rest' Hd];
        rewrite Hd, Hw in Hreasons
    end.
    eexists. rewrite Hreasons. cbn [app]. reflexivity.
Qed.

Lemma missing_inputs_skipped_but_reported_witness :
  exists r rest,
    SignalEngine.generate_signal SIGNAL_RULES macd_only_technical
      (sentiment_of 0.4 "positive") None (price_of 100 1.5) None = Ok r
    /\ m_rsi (res_metrics r) = None
    /\ res_reasons r = "⚠️ Missing data: RSI" :: rest.
Proof.
  assert (H : exists r,
             SignalEngine.generate_signal SIGNAL_RULES macd_only_technical
               (sentiment_of 0.4 "positive") None (price_of 100 1.5) None = Ok r
             /\ m_rsi (res_metrics r) = None
             /\ m_macd (res_metrics r) = Some 1.2
             /\ m_macd_signal (res_metrics r) = Some 0.5)
    by (eexists; vm_compute; repeat split; reflexivity).
  destruct H as (r & H & Hrsi & Hml & Hsl).
  destruct (missing_inputs_skipped_but_reported _ _ _ _ _ _ _ H (or_introl Hrsi))
    as (_ & _ & _ & (rest & Hrest) & _).
  exists r, rest. repeat split; try assumption.
  rewrite Hrest, Hrsi, Hml, Hsl. reflexivity.
Defined.

(** C3, as stated, fails: with no RSI and no MACD the reasons of the result
    hold a string that names both. *)
Lemma missing_indicators_are_named :
  exists r,
    SignalEngine.generate_signal SIGNAL_RULES empty_technical no_sentiment None None None
    = Ok r
    /\ m_rsi (res_metrics r) = None
    /\ m_macd (res_metrics r) = None
    /\ res_reasons r = ["⚠️ Missing data: RSI, MACD";
                        "⊙ Highly uncertain - signals are balanced"]
    /\ existsb (mentions "RSI") (res_reasons r) = true
    /\ existsb (mentions "MACD") (res_reasons r) = true.
Proof.
  eexists. vm_compute. repeat split; reflexivity.
Qed.

End Reporting.

(** ** The module-level wrapper *)

Section Wrapper.

(** The wrapper on success: the engine's dictionary, marked successful. *)
Lemma generate_signal_success (symbol : string) (td : technical_dict)
    (sd : sentiment_data_dict) (nd : option news_dict) (pd : option price_dict)
    (std : option stats_data_dict) (r : signal_result) :
  SignalEngine.generate_signal SIGNAL_RULES td sd nd pd std = Ok r ->
  generate_signal symbol td sd nd pd std
  = {| resp_success := true; resp_symbol := symbol; resp_signal := res_signal r;
       resp_confidence := res_confidence r; resp_reasons := res_reasons r;
       resp_risk_level := res_risk_level r; resp_error := None;
       resp_result := Some r |}.
Proof.
  intro H. unfold generate_signal. cbn [SignalEngine.init]. rewrite H. reflexivity.
Qed.

(** C9. Whenever the engine raises, the module-level [generate_signal]
    returns the error dictionary: success false, signal ERROR, confidence
    0.5 and risk level High, with the text of the exception. *)
Theorem generate_signal_catches (symbol : string) (td : technical_dict)
    (sd : sentiment_data_dict) (nd : option news_dict) (pd : option price_dict)
    (std : option stats_data_dict) (e : exn) :
  SignalEngine.generate_signal SIGNAL_RULES td sd nd pd std = Raise e ->
  generate_signal symbol td sd nd pd std
  = {| resp_success := false; resp_symbol := symbol; resp_signal := ERROR;
       resp_confidence := 0.5; resp_reasons := ["Error: " ++ str_of_exn e];
       resp_risk_level := High;
       resp_error := Some ("Signal generation error: " ++ str_of_exn e);
       resp_result := None |}.
Proof.
  intro H. unfold generate_signal. cbn [SignalEngine.init]. rewrite H. reflexivity.
Qed.

Lemma generate_signal_catches_witness :
  exists e,
    SignalEngine.generate_signal SIGNAL_RULES uncalculated_technical no_sentiment None
      (price_of 100 1.5) None = Raise e
    /\ resp_success (generate_signal "AAPL" uncalculated_technical no_sentiment None
                       (price_of 100 1.5) None) = false
    /\ resp_signal (generate_signal "AAPL" uncalculated_technical no_sentiment None
                      (price_of 100 1.5) None) = ERROR.
Proof.
  assert (H : exists e,
             SignalEngine.generate_signal SIGNAL_RULES uncalculated_technical no_sentiment
               None (price_of 100 1.5) None = Raise e)
    by (eexists; vm_compute; reflexivity).
  destruct H as (e & H).
  exists e. split; [exact H|].
  rewrite (generate_signal_catches "AAPL" _ _ _ _ _ _ H). split; reflexivity.
Defined.

End Wrapper.

(** ** Concrete runs *)

Section Runs.

Example format_f_examples :
  format_f 2 0.4 = "0.40" /\ format_f 1 30 = "30.0" /\ format_f 0 (0.125 * 100) = "12"
  /\ format_f 2 100.257 = "100.26" /\ format_f 1 (-0.04) = "-0.0"
  /\ format_f 2 (-98) = "-98.00".
Proof. repeat split; reflexivity. Qed.

(** Scenario A: BUY with confidence above 0.8 and an immediate entry at the
    current price. *)
Example scenario_A_run :
  exists r plan,
    SignalEngine.generate_signal SIGNAL_RULES scenario_A_technical
      (sentiment_of 0.4 "positive") None (price_of 100 1.5) scenario_A_stats = Ok r
    /\ res_signal r = BUY
    /\ 0.8 < res_confidence r
    /\ res_risk_level r = Low
    /\ res_swing_trade r = Some plan
    /\ rec_entry_price plan = Some 100.
Proof.
  do 2 eexists. vm_compute. repeat split; reflexivity.
Qed.

(** A stochastic %K of 0 and nothing else: nothing is added to the buy
    score. *)
Example stochastic_zero_run :
  exists r,
    SignalEngine.generate_signal SIGNAL_RULES stochastic_zero_technical no_sentiment
      None None None = Ok r
    /\ res_buy_score r = 0
    /\ res_reasons r = ["⚠️ Missing data: RSI, MACD";
                        "⊙ Highly uncertain - signals are balanced"].
Proof.
  eexists. vm_compute. repeat split; reflexivity.
Qed.

(** The same snapshot with %K at 1: the 0.05 bonus. *)
Example stochastic_one_run :
  SignalEngine.buy_stochastic (Some {| stochastic_k := Bound 1 |}) scoring_init
  = fire_additional scoring_init 0.05 "✓ Stochastic oversold (1)".
Proof. reflexivity. Qed.

End Runs.

(** ** Score bounds *)

(** Case analysis on every test a block of the scorer makes. *)
Ltac crack :=
  repeat match goal with
  | |- context [match ?x with _ => _ end] => destruct x
  end.

(** Compare the score before and after a block. *)
Ltac weigh :=
  unfold fire, fire_additional, extend_additional,
    SignalEngine.buy_weights_sentiment, SignalEngine.buy_weights_rsi,
    SignalEngine.buy_weights_macd, SignalEngine.buy_weights_momentum,
    SignalEngine.buy_weights_value, SignalEngine.buy_weights_volume,
    SignalEngine.sell_weights_sentiment, SignalEngine.sell_weights_rsi,
    SignalEngine.sell_weights_macd, SignalEngine.sell_weights_momentum,
    SignalEngine.sell_weights_risk;
  cbn [score]; lra.

Ltac weigh_ok := let H := fresh in intro H; inversion H; subst; weigh.

(** Record the bound [lem] once. *)
Ltac note_bound lem :=
  let T := type of lem in
  lazymatch goal with
  | _ : T |- _ => fail
  | _ => pose proof lem
  end.

Section ScoreBounds.

Import SignalEngine.

Variables (rules : rules_t) (st st' : scoring).

Lemma buy_sentiment_bounds (s : option Q) :
  buy_sentiment rules s st = Ok st' -> score st <= score st' <= score st + 0.20.
Proof. unfold buy_sentiment. crack; weigh_ok. Qed.

Lemma buy_rsi_bounds (rsi : option Q) :
  score st <= score (buy_rsi rsi st) <= score st + 0.25.
Proof. unfold buy_rsi. crack; weigh. Qed.

Lemma buy_macd_bounds (ml sl h : option Q) :
  score st <= score (buy_macd ml sl h st) <= score st + 0.30.
Proof. unfold buy_macd. crack; weigh. Qed.

Lemma buy_momentum_bounds (p h l : option Q) :
  buy_momentum p h l st = Ok st' -> score st <= score st' <= score st + 0.15.
Proof. unfold buy_momentum, bind. crack; weigh_ok. Qed.

Lemma buy_valuation_bounds (pe : option Q) :
  score st <= score (buy_valuation pe st) <= score st + 0.10.
Proof. unfold buy_valuation. crack; weigh. Qed.

Lemma buy_volume_bounds (v a : option Q) :
  buy_volume v a st = Ok st' -> score st <= score st' <= score st + 0.05.
Proof. unfold buy_volume, bind. crack; weigh_ok. Qed.

Lemma buy_bollinger_bounds (bb : option bollinger_dict) (p : option Q) :
  buy_bollinger bb p st = Ok st' -> score st <= score st' <= score st + 0.05.
Proof. unfold buy_bollinger. crack; weigh_ok. Qed.

Lemma buy_stochastic_bounds (d : option stochastic_dict) :
  score st <= score (buy_stochastic d st) <= score st + 0.05.
Proof. unfold buy_stochastic. crack; weigh. Qed.

Lemma buy_moving_averages_bounds (d : option ma_dict) :
  score st <= score (buy_moving_averages d st) <= score st + 0.05.
Proof. unfold buy_moving_averages. crack; weigh. Qed.

Lemma buy_adx_bounds (d : option adx_dict) :
  score st <= score (buy_adx d st) <= score st + 0.05.
Proof. unfold buy_adx. crack; weigh. Qed.

Lemma sell_sentiment_bounds (s : option Q) :
  sell_sentiment rules s st = Ok st' -> score st <= score st' <= score st + 0.20.
Proof. unfold sell_sentiment. crack; weigh_ok. Qed.

Lemma sell_rsi_bounds (rsi : option Q) :
  score st <= score (sell_rsi rsi st) <= score st + 0.25.
Proof. unfold sell_rsi. crack; weigh. Qed.

Lemma sell_macd_bounds (ml sl : option Q) :
  score st <= score (sell_macd ml sl st) <= score st + 0.25.
Proof. unfold sell_macd. crack; weigh. Qed.

Lemma sell_overextension_bounds (p h l : option Q) :
  sell_overextension p h l st = Ok st' -> score st <= score st' <= score st + 0.15.
Proof. unfold sell_overextension, bind. crack; weigh_ok. Qed.

Lemma sell_risk_factors_bounds (b d : option Q) :
  score st <= score (sell_risk_factors b d st) <= score st + 0.15.
Proof.
  unfold sell_risk_factors.
  destruct (nonzero b) as [x|]; [destruct (gtb x 1.5)|];
    (destruct (nonzero d) as [y|]; [destruct (gtb y 2.0)|]); weigh.
Qed.

Lemma sell_bollinger_bounds (bb : option bollinger_dict) (p : option Q) :
  sell_bollinger bb p st = Ok st' -> score st <= score st' <= score st + 0.05.
Proof. unfold sell_bollinger. crack; weigh_ok. Qed.

Lemma sell_stochastic_bounds (d : option stochastic_dict) :
  score st <= score (sell_stochastic d st) <= score st + 0.05.
Proof. unfold sell_stochastic. crack; weigh. Qed.

Lemma sell_moving_averages_bounds (d : option ma_dict) :
  score st <= score (sell_moving_averages d st) <= score st + 0.05.
Proof. unfold sell_moving_averages. crack; weigh. Qed.

Lemma sell_adx_bounds (d : option adx_dict) :
  score st <= score (sell_adx d st) <= score st + 0.05.
Proof. unfold sell_adx. crack; weigh. Qed.

End ScoreBounds.

Section EngineScores.

Import SignalEngine.

Lemma buy_side_bounds (rules : rules_t) (ss rsi ml sl h p hi lo pe v a : option Q)
    (bb : option bollinger_dict) (stc : option stochastic_dict) (ma : option ma_dict)
    (adx : option adx_dict) (buy : scoring) :
  buy_side rules ss rsi ml sl h p hi lo pe v a bb stc ma adx = Ok buy ->
  0 <= score buy <= 1.25.
Proof.
  unfold buy_side. intro H.
  bind_inv H. bind_inv H. bind_inv H. bind_inv H.
  inversion H; subst; clear H.
  repeat match goal with
  | E : buy_sentiment _ _ _ = Ok _ |- _ => apply buy_sentiment_bounds in E
  | E : buy_momentum _ _ _ _ = Ok _ |- _ => apply buy_momentum_bounds in E
  | E : buy_volume _ _ _ = Ok _ |- _ => apply buy_volume_bounds in E
  | E : buy_bollinger _ _ _ = Ok _ |- _ => apply buy_bollinger_bounds in E
  end.
  repeat match goal with
  | |- context [buy_adx ?d ?s] => note_bound (buy_adx_bounds s d)
  | |- context [buy_moving_averages ?d ?s] => note_bound (buy_moving_averages_bounds s d)
  | |- context [buy_stochastic ?d ?s] => note_bound (buy_stochastic_bounds s d)
  | _ : context [buy_valuation ?d ?s] |- _ => note_bound (buy_valuation_bounds s d)
  | _ : context [buy_macd ?x ?y ?z ?s] |- _ => note_bound (buy_macd_bounds s x y z)
  | _ : context [buy_rsi ?d ?s] |- _ => note_bound (buy_rsi_bounds s d)
  end.
  cbn [extend_additional score scoring_init] in *.
  lra.
Qed.

Lemma sell_side_bounds (rules : rules_t) (ss rsi ml sl p hi lo beta debt : option Q)
    (bb : option bollinger_dict) (stc : option stochastic_dict) (ma : option ma_dict)
    (adx : option adx_dict) (sell : scoring) :
  sell_side rules ss rsi ml sl p hi lo beta debt bb stc ma adx = Ok sell ->
  0 <= score sell <= 1.20.
Proof.
  unfold sell_side. intro H.
  bind_inv H. bind_inv H. bind_inv H.
  inversion H; subst; clear H.
  repeat match goal with
  | E : sell_sentiment _ _ _ = Ok _ |- _ => apply sell_sentiment_bounds in E
  | E : sell_overextension _ _ _ _ = Ok _ |- _ => apply sell_overextension_bounds in E
  | E : sell_bollinger _ _ _ = Ok _ |- _ => apply sell_bollinger_bounds in E
  end.
  repeat match goal with
  | |- context [sell_adx ?d ?s] => note_bound (sell_adx_bounds s d)
  | |- context [sell_moving_averages ?d ?s] => note_bound (sell_moving_averages_bounds s d)
  | |- context [sell_stochastic ?d ?s] => note_bound (sell_stochastic_bounds s d)
  | _ : context [sell_risk_factors ?x ?y ?s] |- _ => note_bound (sell_risk_factors_bounds s x y)
  | _ : context [sell_macd ?x ?y ?s] |- _ => note_bound (sell_macd_bounds s x y)
  | _ : context [sell_rsi ?d ?s] |- _ => note_bound (sell_rsi_bounds s d)
  end.
  cbn [extend_additional score scoring_init] in *.
  lra.
Qed.

(** A successful run, with the bounds of its two scores. *)
Lemma generate_signal_scored (rules : rules_t) (td : technical_dict) (sd : sentiment_data_dict)
    (nd : option news_dict) (pd : option price_dict) (std : option stats_data_dict)
    (r : signal_result) :
  SignalEngine.generate_signal rules td sd nd pd std = Ok r ->
  exists reasons buy sell,
    let m := res_metrics r in
    let d := resolve reasons buy sell (m_beta m) (m_debt_to_equity m) (m_rsi m) in
    0 <= score buy <= 1.25
    /\ 0 <= score sell <= 1.20
    /\ res_buy_score r = score buy
    /\ res_sell_score r = score sell
    /\ res_signal r = dec_signal d
    /\ res_confidence r = dec_confidence d
    /\ res_risk_level r = dec_risk_level d.
Proof.
  unfold SignalEngine.generate_signal. intro H.
  bind_inv H. bind_inv H. bind_inv H. bind_inv H. bind_inv H. bind_inv H. bind_inv H.
  match goal with p : (Z * list string)%type |- _ => destruct p as [n reasons'] end.
  bind_inv H. inversion H; subst; clear H. cbn.
  match goal with B : buy_side _ _ _ _ _ _ _ _ _ _ _ _ _ _ _ _ = Ok _ |- _ =>
    apply buy_side_bounds in B end.
  match goal with S : sell_side _ _ _ _ _ _ _ _ _ _ _ _ _ _ = Ok _ |- _ =>
    apply sell_side_bounds in S end.
  do 3 eexists. repeat split; try reflexivity; lra.
Qed.



End EngineScores.

(** ** The decision table *)

Ltac split_andb :=
  match goal with
  | |- context [?a && ?b] =>
      let C := fresh "C" in
      destruct (a && b) eqn:C;
      [ apply andb_prop in C; destruct C
      | apply andb_false_iff in C ]
  end.

Ltac unpack :=
  repeat match goal with
  | T : _ /\ _ |- _ => destruct T
  end.

Section DecisionTable.

Import SignalEngine.



(** The five rows of the resolver, first match first, with the signal and
    the confidence of each. *)
Lemma resolve_table (reasons : list string) (buy sell : scoring)
    (beta debt_to_equity rsi : option Q) :
  let b := score buy in
  let s := score sell in
  let d := resolve reasons buy sell beta debt_to_equity rsi in
  (0.65 <= b /\ s < 0.3
   /\ dec_signal d = BUY /\ dec_confidence d = min2 (b * 0.85 + 0.15) 0.95)
  \/ (0.60 <= s /\ b < 0.3
      /\ dec_signal d = SELL /\ dec_confidence d = min2 (s * 0.85 + 0.15) 0.95)
  \/ (s < b /\ 0.45 <= b /\ (b < 0.65 \/ 0.3 <= s)
      /\ dec_signal d = BUY /\ dec_confidence d = min2 (0.55 + (b - s) * 0.5) 0.75)
  \/ (b < s /\ 0.45 <= s /\ (s < 0.60 \/ 0.3 <= b)
      /\ dec_signal d = SELL /\ dec_confidence d = min2 (0.55 + (s - b) * 0.5) 0.75)
  \/ ((b <= s \/ b < 0.45) /\ (s <= b \/ s < 0.45)
      /\ dec_signal d = HOLD
      /\ ((Qabs (b - s) < 0.1 /\ dec_confidence d = 0.35)
          \/ (0.1 <= Qabs (b - s) /\ dec_confidence d = 0.45 + Qabs (b - s) * 0.2))).
Proof.
  cbv zeta. unfold resolve.
  split_andb; cmp_facts; [left; repeat split; assumption|].
  split_andb; cmp_facts; [right; left; repeat split; assumption|].
  split_andb; cmp_facts.
  { right; right; left. repeat split; try assumption.
    destruct C; cmp_facts; [left | right]; assumption. }
  split_andb; cmp_facts.
  { right; right; right; left. repeat split; try assumption.
    destruct C0; cmp_facts; [left | right]; assumption. }
  right; right; right; right.
  split; [destruct C1; cmp_facts; [left | right]; assumption|].
  split; [destruct C2; cmp_facts; [left | right]; assumption|].
  destruct (ltb (Qabs (score buy - score sell)) 0.1) eqn:D; cmp_facts;
    (split; [reflexivity|]); [left | right]; split; try assumption; reflexivity.
Qed.

(** The risk level of a decision: High for SELL, the classifier's level
    otherwise. *)
Lemma resolve_risk (reasons : list string) (buy sell : scoring)
    (beta debt_to_equity rsi : option Q) :
  let d := resolve reasons buy sell beta debt_to_equity rsi in
  dec_signal d <> SELL -> dec_risk_level d = _calculate_risk beta debt_to_equity rsi.
Proof.
  cbv zeta. unfold resolve.
  destruct (geb (score buy) 0.65 && ltb (score sell) 0.3); [reflexivity|].
  destruct (geb (score sell) 0.60 && ltb (score buy) 0.3); [intro N; elim N; reflexivity|].
  destruct (gtb (score buy) (score sell) && geb (score buy) 0.45); [reflexivity|].
  destruct (gtb (score sell) (score buy) && geb (score sell) 0.45);
    [intro N; elim N; reflexivity|].
  destruct (ltb (Qabs (score buy - score sell)) 0.1); reflexivity.
Qed.

(** X2. The signal is decided by the two scores alone: BUY exactly when the
    buy score is above the sell score and at least 0.45, SELL exactly when
    the sell score is above the buy score and at least 0.45, HOLD otherwise;
    the engine never answers ERROR itself. *)
Theorem signal_follows_scores (rules : rules_t) (td : technical_dict)
    (sd : sentiment_data_dict) (nd : option news_dict) (pd : option price_dict)
    (std : option stats_data_dict) (r : signal_result) :
  SignalEngine.generate_signal rules td sd nd pd std = Ok r ->
  (res_signal r = BUY <-> res_sell_score r < res_buy_score r /\ 0.45 <= res_buy_score r)
  /\ (res_signal r = SELL
      <-> res_buy_score r < res_sell_score r /\ 0.45 <= res_sell_score r)
  /\ (res_signal r = BUY \/ res_signal r = SELL \/ res_signal r = HOLD).
Proof.
  intro H.
  destruct (generate_signal_scored _ _ _ _ _ _ _ H)
    as (reasons & buy & sell & _ & _ & -> & -> & -> & _).
  destruct (resolve_table reasons buy sell (m_beta (res_metrics r))
              (m_debt_to_equity (res_metrics r)) (m_rsi (res_metrics r)))
    as [T | [T | [T | [T | T]]]]; cbv zeta in T; unpack;
    match goal with S : dec_signal _ = _ |- _ => rewrite S end;
    repeat split; intros; try discriminate; try reflexivity; unpack;
    try (left; reflexivity); try (right; left; reflexivity);
    try (right; right; reflexivity);
    repeat match goal with
    | T : _ \/ _ |- _ => destruct T
    end; lra.
Qed.

Lemma signal_follows_scores_witness :
  exists r,
    SignalEngine.generate_signal SIGNAL_RULES scenario_B_technical
      (sentiment_of (-0.4) "negative") None None scenario_B_stats = Ok r
    /\ res_signal r = SELL
    /\ res_buy_score r < res_sell_score r.
Proof.
  assert (H : exists r,
             SignalEngine.generate_signal SIGNAL_RULES scenario_B_technical
               (sentiment_of (-0.4) "negative") None None scenario_B_stats = Ok r
             /\ res_signal r = SELL)
    by (eexists; vm_compute; split; reflexivity).
  destruct H as (r & H & S).
  exists r. repeat split; try assumption.
  exact (proj1 (proj1 (proj1 (proj2 (signal_follows_scores _ _ _ _ _ _ _ H))) S)).
Defined.



(** The classifier answers High only with a beta above 1.2 and a
    debt-to-equity above 1.0: the RSI alone adds one point. *)
Lemma calculate_risk_high (beta debt_to_equity rsi : option Q) :
  _calculate_risk beta debt_to_equity rsi = High ->
  exists b d, beta = Some b /\ debt_to_equity = Some d /\ 1.2 < b /\ 1.0 < d.
Proof.
  unfold _calculate_risk, nonzero.
  destruct beta as [b|], debt_to_equity as [d|]; cbn [nonzero].
  - destruct (is_true b), (is_true d);
      destruct (gtb b 1.5) eqn:?, (gtb b 1.2) eqn:?, (gtb d 2.0) eqn:?, (gtb d 1.0) eqn:?;
      destruct rsi as [x|]; try destruct (is_true x); try destruct (gtb x 75 || ltb x 25);
      cbn; try discriminate; intros _; cmp_facts;
      exists b, d; repeat split; lra.
  - destruct (is_true b); try destruct (gtb b 1.5); try destruct (gtb b 1.2);
      destruct rsi as [x|]; try destruct (is_true x); try destruct (gtb x 75 || ltb x 25);
      cbn; discriminate.
  - destruct (is_true d); try destruct (gtb d 2.0); try destruct (gtb d 1.0);
      destruct rsi as [x|]; try destruct (is_true x); try destruct (gtb x 75 || ltb x 25);
      cbn; discriminate.
  - destruct rsi as [x|]; try destruct (is_true x); try destruct (gtb x 75 || ltb x 25);
      cbn; discriminate.
Qed.

(** X4. A BUY or HOLD result is rated High only when the beta is above 1.2
    and the debt-to-equity is above 1.0; without both fundamentals the risk
    of a BUY or HOLD is never High. *)
Theorem high_risk_needs_fundamentals (rules : rules_t) (td : technical_dict)
    (sd : sentiment_data_dict) (nd : option news_dict) (pd : option price_dict)
    (std : option stats_data_dict) (r : signal_result) :
  SignalEngine.generate_signal rules td sd nd pd std = Ok r ->
  res_risk_level r = High ->
  res_signal r = SELL
  \/ exists b d,
       m_beta (res_metrics r) = Some b /\ m_debt_to_equity (res_metrics r) = Some d
       /\ 1.2 < b /\ 1.0 < d.
Proof.
  intros H R.
  destruct (generate_signal_scored _ _ _ _ _ _ _ H)
    as (reasons & buy & sell & _ & _ & _ & _ & Hs & _ & Hr).
  cbv zeta in Hs, Hr.
  destruct (res_signal r) eqn:S; try (left; reflexivity); right;
    apply (calculate_risk_high _ _ (m_rsi (res_metrics r)));
    rewrite <- R, Hr; symmetry; apply resolve_risk; rewrite <- Hs; discriminate.
Qed.

Lemma high_risk_needs_fundamentals_witness :
  exists r b d,
    SignalEngine.generate_signal SIGNAL_RULES empty_technical no_sentiment None None
      scenario_B_stats = Ok r
    /\ res_signal r = HOLD
    /\ res_risk_level r = High
    /\ m_beta (res_metrics r) = Some b
    /\ 1.2 < b /\ 1.0 < d.
Proof.
  assert (H : exists r,
             SignalEngine.generate_signal SIGNAL_RULES empty_technical no_sentiment None
               None scenario_B_stats = Ok r
             /\ res_signal r = HOLD /\ res_risk_level r = High)
    by (eexists; vm_compute; repeat split; reflexivity).
  destruct H as (r & H & S & R).
  destruct (high_risk_needs_fundamentals _ _ _ _ _ _ _ H R)
    as [N | (b & d & Hb & _ & Lb & Ld)].
  - rewrite S in N. discriminate N.
  - exists r, b, d. repeat split; assumption.
Defined.

End DecisionTable.

(** ** Shape of the swing-trade plan *)

Section PlanShape.

Import SignalEngine.

Lemma append_item_length (l : list string) (x : string) :
  length (append_item l x) = S (length l).
Proof. unfold append_item. rewrite length_app. cbn. lia. Qed.

Lemma hold_entries_notes_length (better_entries notes : list string) :
  (1 <= length (hold_entries_notes better_entries notes))%nat.
Proof.
  unfold hold_entries_notes.
  destruct better_entries as [|e es]; [rewrite append_item_length; lia|].
  assert (G : forall (l acc : list string),
             (length acc <= length (fold_left
                (fun ns entry => append_item ns ("  → Wait for pullback to " ++ entry))
                l acc))%nat).
  { induction l as [|x l IH]; intro acc; cbn [fold_left]; [lia|].
    specialize (IH (append_item acc ("  → Wait for pullback to " ++ x))).
    rewrite append_item_length in IH. lia. }
  specialize (G (firstn 3 (e :: es)) (append_item notes "**Better Entry Points:**")).
  rewrite append_item_length in G. lia.
Qed.

Lemma hold_breakout_notes_length (current_price : Q) (bb_upper : option Q)
    (notes : list string) :
  (length notes <= length (hold_breakout_notes current_price bb_upper notes))%nat.
Proof.
  unfold hold_breakout_notes. crack; rewrite ?append_item_length; lia.
Qed.

Lemma hold_range_note_length (current_price : Q) (high low : option Q)
    (notes notes' : list string) :
  hold_range_note current_price high low notes = Ok notes' ->
  (length notes <= length notes')%nat.
Proof.
  unfold hold_range_note, bind. crack; intro H; inversion H; subst;
    rewrite ?append_item_length; lia.
Qed.

(** The plan of the HOLD branch: notes only. *)
Lemma plan_hold_shape (signal : signal_t) (price : Q) (rsi macd_line signal_line : option Q)
    (bollinger : option bollinger_dict) (ma_data : option ma_dict) (high low : option Q)
    (plan : recommendation_t) :
  plan_hold signal price rsi macd_line signal_line bollinger ma_data high low = Ok plan ->
  rec_current_price plan = price
  /\ rec_action plan = signal
  /\ rec_notes plan <> []
  /\ rec_entry_price plan = None /\ rec_target_price plan = None
  /\ rec_stop_loss plan = None /\ rec_risk_reward_ratio plan = None
  /\ rec_holding_period plan = None.
Proof.
  unfold plan_hold. intro H. do 6 bind_inv H. inversion H; subst; clear H. cbn.
  repeat split.
  match goal with N : hold_range_note _ _ _ _ = Ok ?l |- ?l <> [] =>
    apply hold_range_note_length in N;
    match type of N with context [hold_breakout_notes ?p ?u ?x] =>
      pose proof (hold_breakout_notes_length p u x) as B;
      match type of B with context [hold_entries_notes ?be ?y] =>
        pose proof (hold_entries_notes_length be y)
      end
    end;
    destruct l; [cbn in N; lia | discriminate]
  end.
Qed.

(** What the planner returns, by signal. *)
Lemma swing_trade_levels_shape (signal : signal_t) (current_price : option Q)
    (td : technical_dict) (std : option stats_data_dict) (confidence : Q)
    (res : option recommendation_t) :
  _calculate_swing_trade_levels signal current_price td std confidence = Ok res ->
  match res with
  | None => nonzero current_price = None
  | Some plan =>
      nonzero current_price = Some (rec_current_price plan)
      /\ rec_action plan = signal
      /\ rec_notes plan <> []
      /\ (signal = BUY ->
          rec_entry_price plan <> None /\ rec_target_price plan <> None
          /\ rec_stop_loss plan <> None /\ rec_risk_reward_ratio plan <> None
          /\ rec_holding_period plan <> None)
      /\ (signal <> BUY ->
          rec_entry_price plan = None /\ rec_target_price plan = None
          /\ rec_stop_loss plan = None /\ rec_risk_reward_ratio plan = None
          /\ rec_holding_period plan = None)
  end.
Proof.
  unfold _calculate_swing_trade_levels.
  destruct (nonzero current_price) as [price|];
    [|intro H; inversion H; reflexivity].
  intro H. bind_inv H. bind_inv H.
  match goal with p : (option Q * option Q)%type |- _ => destruct p as [high low] end.
  destruct signal.
  - bind_inv H. inversion H; subst; clear H.
    match goal with P : plan_buy _ _ _ _ _ _ _ _ = Ok _ |- _ =>
      unfold plan_buy in P; bind_inv P; bind_inv P;
      destruct (buy_entry _ _ _ _) as [entry_price entry_note];
      bind_inv P; inversion P; subst; clear P end.
    cbn. split; [reflexivity|]. split; [reflexivity|]. split; [discriminate|].
    split; [intros _; repeat split; discriminate | intro N; elim N; reflexivity].
  - bind_inv H. inversion H; subst; clear H.
    match goal with P : plan_hold _ _ _ _ _ _ _ _ _ = Ok _ |- _ =>
      apply plan_hold_shape in P; destruct P as (-> & A & N & L) end.
    split; [reflexivity|]. split; [exact A|]. split; [exact N|].
    split; [discriminate | intros _; exact L].
  - inversion H; subst; clear H. unfold plan_sell. cbn.
    split; [reflexivity|]. split; [reflexivity|].
    split; [|split; [discriminate | intros _; repeat split]].
    destruct (nonzero (get (td_rsi td))) as [x|]; [destruct (gtb x 70)|]; discriminate.
  - bind_inv H. inversion H; subst; clear H.
    match goal with P : plan_hold _ _ _ _ _ _ _ _ _ = Ok _ |- _ =>
      apply plan_hold_shape in P; destruct P as (-> & A & N & L) end.
    split; [reflexivity|]. split; [exact A|]. split; [exact N|].
    split; [discriminate | intros _; exact L].
Qed.

(** X5. A result carries a swing-trade plan exactly when the price read from
    the snapshot is present and not zero; the plan then repeats the signal
    and that price, and holds at least one note. *)
Theorem plan_needs_price (rules : rules_t) (td : technical_dict)
    (sd : sentiment_data_dict) (nd : option news_dict) (pd : option price_dict)
    (std : option stats_data_dict) (r : signal_result) :
  SignalEngine.generate_signal rules td sd nd pd std = Ok r ->
  (res_swing_trade r = None <-> nonzero (m_price (res_metrics r)) = None)
  /\ forall plan,
       res_swing_trade r = Some plan ->
       m_price (res_metrics r) = Some (rec_current_price plan)
       /\ ~ rec_current_price plan == 0
       /\ rec_action plan = res_signal r
       /\ rec_notes plan <> [].
Proof.
  intro H.
  destruct (generate_signal_inv _ _ _ _ _ _ _ H) as (buy & sell & rest & I).
  cbv zeta in I. destruct I as (_ & _ & _ & _ & _ & _ & _ & Hp & _).
  apply swing_trade_levels_shape in Hp.
  destruct (res_swing_trade r) as [plan|].
  - destruct Hp as (Hn & Ha & Hnotes & _). split.
    + split; [discriminate | intro N; rewrite N in Hn; discriminate].
    + intros plan' E. inversion E; subst plan'; clear E.
      apply nonzero_some in Hn. destruct Hn as [Hn Hz].
      repeat split; assumption.
  - split; [split; [intros _; exact Hp | reflexivity] | intros plan E; discriminate].
Qed.

Lemma plan_needs_price_witness :
  exists r,
    SignalEngine.generate_signal SIGNAL_RULES empty_technical no_sentiment None None None
    = Ok r
    /\ res_swing_trade r = None
    /\ nonzero (m_price (res_metrics r)) = None.
Proof.
  assert (H : exists r,
             SignalEngine.generate_signal SIGNAL_RULES empty_technical no_sentiment None
               None None = Ok r
             /\ res_swing_trade r = None)
    by (eexists; vm_compute; split; reflexivity).
  destruct H as (r & H & N).
  exists r. repeat split; try assumption.
  exact (proj1 (proj1 (plan_needs_price _ _ _ _ _ _ _ H)) N).
Defined.

(** X6. Entry, target, stop, risk:reward ratio and holding period are
    present on a plan exactly for BUY: the plans of SELL and HOLD results
    carry notes only. *)
Theorem numeric_levels_only_for_buy (rules : rules_t) (td : technical_dict)
    (sd : sentiment_data_dict) (nd : option news_dict) (pd : option price_dict)
    (std : option stats_data_dict) (r : signal_result) (plan : recommendation_t) :
  SignalEngine.generate_signal rules td sd nd pd std = Ok r ->
  res_swing_trade r = Some plan ->
  (res_signal r = BUY ->
   rec_entry_price plan <> None /\ rec_target_price plan <> None
   /\ rec_stop_loss plan <> None /\ rec_risk_reward_ratio plan <> None
   /\ rec_holding_period plan <> None)
  /\ (res_signal r <> BUY ->
      rec_entry_price plan = None /\ rec_target_price plan = None
      /\ rec_stop_loss plan = None /\ rec_risk_reward_ratio plan = None
      /\ rec_holding_period plan = None).
Proof.
  intros H P.
  destruct (generate_signal_inv _ _ _ _ _ _ _ H) as (buy & sell & rest & I).
  cbv zeta in I. destruct I as (_ & _ & _ & _ & _ & _ & _ & Hp & _).
  apply swing_trade_levels_shape in Hp. rewrite P in Hp.
  destruct Hp as (_ & _ & _ & Hb & Hn). split; assumption.
Qed.

Lemma numeric_levels_only_for_buy_witness :
  exists r plan,
    SignalEngine.generate_signal SIGNAL_RULES scenario_B_technical
      (sentiment_of (-0.4) "negative") None (price_of 100 1.5) scenario_B_stats = Ok r
    /\ res_swing_trade r = Some plan
    /\ res_signal r = SELL
    /\ rec_entry_price plan = None /\ rec_stop_loss plan = None.
Proof.
  assert (H : exists r plan,
             SignalEngine.generate_signal SIGNAL_RULES scenario_B_technical
               (sentiment_of (-0.4) "negative") None (price_of 100 1.5) scenario_B_stats
             = Ok r
             /\ res_swing_trade r = Some plan /\ res_signal r = SELL)
    by (do 2 eexists; vm_compute; repeat split; reflexivity).
  destruct H as (r & plan & H & P & S).
  destruct (numeric_levels_only_for_buy _ _ _ _ _ _ _ _ H P) as [_ N].
  assert (NB : res_signal r <> BUY) by (rewrite S; discriminate).
  destruct (N NB) as (He & _ & Hs & _).
  exists r, plan. repeat split; assumption.
Defined.

End PlanShape.

(** ** Levels of the BUY plan *)

Section BuyLevels.

Import SignalEngine.

Lemma max_list_ge_head (l : list Q) (a : Q) : a <= max_list a l.
Proof.
  unfold max_list. revert a.
  induction l as [|x l IH]; intro a; cbn [fold_left]; [lra|].
  specialize (IH (max2 a x)). pose proof (max2_ge_l a x). lra.
Qed.

(** The levels of a BUY plan in terms of what the planner read. *)
Lemma buy_plan_levels (price : Q) (td : technical_dict) (std : option stats_data_dict)
    (confidence : Q) (plan : recommendation_t) :
  _calculate_swing_trade_levels BUY (Some price) td std confidence = Ok (Some plan) ->
  exists bb ma high low ratio,
    let atr_value :=
      match nonzero (get (td_atr td)) with
      | Some a => a
      | None => price * 0.02
      end in
    let bb_lower := get (bollinger_lower bb) in
    let sma_20 := get (ma_sma_20 ma) in
    let entry_price := fst (buy_entry price (get (td_rsi td)) bb_lower sma_20) in
    let target_price :=
      buy_target price confidence (get (bollinger_upper bb)) (get (ma_sma_50 ma)) high in
    let stop_loss := buy_stop_loss price entry_price atr_value bb_lower sma_20 low in
    ~ price == 0
    /\ get_default (td_bollinger td) empty_bollinger = Some bb
    /\ get_default (td_moving_averages td) empty_ma = Some ma
    /\ fifty_two_week_levels std = Ok (high, low)
    /\ rec_entry_price plan = Some entry_price
    /\ rec_target_price plan = Some target_price
    /\ rec_stop_loss plan = Some stop_loss
    /\ rec_risk_reward_ratio plan = Some ratio
    /\ risk_reward entry_price target_price stop_loss = Ok ratio.
Proof.
  unfold _calculate_swing_trade_levels. intro H.
  destruct (nonzero (Some price)) as [p|] eqn:N; [|discriminate].
  apply nonzero_some in N. destruct N as [N Hz]. inversion N; subst p; clear N.
  bind_inv H. bind_inv H.
  match goal with p : (option Q * option Q)%type |- _ => destruct p as [high low] end.
  bind_inv H. inversion H; subst; clear H.
  match goal with P : plan_buy _ _ _ _ _ _ _ _ = Ok _ |- _ =>
    unfold plan_buy in P;
    destruct (get_default (td_bollinger td) empty_bollinger) as [bb|]; [|discriminate];
    destruct (get_default (td_moving_averages td) empty_ma) as [ma|]; [|discriminate];
    cbn [attr_get bind] in P;
    destruct (buy_entry _ _ _ _) as [entry_price entry_note] eqn:B;
    bind_inv P; inversion P; subst; clear P end.
  exists bb, ma, high, low. eexists.
  cbn -[buy_entry buy_target buy_stop_loss risk_reward nonzero].
  rewrite B. cbn [fst].
  repeat split; try reflexivity; try assumption.
Qed.

(** X7. The stop of a BUY plan is never more than twice the ATR below the
    entry; without an ATR (absent or zero) the planner takes 2% of the
    current price for it, so the stop is at most 4% of the price below the
    entry. *)
Theorem buy_stop_within_two_atr (price : Q) (td : technical_dict)
    (std : option stats_data_dict) (confidence : Q) (plan : recommendation_t) :
  _calculate_swing_trade_levels BUY (Some price) td std confidence = Ok (Some plan) ->
  exists entry_price stop_loss,
    rec_entry_price plan = Some entry_price
    /\ rec_stop_loss plan = Some stop_loss
    /\ (forall atr, get (td_atr td) = Some atr -> ~ atr == 0 ->
        entry_price - 2 * atr <= stop_loss)
    /\ (nonzero (get (td_atr td)) = None -> entry_price - 0.04 * price <= stop_loss).
Proof.
  intro H.
  destruct (buy_plan_levels _ _ _ _ _ H)
    as (bb & ma & high & low & ratio & _ & _ & _ & _ & He & _ & Hs & _).
  do 2 eexists. split; [exact He|]. split; [exact Hs|].
  unfold buy_stop_loss, buy_stops. cbn [app].
  match goal with |- context [max2 (max_list ?a ?l) ?b] =>
    pose proof (max_list_ge_head l a); pose proof (max2_ge_l (max_list a l) b)
  end.
  split.
  - intros atr Ha Hnz.
    assert (N : nonzero (get (td_atr td)) = Some atr).
    { rewrite Ha. unfold nonzero.
      destruct (is_true atr) eqn:T; [reflexivity|]. cmp_facts. contradiction. }
    rewrite N in *. lra.
  - intro N. rewrite N in *. lra.
Qed.

Lemma buy_stop_within_two_atr_witness :
  exists plan entry_price stop_loss,
    _calculate_swing_trade_levels BUY (Some 100) scenario_A_technical scenario_A_stats 0.95
    = Ok (Some plan)
    /\ rec_entry_price plan = Some entry_price
    /\ rec_stop_loss plan = Some stop_loss
    /\ entry_price - 0.04 * 100 <= stop_loss.
Proof.
  assert (H : exists plan,
             _calculate_swing_trade_levels BUY (Some 100) scenario_A_technical
               scenario_A_stats 0.95 = Ok (Some plan))
    by (eexists; vm_compute; reflexivity).
  destruct H as [plan H].
  destruct (buy_stop_within_two_atr _ _ _ _ _ H) as (e & s & He & Hs & _ & Hd).
  exists plan, e, s. repeat split; try assumption. apply Hd. reflexivity.
Defined.

Lemma buy_entry_no_levels (price : Q) (rsi : option Q) :
  exists note,
    buy_entry price rsi None None = (price, note)
    \/ buy_entry price rsi None None = (price * 0.98, note).
Proof.
  unfold buy_entry. destruct (num_and rsi _); cbn [num_and nonzero];
    eexists; [left | right]; reflexivity.
Qed.

(** Target, stop and ratio when the planner has the price alone. *)
Lemma default_levels (price confidence entry_price : Q) :
  0 < price ->
  0 <= confidence <= 1 ->
  entry_price = price \/ entry_price = price * 0.98 ->
  let target_price := buy_target price confidence None None None in
  let stop_loss := buy_stop_loss price entry_price (price * 0.02) None None None in
  price * 1.08 <= target_price <= price * 1.16
  /\ stop_loss == entry_price - price * 0.04
  /\ exists ratio, risk_reward entry_price target_price stop_loss = Ok ratio /\ 2 <= ratio.
Proof.
  intros Hpos Hconf He. cbv zeta.
  assert (T : price * 1.08 <= buy_target price confidence None None None <= price * 1.16).
  { unfold buy_target, buy_targets. cbn [nonzero app]. nra. }
  assert (S : buy_stop_loss price entry_price (price * 0.02) None None None
              == entry_price - price * 0.04).
  { unfold buy_stop_loss, buy_stops. cbn [nonzero app max_list fold_left].
    unfold max2. split_cmp; cmp_facts; destruct He; subst; lra. }
  split; [exact T|]. split; [exact S|].
  destruct (risk_reward_total entry_price (buy_target price confidence None None None)
              (buy_stop_loss price entry_price (price * 0.02) None None None))
    as (ratio & R & _ & P).
  exists ratio. split; [exact R|].
  rewrite P by (destruct He; subst; lra).
  apply Qle_shift_div_l; destruct He; subst; lra.
Qed.

(** X8. The plan of last resort.  With no Bollinger bands, no moving
    averages, no ATR and no statistics, a BUY plan at a positive price and a
    confidence between 0 and 1 enters at the price or 2% below it, aims 8%
    to 16% above the price, stops 4% of the price below the entry, and so
    always reports a risk:reward ratio of at least 2. *)
Theorem default_buy_plan (price confidence : Q) (td : technical_dict) :
  td_macd td <> IsNone ->
  td_bollinger td = Missing ->
  td_moving_averages td = Missing ->
  nonzero (get (td_atr td)) = None ->
  0 < price ->
  0 <= confidence <= 1 ->
  exists plan entry_price target_price stop_loss ratio,
    _calculate_swing_trade_levels BUY (Some price) td None confidence = Ok (Some plan)
    /\ rec_entry_price plan = Some entry_price
    /\ rec_target_price plan = Some target_price
    /\ rec_stop_loss plan = Some stop_loss
    /\ rec_risk_reward_ratio plan = Some ratio
    /\ (entry_price = price \/ entry_price = price * 0.98)
    /\ price * 1.08 <= target_price <= price * 1.16
    /\ stop_loss == entry_price - price * 0.04
    /\ 2 <= ratio.
Proof.
  intros Hmacd Hbb Hma Hatr Hpos Hconf.
  unfold _calculate_swing_trade_levels.
  assert (N : nonzero (Some price) = Some price).
  { unfold nonzero. destruct (is_true price) eqn:T; [reflexivity|]. cmp_facts. lra. }
  rewrite N, Hbb, Hma, Hatr.
  assert (M : exists m, attr_get (get_default (td_macd td) empty_macd) = Ok m).
  { destruct (td_macd td);
      [eexists; reflexivity | elim Hmacd; reflexivity | eexists; reflexivity]. }
  destruct M as [m ->].
  cbn [get_default attr_get bind fifty_two_week_levels].
  unfold plan_buy.
  cbn [attr_get bind get empty_bollinger empty_ma bollinger_lower bollinger_upper
       ma_sma_20 ma_sma_50].
  destruct (buy_entry_no_levels price (get (td_rsi td))) as [note E].
  assert (He : exists entry_price,
             buy_entry price (get (td_rsi td)) None None = (entry_price, note)
             /\ (entry_price = price \/ entry_price = price * 0.98)).
  { destruct E as [E | E]; eexists; (split; [exact E|]); [left | right]; reflexivity. }
  clear E. destruct He as (entry_price & -> & He).
  destruct (default_levels price confidence entry_price Hpos Hconf He)
    as (T & S & ratio & R & Hr).
  rewrite R. cbn [bind].
  do 5 eexists. split; [reflexivity|]. cbn [rec_entry_price rec_target_price
    rec_stop_loss rec_risk_reward_ratio].
  repeat split; try reflexivity; try assumption; apply T.
Qed.

Lemma default_buy_plan_witness :
  exists plan ratio,
    _calculate_swing_trade_levels BUY (Some 100) macd_only_technical None 0.75
    = Ok (Some plan)
    /\ rec_risk_reward_ratio plan = Some ratio
    /\ 2 <= ratio.
Proof.
  assert (M : td_macd macd_only_technical <> IsNone) by discriminate.
  assert (P : 0 < 100) by reflexivity.
  assert (C : 0 <= 0.75 <= 1) by (split; discriminate).
  destruct (default_buy_plan 100 0.75 macd_only_technical M eq_refl eq_refl eq_refl P C)
    as (plan & e & t & s & ratio & H & _ & _ & _ & Hr & _ & _ & _ & R).
  exists plan, ratio. repeat split; assumption.
Defined.

End BuyLevels.

(** ** One indicator, one side *)

Section OneSide.

Import SignalEngine.

(** X9. No indicator argues both ways: on the same snapshot the RSI, the
    MACD, the 52-week position, the Bollinger %B, the stochastic %K, the
    moving averages and the ADX each add to at most one of the two scores;
    so does the sentiment under the default rules. *)
Theorem indicators_take_one_side (b s : scoring) :
  (forall rsi, buy_rsi rsi b = b \/ sell_rsi rsi s = s)
  /\ (forall macd_line signal_line histogram,
         buy_macd macd_line signal_line histogram b = b
         \/ sell_macd macd_line signal_line s = s)
  /\ (forall price high low,
         buy_momentum price high low b = Ok b \/ sell_overextension price high low s = Ok s)
  /\ (forall bollinger price b' s',
         buy_bollinger bollinger price b = Ok b' ->
         sell_bollinger bollinger price s = Ok s' ->
         b' = b \/ s' = s)
  /\ (forall stochastic, buy_stochastic stochastic b = b \/ sell_stochastic stochastic s = s)
  /\ (forall ma_data, buy_moving_averages ma_data b = b \/ sell_moving_averages ma_data s = s)
  /\ (forall adx_data, buy_adx adx_data b = b \/ sell_adx adx_data s = s)
  /\ (forall score b' s',
         buy_sentiment SIGNAL_RULES score b = Ok b' ->
         sell_sentiment SIGNAL_RULES score s = Ok s' ->
         b' = b \/ s' = s).
Proof.
  repeat apply conj.
  - intro rsi. unfold buy_rsi, sell_rsi. destruct rsi as [r|]; [|left; reflexivity].
    repeat split_cmp; cmp_facts; try (left; reflexivity); try (right; reflexivity); lra.
  - intros ml sl h. unfold buy_macd, sell_macd.
    destruct ml as [m|], sl as [x|]; try (left; reflexivity).
    destruct (gtb m x) eqn:G, (ltb m x) eqn:L; cmp_facts;
      try (left; reflexivity); try (right; reflexivity); lra.
  - intros price high low. unfold buy_momentum, sell_overextension.
    destruct (nonzero price) as [p|], (nonzero high) as [h|], (nonzero low) as [l|];
      try (left; reflexivity).
    destruct (position_in_range_total p h l) as [pos ->]. cbn [bind].
    repeat split_cmp; cmp_facts; try (left; reflexivity); try (right; reflexivity); lra.
  - intros bollinger price b' s'. unfold buy_bollinger, sell_bollinger.
    destruct (truthy_dict bollinger_nonempty bollinger) as [bb|], (nonzero price) as [p|];
      try (intros B _; inversion B; left; reflexivity).
    destruct (get_default (bollinger_percent_b bb) 0.5) as [pb|]; [|discriminate].
    repeat split_cmp; cmp_facts; intros B S; inversion B; inversion S;
      try (left; reflexivity); try (right; reflexivity); lra.
  - intro d. unfold buy_stochastic, sell_stochastic.
    destruct (truthy_dict stochastic_nonempty d) as [x|]; [|left; reflexivity].
    destruct (nonzero (get (stochastic_k x))) as [k|]; [|left; reflexivity].
    repeat split_cmp; cmp_facts; try (left; reflexivity); try (right; reflexivity); lra.
  - intro d. unfold buy_moving_averages, sell_moving_averages.
    destruct (truthy_dict ma_nonempty d) as [x|]; [|left; reflexivity].
    destruct (get (ma_above_sma_20 x)) as [[|]|], (get (ma_above_sma_50 x)) as [[|]|];
      cbn; try (left; reflexivity); right; reflexivity.
  - intro d. unfold buy_adx, sell_adx.
    destruct (truthy_dict adx_nonempty d) as [x|]; [|left; reflexivity].
    destruct (nonzero (get (adx_adx x))) as [a|], (nonzero (get (adx_di_plus x))) as [p|],
      (nonzero (get (adx_di_minus x))) as [m|]; try (left; reflexivity).
    destruct (gtb a 25), (gtb p m) eqn:G1, (gtb m p) eqn:G2; cmp_facts; cbn [andb];
      try (left; reflexivity); try (right; reflexivity); lra.
  - intros score b' s'. unfold buy_sentiment, sell_sentiment.
    destruct score as [x|]; [|discriminate].
    cbn [SIGNAL_RULES rules_BUY_sentiment_threshold rules_SELL_sentiment_threshold].
    repeat split_cmp; cmp_facts; intros B S; inversion B; inversion S;
      try (left; reflexivity); try (right; reflexivity); lra.
Qed.

End OneSide.

(** ** Well-formed snapshots *)

Section WellFormed.

Import SignalEngine.

Lemma not_none_get_default {A : Type} (e : entry A) (default : A) :
  is_none e = false -> exists x, get_default e default = Some x.
Proof.
  destruct e; [eexists; reflexivity | discriminate | eexists; reflexivity].
Qed.

Lemma buy_sentiment_total (rules : rules_t) (s : Q) (st : scoring) :
  exists st', buy_sentiment rules (Some s) st = Ok st'.
Proof.
  unfold buy_sentiment. repeat split_cmp; eexists; reflexivity.
Qed.

Lemma sell_sentiment_total (rules : rules_t) (s : Q) (st : scoring) :
  exists st', sell_sentiment rules (Some s) st = Ok st'.
Proof.
  unfold sell_sentiment. repeat split_cmp; eexists; reflexivity.
Qed.

Lemma bollinger_total (bollinger : option bollinger_dict) (current_price : option Q)
    (st : scoring) :
  (forall bb, bollinger = Some bb -> is_none (bollinger_percent_b bb) = false) ->
  (exists st', buy_bollinger bollinger current_price st = Ok st')
  /\ (exists st', sell_bollinger bollinger current_price st = Ok st').
Proof.
  intro H. unfold buy_bollinger, sell_bollinger, truthy_dict.
  destruct bollinger as [bb|]; [|split; eexists; reflexivity].
  destruct (bollinger_nonempty bb); [|split; eexists; reflexivity].
  destruct (nonzero current_price); [|split; eexists; reflexivity].
  destruct (not_none_get_default (bollinger_percent_b bb) 0.5 (H bb eq_refl)) as [pb ->].
  split; repeat split_cmp; eexists; reflexivity.
Qed.

Lemma buy_side_total (rules : rules_t) (s : Q) (rsi macd_line signal_line macd_histogram
    current_price high low pe_ratio volume avg_volume : option Q)
    (bollinger : option bollinger_dict) (stochastic : option stochastic_dict)
    (ma_data : option ma_dict) (adx_data : option adx_dict) :
  (forall bb, bollinger = Some bb -> is_none (bollinger_percent_b bb) = false) ->
  exists buy,
    buy_side rules (Some s) rsi macd_line signal_line macd_histogram current_price
      high low pe_ratio volume avg_volume bollinger stochastic ma_data adx_data = Ok buy.
Proof.
  intro Hb. unfold buy_side.
  destruct (buy_sentiment_total rules s scoring_init) as [b1 ->]. cbn [bind].
  match goal with |- context [buy_momentum ?p ?h ?l ?st] =>
    destruct (buy_momentum_total p h l st) as [b2 ->] end. cbn [bind].
  match goal with |- context [buy_volume ?v ?a ?st] =>
    destruct (buy_volume_total v a st) as [b3 ->] end. cbn [bind].
  match goal with |- context [buy_bollinger ?d ?p ?st] =>
    destruct (proj1 (bollinger_total d p st Hb)) as [b4 ->] end. cbn [bind].
  eexists; reflexivity.
Qed.

Lemma sell_side_total (rules : rules_t) (s : Q) (rsi macd_line signal_line
    current_price high low beta debt_to_equity : option Q)
    (bollinger : option bollinger_dict) (stochastic : option stochastic_dict)
    (ma_data : option ma_dict) (adx_data : option adx_dict) :
  (forall bb, bollinger = Some bb -> is_none (bollinger_percent_b bb) = false) ->
  exists sell,
    sell_side rules (Some s) rsi macd_line signal_line current_price high low
      beta debt_to_equity bollinger stochastic ma_data adx_data = Ok sell.
Proof.
  intro Hb. unfold sell_side.
  destruct (sell_sentiment_total rules s scoring_init) as [s1 ->]. cbn [bind].
  match goal with |- context [sell_overextension ?p ?h ?l ?st] =>
    destruct (sell_overextension_total p h l st) as [s2 ->] end. cbn [bind].
  match goal with |- context [sell_bollinger ?d ?p ?st] =>
    destruct (proj2 (bollinger_total d p st Hb)) as [s3 ->] end. cbn [bind].
  eexists; reflexivity.
Qed.

Lemma plan_buy_total (price confidence atr_value : Q) (rsi : option Q)
    (bb : bollinger_dict) (ma : ma_dict) (high low : option Q) :
  exists plan,
    plan_buy price confidence atr_value rsi (Some bb) (Some ma) high low = Ok plan.
Proof.
  unfold plan_buy. cbn [attr_get bind].
  destruct (buy_entry _ _ _ _) as [entry_price entry_note].
  match goal with |- context [risk_reward ?a ?b ?c] =>
    destruct (risk_reward_total a b c) as (ratio & -> & _) end.
  cbn [bind]. eexists; reflexivity.
Qed.

Lemma plan_hold_total (signal : signal_t) (price : Q) (rsi macd_line signal_line : option Q)
    (bb : bollinger_dict) (ma : ma_dict) (high low : option Q) :
  ~ price == 0 ->
  exists plan,
    plan_hold signal price rsi macd_line signal_line (Some bb) (Some ma) high low = Ok plan.
Proof.
  intro Hnz. unfold plan_hold. cbn [attr_get bind].
  repeat match goal with |- context [support_entry ?l ?p ?v ?es] =>
    let S := fresh "S" in
    destruct (support_entry_total l p v es Hnz) as [? S];
    rewrite S; cbn [bind] end.
  match goal with |- context [hold_range_note ?p ?h ?l ?ns] =>
    destruct (hold_range_note_total p h l ns) as [? ->] end.
  cbn [bind]. eexists; reflexivity.
Qed.

Lemma swing_trade_levels_total (signal : signal_t) (current_price : option Q)
    (td : technical_dict) (std : option stats_data_dict) (confidence : Q) :
  is_none (td_macd td) = false ->
  is_none (td_bollinger td) = false ->
  is_none (td_moving_averages td) = false ->
  (forall d, std = Some d -> sdd_success d = true -> is_none (sdd_data d) = false) ->
  exists plan,
    _calculate_swing_trade_levels signal current_price td std confidence = Ok plan.
Proof.
  intros Hm Hb Ha Hs. unfold _calculate_swing_trade_levels.
  destruct (nonzero current_price) as [price|] eqn:N; [|eexists; reflexivity].
  apply nonzero_some in N. destruct N as [_ Hnz].
  destruct (not_none_get_default _ empty_macd Hm) as [macd_data ->].
  destruct (not_none_get_default _ empty_bollinger Hb) as [bb ->].
  destruct (not_none_get_default _ empty_ma Ha) as [ma ->].
  cbn [attr_get bind].
  assert (L : exists levels, fifty_two_week_levels std = Ok levels).
  { unfold fifty_two_week_levels. destruct std as [d|]; [|eexists; reflexivity].
    destruct (sdd_success d) eqn:S; [|eexists; reflexivity].
    destruct (not_none_get_default _ empty_stats (Hs d eq_refl S)) as [stats ->].
    cbn [attr_get bind]. eexists; reflexivity. }
  destruct L as [[high low] ->]. cbn [bind].
  destruct signal;
    try (match goal with |- context [plan_hold ?s ?p ?r ?m ?l ?b ?a ?h ?w] =>
           destruct (plan_hold_total s p r m l bb ma h w Hnz) as [plan ->] end;
         cbn [bind]; eexists; reflexivity).
  - match goal with |- context [plan_buy ?p ?c ?a ?r _ _ ?h ?w] =>
      destruct (plan_buy_total p c a r bb ma h w) as [plan ->] end.
    cbn [bind]. eexists; reflexivity.
  - eexists; reflexivity.
Qed.

Lemma well_formed_total (rules : rules_t) (td : technical_dict)
    (sd : sentiment_data_dict) (nd : option news_dict) (pd : option price_dict)
    (std : option stats_data_dict) :
  well_formed td sd nd std = true ->
  exists r, SignalEngine.generate_signal rules td sd nd pd std = Ok r.
Proof.
  unfold well_formed. intro W.
  repeat (apply andb_prop in W; let W' := fresh "W" in destruct W as [W W']).
  rename W into Wm. 
  apply negb_true_iff in Wm.
  match goal with H : negb (is_none (td_bollinger td)) = true |- _ =>
    apply negb_true_iff in H; rename H into Wb end.
  match goal with H : negb (is_none (td_moving_averages td)) = true |- _ =>
    apply negb_true_iff in H; rename H into Wa end.
  match goal with H : news_counted nd = true |- _ => rename H into Wn end.
  match goal with H : match std with _ => _ end = true |- _ => rename H into Ws end.
  match goal with H : (negb (sd_success sd) || _)%bool = true |- _ => rename H into Wsent end.
  match goal with H : match td_bollinger td with _ => _ end = true |- _ => rename H into Wpb end.
  assert (Hpb : forall bb, get_default (td_bollinger td) empty_bollinger = Some bb ->
                           is_none (bollinger_percent_b bb) = false).
  { intros bb E. destruct (td_bollinger td) as [| |bb0]; cbn in E.
    - inversion E; subst. reflexivity.
    - discriminate.
    - inversion E; subst. apply negb_true_iff in Wpb. exact Wpb. }
  assert (Hst : forall d, std = Some d -> sdd_success d = true -> is_none (sdd_data d) = false).
  { intros d -> S. rewrite S in Ws. cbn in Ws. apply negb_true_iff in Ws. exact Ws. }
  unfold SignalEngine.generate_signal.
  destruct (not_none_get_default _ empty_macd Wm) as [macd_data Em]. rewrite Em.
  cbn [attr_get bind].
  assert (Sc : exists s, read_sentiment sd sent_overall_score 0.0 = Ok (Some s)).
  { unfold read_sentiment. destruct (sd_success sd); [|eexists; reflexivity].
    cbn in Wsent. destruct (sd_sentiment sd) as [| |sent]; cbn.
    - eexists; reflexivity.
    - discriminate.
    - apply negb_true_iff in Wsent.
      destruct (not_none_get_default _ 0.0 Wsent) as [x ->]. eexists; reflexivity. }
  destruct Sc as [s ->]. cbn [bind].
  assert (Sl : exists l, read_sentiment sd sent_label "neutral" = Ok l).
  { unfold read_sentiment. destruct (sd_success sd); [|eexists; reflexivity].
    cbn in Wsent. destruct (sd_sentiment sd) as [| |sent]; cbn.
    - eexists; reflexivity.
    - discriminate.
    - eexists; reflexivity. }
  destruct Sl as [l ->]. cbn [bind].
  assert (St : exists stats, read_stats std = Ok stats).
  { unfold read_stats. destruct std as [d|]; [|eexists; reflexivity].
    destruct (sdd_success d) eqn:S; [|eexists; reflexivity].
    destruct (not_none_get_default _ empty_stats (Hst d eq_refl S)) as [stats ->].
    cbn [attr_get bind]. eexists; reflexivity. }
  destruct St as [stats ->]. cbn [bind].
  match goal with |- context [buy_side ?r (Some ?s) ?a ?b ?c ?d ?e ?f ?g ?h ?i ?j ?k ?l ?m ?n] =>
    destruct (buy_side_total r s a b c d e f g h i j k l m n Hpb) as [buy ->] end.
  cbn [bind].
  match goal with |- context [sell_side ?r (Some ?s) ?a ?b ?c ?d ?e ?f ?g ?h ?k ?l ?m ?n] =>
    destruct (sell_side_total r s a b c d e f g h k l m n Hpb) as [sell ->] end.
  cbn [bind].
  unfold news_counted in Wn. destruct (read_news_count nd) as [n|]; [|discriminate].
  assert (Nc : forall rs, exists out, news_context (Some n) rs = Ok out).
  { intro rs. unfold news_context. destruct (0 <? n)%Z; eexists; reflexivity. }
  match goal with |- context [news_context (Some n) ?rs] =>
    destruct (Nc rs) as [[n' reasons'] ->] end.
  cbn [bind].
  match goal with |- context [_calculate_swing_trade_levels ?sg ?p td std ?c] =>
    destruct (swing_trade_levels_total sg p td std c Wm Wb Wa Hst) as [plan ->] end.
  cbn [bind]. eexists; reflexivity.
Qed.

(** X10. A structurally valid snapshot is always answered: when none of the
    dictionaries the engine reads is [None] and the Bollinger %B, the
    sentiment score and the article count are numbers wherever they are
    present, the engine returns a result, whatever the values, missing keys
    and zeros of the snapshot. *)
Theorem well_formed_snapshot_is_answered (rules : rules_t) (td : technical_dict)
    (sd : sentiment_data_dict) (nd : option news_dict) (pd : option price_dict)
    (std : option stats_data_dict) :
  well_formed td sd nd std = true ->
  exists r, SignalEngine.generate_signal rules td sd nd pd std = Ok r.
Proof. exact (well_formed_total rules td sd nd pd std). Qed.

Lemma well_formed_snapshot_is_answered_witness :
  well_formed scenario_A_technical (sentiment_of 0.4 "positive") None scenario_A_stats = true
  /\ exists r,
       SignalEngine.generate_signal SIGNAL_RULES scenario_A_technical
         (sentiment_of 0.4 "positive") None (price_of 100 1.5) scenario_A_stats = Ok r.
Proof.
  split; [reflexivity|].
  apply (well_formed_snapshot_is_answered SIGNAL_RULES scenario_A_technical
           (sentiment_of 0.4 "positive") None (price_of 100 1.5) scenario_A_stats).
  reflexivity.
Defined.

End WellFormed.

(** ** Answers and their reasons *)

Section Explanations.

Import SignalEngine.

Lemma fire_explained (st : scoring) (w : Q) (msg : string) : explained (fire st w msg).
Proof.
  intros _. unfold fire, append_item. cbn [conditions additional].
  destruct (conditions st); discriminate.
Qed.

Lemma fire_additional_explained (st : scoring) (w : Q) (msg : string) :
  explained (fire_additional st w msg).
Proof.
  intros _. unfold fire_additional, append_item. cbn [conditions additional].
  destruct (conditions st), (additional st); discriminate.
Qed.

(** A block that fired is explained; a block that did not leaves the state
    as it found it. *)
Ltac fired :=
  first [ assumption | apply fire_explained | apply fire_additional_explained ].

Ltac fired_ok := let H := fresh in intro H; inversion H; subst; fired.

Section Blocks.

Variables (rules : rules_t) (st st' : scoring).
Hypothesis I : explained st.

Lemma buy_sentiment_explained (s : option Q) :
  buy_sentiment rules s st = Ok st' -> explained st'.
Proof using I. unfold buy_sentiment. crack; fired_ok. Qed.

Lemma buy_rsi_explained (rsi : option Q) : explained (buy_rsi rsi st).
Proof using I. unfold buy_rsi. crack; fired. Qed.

Lemma buy_macd_explained (ml sl h : option Q) : explained (buy_macd ml sl h st).
Proof using I. unfold buy_macd. crack; fired. Qed.

Lemma buy_momentum_explained (p h l : option Q) :
  buy_momentum p h l st = Ok st' -> explained st'.
Proof using I. unfold buy_momentum, bind. crack; fired_ok. Qed.

Lemma buy_valuation_explained (pe : option Q) : explained (buy_valuation pe st).
Proof using I. unfold buy_valuation. crack; fired. Qed.

Lemma buy_volume_explained (v a : option Q) :
  buy_volume v a st = Ok st' -> explained st'.
Proof using I. unfold buy_volume, bind. crack; fired_ok. Qed.

Lemma buy_bollinger_explained (bb : option bollinger_dict) (p : option Q) :
  buy_bollinger bb p st = Ok st' -> explained st'.
Proof using I. unfold buy_bollinger. crack; fired_ok. Qed.

Lemma buy_stochastic_explained (d : option stochastic_dict) :
  explained (buy_stochastic d st).
Proof using I. unfold buy_stochastic. crack; fired. Qed.

Lemma buy_moving_averages_explained (d : option ma_dict) :
  explained (buy_moving_averages d st).
Proof using I. unfold buy_moving_averages. crack; fired. Qed.

Lemma buy_adx_explained (d : option adx_dict) : explained (buy_adx d st).
Proof using I. unfold buy_adx. crack; fired. Qed.

Lemma sell_sentiment_explained (s : option Q) :
  sell_sentiment rules s st = Ok st' -> explained st'.
Proof using I. unfold sell_sentiment. crack; fired_ok. Qed.

Lemma sell_rsi_explained (rsi : option Q) : explained (sell_rsi rsi st).
Proof using I. unfold sell_rsi. crack; fired. Qed.

Lemma sell_macd_explained (ml sl : option Q) : explained (sell_macd ml sl st).
Proof using I. unfold sell_macd. crack; fired. Qed.

Lemma sell_overextension_explained (p h l : option Q) :
  sell_overextension p h l st = Ok st' -> explained st'.
Proof using I. unfold sell_overextension, bind. crack; fired_ok. Qed.

Lemma sell_risk_factors_explained (b d : option Q) :
  explained (sell_risk_factors b d st).
Proof using I.
  unfold sell_risk_factors, explained, append_item.
  destruct (nonzero b) as [x|]; [destruct (gtb x 1.5)|];
    (destruct (nonzero d) as [y|]; [destruct (gtb y 2.0)|]);
    cbn [score conditions additional app];
    try exact I; intros _; destruct (conditions st); discriminate.
Qed.

Lemma sell_bollinger_explained (bb : option bollinger_dict) (p : option Q) :
  sell_bollinger bb p st = Ok st' -> explained st'.
Proof using I. unfold sell_bollinger. crack; fired_ok. Qed.

Lemma sell_stochastic_explained (d : option stochastic_dict) :
  explained (sell_stochastic d st).
Proof using I. unfold sell_stochastic. crack; fired. Qed.

Lemma sell_moving_averages_explained (d : option ma_dict) :
  explained (sell_moving_averages d st).
Proof using I. unfold sell_moving_averages. crack; fired. Qed.

Lemma sell_adx_explained (d : option adx_dict) : explained (sell_adx d st).
Proof using I. unfold sell_adx. crack; fired. Qed.

End Blocks.

Lemma scoring_init_explained : explained scoring_init.
Proof. unfold explained, scoring_init. cbn [score]. lra. Qed.

(** A side with a positive score lists at least one condition. *)
Lemma buy_side_explained (rules : rules_t) (ss rsi ml sl h p hi lo pe v a : option Q)
    (bb : option bollinger_dict) (stc : option stochastic_dict) (ma : option ma_dict)
    (adx : option adx_dict) (buy : scoring) :
  buy_side rules ss rsi ml sl h p hi lo pe v a bb stc ma adx = Ok buy ->
  0 < score buy -> conditions buy <> [].
Proof.
  unfold buy_side. intro H.
  bind_inv H. bind_inv H. bind_inv H. bind_inv H.
  inversion H; subst; clear H.
  cbn [extend_additional score conditions].
  apply buy_adx_explained, buy_moving_averages_explained, buy_stochastic_explained.
  eapply buy_bollinger_explained; [|eassumption].
  eapply buy_volume_explained; [|eassumption].
  apply buy_valuation_explained.
  eapply buy_momentum_explained; [|eassumption].
  apply buy_macd_explained, buy_rsi_explained.
  eapply buy_sentiment_explained; [|eassumption].
  apply scoring_init_explained.
Qed.

Lemma sell_side_explained (rules : rules_t) (ss rsi ml sl p hi lo beta debt : option Q)
    (bb : option bollinger_dict) (stc : option stochastic_dict) (ma : option ma_dict)
    (adx : option adx_dict) (sell : scoring) :
  sell_side rules ss rsi ml sl p hi lo beta debt bb stc ma adx = Ok sell ->
  0 < score sell -> conditions sell <> [].
Proof.
  unfold sell_side. intro H.
  bind_inv H. bind_inv H. bind_inv H.
  inversion H; subst; clear H.
  cbn [extend_additional score conditions].
  apply sell_adx_explained, sell_moving_averages_explained, sell_stochastic_explained.
  eapply sell_bollinger_explained; [|eassumption].
  apply sell_risk_factors_explained.
  eapply sell_overextension_explained; [|eassumption].
  apply sell_macd_explained, sell_rsi_explained.
  eapply sell_sentiment_explained; [|eassumption].
  apply scoring_init_explained.
Qed.

Lemma firstn_nonempty {A : Type} (n : nat) (l : list A) :
  l <> [] -> firstn (S n) l <> [].
Proof. destruct l; [intro N; elim N; reflexivity | discriminate]. Qed.

Lemma app_nonempty_r {A : Type} (l l' : list A) : l' <> [] -> (l ++ l')%list <> [].
Proof. destruct l; [trivial | discriminate]. Qed.

Lemma append_item_nonempty (l : list string) (x : string) : append_item l x <> [].
Proof. unfold append_item. destruct l; discriminate. Qed.

(** The reasons of a decision: the conditions of the winning side for BUY
    and SELL, the verdict of the comparison for HOLD. *)
Lemma resolve_reasons_nonempty (reasons : list string) (buy sell : scoring)
    (beta debt_to_equity rsi : option Q) :
  (0 < score buy -> conditions buy <> []) ->
  (0 < score sell -> conditions sell <> []) ->
  dec_reasons (resolve reasons buy sell beta debt_to_equity rsi) <> [].
Proof.
  intros Hb Hs. unfold resolve.
  repeat split_andb; cmp_facts; cbn [dec_reasons].
  - apply app_nonempty_r, Hb. lra.
  - apply app_nonempty_r, Hs. lra.
  - apply app_nonempty_r, firstn_nonempty, Hb. lra.
  - apply app_nonempty_r, firstn_nonempty, Hs. lra.
  - destruct (ltb (Qabs (score buy - score sell)) 0.1);
      destruct (conditions buy), (conditions sell); cbn [dec_reasons];
      apply append_item_nonempty.
Qed.

(** X11. Every answer is explained: the reasons of a result are never empty.
    A BUY or SELL needs a score of at least 0.45, and every point of a score
    was added together with a condition; a HOLD states the verdict of the
    comparison. *)
Theorem every_answer_is_explained (rules : rules_t) (td : technical_dict)
    (sd : sentiment_data_dict) (nd : option news_dict) (pd : option price_dict)
    (std : option stats_data_dict) (r : signal_result) :
  SignalEngine.generate_signal rules td sd nd pd std = Ok r ->
  res_reasons r <> [].
Proof.
  unfold SignalEngine.generate_signal. intro H.
  bind_inv H. bind_inv H. bind_inv H. bind_inv H. bind_inv H. bind_inv H. bind_inv H.
  match goal with p : (Z * list string)%type |- _ => destruct p as [n reasons'] end.
  bind_inv H. inversion H; subst; clear H. cbn [res_reasons].
  match goal with E : news_context _ _ = Ok _ |- _ =>
    apply news_context_extends in E; destruct E as [_ [rest2 ->]] end.
  match goal with |- context [price_context ?c ?p ?rs] =>
    destruct (price_context_extends c p rs) as [rest1 ->] end.
  match goal with
  | B : buy_side _ _ _ _ _ _ _ _ _ _ _ _ _ _ _ _ = Ok _,
    B' : sell_side _ _ _ _ _ _ _ _ _ _ _ _ _ _ = Ok _ |- _ =>
      pose proof (buy_side_explained _ _ _ _ _ _ _ _ _ _ _ _ _ _ _ _ _ B) as HB;
      pose proof (sell_side_explained _ _ _ _ _ _ _ _ _ _ _ _ _ _ _ B') as HS
  end.
  match goal with |- context [resolve ?rs ?b ?s ?be ?de ?ri] =>
    pose proof (resolve_reasons_nonempty rs b s be de ri HB HS) as N end.
  intro Z. apply app_eq_nil in Z. destruct Z as [Z _].
  apply app_eq_nil in Z. destruct Z as [Z _]. exact (N Z).
Qed.

Lemma every_answer_is_explained_witness :
  exists r,
    SignalEngine.generate_signal SIGNAL_RULES scenario_A_technical
      (sentiment_of 0.4 "positive") None (price_of 100 1.5) scenario_A_stats = Ok r
    /\ res_reasons r <> [].
Proof.
  assert (H : exists r,
             SignalEngine.generate_signal SIGNAL_RULES scenario_A_technical
               (sentiment_of 0.4 "positive") None (price_of 100 1.5) scenario_A_stats
             = Ok r)
    by (eexists; vm_compute; reflexivity).
  destruct H as [r H]. exists r. split; [exact H|].
  exact (every_answer_is_explained _ _ _ _ _ _ _ H).
Defined.

End Explanations.

(** ** Calls without a price, and bands that are [None] *)

Section Calls.

Lemma generate_signal_never_divides_by_zero_witness :
  exists e,
    SignalEngine.generate_signal SIGNAL_RULES uncalculated_technical no_sentiment None
      (price_of 100 1.5) None = Raise e
    /\ is_zero_division e = false.
Proof.
  assert (H : exists e,
             SignalEngine.generate_signal SIGNAL_RULES uncalculated_technical no_sentiment
               None (price_of 100 1.5) None = Raise e)
    by (eexists; vm_compute; reflexivity).
  destruct H as [e H]. exists e. split; [exact H|].
  exact (generate_signal_never_divides_by_zero _ _ _ _ _ _ _ H).
Defined.

(** The result the wrapper passes on is the engine's. *)
Lemma generate_signal_result (symbol : string) (td : technical_dict)
    (sd : sentiment_data_dict) (nd : option news_dict) (pd : option price_dict)
    (std : option stats_data_dict) (r : signal_result) :
  resp_result (generate_signal symbol td sd nd pd std) = Some r ->
  SignalEngine.generate_signal SIGNAL_RULES td sd nd pd std = Ok r.
Proof.
  unfold generate_signal. cbn [SignalEngine.init].
  destruct (SignalEngine.generate_signal SIGNAL_RULES td sd nd pd std);
    cbn [resp_result]; intro H; inversion H; reflexivity.
Qed.

(** The price and the fundamentals of a result's metrics, in terms of the
    snapshot. *)
Lemma generate_signal_reads (rules : rules_t) (td : technical_dict)
    (sd : sentiment_data_dict) (nd : option news_dict) (pd : option price_dict)
    (std : option stats_data_dict) (r : signal_result) :
  SignalEngine.generate_signal rules td sd nd pd std = Ok r ->
  m_price (res_metrics r)
  = match truthy_dict price_nonempty pd with
    | Some d => get (pd_price d)
    | None => None
    end
  /\ exists stats,
       SignalEngine.read_stats std = Ok stats
       /\ m_beta (res_metrics r) = SignalEngine.stat stats st_beta
       /\ m_debt_to_equity (res_metrics r) = SignalEngine.stat stats st_debtToEquity.
Proof.
  unfold SignalEngine.generate_signal. intro H.
  bind_inv H. bind_inv H. bind_inv H. bind_inv H. bind_inv H. bind_inv H. bind_inv H.
  match goal with p : (Z * list string)%type |- _ => destruct p as [n reasons'] end.
  bind_inv H. inversion H; subst; clear H. cbn.
  split; [reflexivity|]. eexists. repeat split.
Qed.

Lemma calculate_risk_without_fundamentals (rsi : option Q) :
  SignalEngine._calculate_risk None None rsi = Low.
Proof.
  unfold SignalEngine._calculate_risk. cbn [nonzero].
  destruct (nonzero rsi) as [x|]; [destruct (gtb x 75 || ltb x 25)|]; reflexivity.
Qed.

(** The scores a snapshot can reach when the engine is given no price and
    no statistics: the 52-week, valuation, volume and Bollinger blocks are
    skipped. *)
Lemma buy_side_without_price (rules : rules_t) (ss rsi ml sl h : option Q)
    (bb : option bollinger_dict) (stc : option stochastic_dict) (ma : option ma_dict)
    (adx : option adx_dict) (buy : scoring) :
  SignalEngine.buy_side rules ss rsi ml sl h None None None None None None bb stc ma adx
  = Ok buy ->
  score buy <= 0.90.
Proof.
  unfold SignalEngine.buy_side, SignalEngine.buy_momentum, SignalEngine.buy_volume,
    SignalEngine.buy_valuation, SignalEngine.buy_bollinger.
  cbn [nonzero bind]. intro H. bind_inv H.
  assert (B : forall (st : scoring),
             match truthy_dict bollinger_nonempty bb with
             | Some _ => Ok st
             | None => Ok st
             end = Ok st) by (intro st; destruct (truthy_dict _ bb); reflexivity).
  rewrite B in H. cbn [bind] in H. inversion H; subst; clear H.
  match goal with E : SignalEngine.buy_sentiment _ _ _ = Ok _ |- _ =>
    apply buy_sentiment_bounds in E end.
  repeat match goal with
  | |- context [SignalEngine.buy_adx ?d ?s] => note_bound (buy_adx_bounds s d)
  | |- context [SignalEngine.buy_moving_averages ?d ?s] =>
      note_bound (buy_moving_averages_bounds s d)
  | |- context [SignalEngine.buy_stochastic ?d ?s] => note_bound (buy_stochastic_bounds s d)
  | |- context [SignalEngine.buy_macd ?x ?y ?z ?s] => note_bound (buy_macd_bounds s x y z)
  | |- context [SignalEngine.buy_rsi ?d ?s] => note_bound (buy_rsi_bounds s d)
  end.
  cbn [extend_additional score scoring_init] in *.
  lra.
Qed.

Lemma sell_side_without_price (rules : rules_t) (ss rsi ml sl : option Q)
    (bb : option bollinger_dict) (stc : option stochastic_dict) (ma : option ma_dict)
    (adx : option adx_dict) (sell : scoring) :
  SignalEngine.sell_side rules ss rsi ml sl None None None None None bb stc ma adx
  = Ok sell ->
  score sell <= 0.85.
Proof.
  unfold SignalEngine.sell_side, SignalEngine.sell_overextension,
    SignalEngine.sell_bollinger.
  cbn [nonzero bind]. intro H. bind_inv H.
  assert (B : forall (st : scoring),
             match truthy_dict bollinger_nonempty bb with
             | Some _ => Ok st
             | None => Ok st
             end = Ok st) by (intro st; destruct (truthy_dict _ bb); reflexivity).
  rewrite B in H. cbn [bind] in H. inversion H; subst; clear H.
  match goal with E : SignalEngine.sell_sentiment _ _ _ = Ok _ |- _ =>
    apply sell_sentiment_bounds in E end.
  rewrite (risk_factors_skipped _).
  repeat match goal with
  | |- context [SignalEngine.sell_adx ?d ?s] => note_bound (sell_adx_bounds s d)
  | |- context [SignalEngine.sell_moving_averages ?d ?s] =>
      note_bound (sell_moving_averages_bounds s d)
  | |- context [SignalEngine.sell_stochastic ?d ?s] =>
      note_bound (sell_stochastic_bounds s d)
  | |- context [SignalEngine.sell_macd ?x ?y ?s] => note_bound (sell_macd_bounds s x y)
  | |- context [SignalEngine.sell_rsi ?d ?s] => note_bound (sell_rsi_bounds s d)
  end.
  cbn [extend_additional score scoring_init] in *.
  lra.
Qed.

Lemma call_without_price (symbol : string) (td : technical_dict)
    (sd : sentiment_data_dict) (nd : option news_dict) (r : signal_result) :
  resp_result (generate_signal symbol td sd nd None None) = Some r ->
  m_price (res_metrics r) = None
  /\ res_swing_trade r = None
  /\ (res_signal r = SELL -> res_risk_level r = High)
  /\ (res_signal r <> SELL -> res_risk_level r = Low)
  /\ res_buy_score r <= 0.90
  /\ res_sell_score r <= 0.85.
Proof.
  intro H. apply generate_signal_result in H.
  unfold SignalEngine.generate_signal in H.
  cbn [truthy_dict SignalEngine.read_stats SignalEngine.stat] in H.
  bind_inv H. bind_inv H. bind_inv H. cbn [bind] in H. bind_inv H. bind_inv H. bind_inv H.
  match goal with p : (Z * list string)%type |- _ => destruct p as [n reasons'] end.
  cbn [SignalEngine._calculate_swing_trade_levels nonzero bind] in H.
  inversion H; subst; clear H. cbn.
  split; [reflexivity|]. split; [reflexivity|].
  split; [apply resolve_sell_is_high|].
  split.
  - intro N. rewrite (resolve_risk _ _ _ _ _ _ N).
    apply calculate_risk_without_fundamentals.
  - split; [eapply buy_side_without_price | eapply sell_side_without_price]; eassumption.
Qed.



Lemma attr_get_ok {D : Type} (d : option D) (x : D) : attr_get d = Ok x -> d = Some x.
Proof. destruct d; intro H; inversion H; reflexivity. Qed.

(** The planner reads the Bollinger bands and the moving averages of every
    BUY and HOLD plan: a [None] in their place ends the call. *)
Lemma planner_reads_bands (signal : signal_t) (price : Q) (td : technical_dict)
    (std : option stats_data_dict) (confidence : Q) (res : option recommendation_t) :
  ~ price == 0 ->
  td_bollinger td = IsNone \/ td_moving_averages td = IsNone ->
  SignalEngine._calculate_swing_trade_levels signal (Some price) td std confidence = Ok res ->
  signal = SELL.
Proof.
  intros Hnz Hd. unfold SignalEngine._calculate_swing_trade_levels.
  assert (N : nonzero (Some price) = Some price).
  { unfold nonzero. destruct (is_true price) eqn:T; [reflexivity|].
    cmp_facts. contradiction. }
  rewrite N. intro H. bind_inv H. bind_inv H.
  match goal with p : (option Q * option Q)%type |- _ => destruct p as [high low] end.
  assert (B : forall bb ma,
             get_default (td_bollinger td) empty_bollinger = Some bb ->
             get_default (td_moving_averages td) empty_ma = Some ma -> False).
  { intros bb ma. destruct Hd as [-> | ->]; cbn [get_default]; discriminate. }
  destruct signal; try reflexivity; exfalso; bind_inv H.
  - match goal with P : SignalEngine.plan_buy _ _ _ _ _ _ _ _ = Ok _ |- _ =>
      unfold SignalEngine.plan_buy in P; bind_inv P; bind_inv P end.
    eapply B; apply attr_get_ok; eassumption.
  - match goal with P : SignalEngine.plan_hold _ _ _ _ _ _ _ _ _ = Ok _ |- _ =>
      unfold SignalEngine.plan_hold in P; bind_inv P; bind_inv P end.
    eapply B; apply attr_get_ok; eassumption.
  - match goal with P : SignalEngine.plan_hold _ _ _ _ _ _ _ _ _ = Ok _ |- _ =>
      unfold SignalEngine.plan_hold in P; bind_inv P; bind_inv P end.
    eapply B; apply attr_get_ok; eassumption.
Qed.

Lemma none_bands_response (symbol : string) (td : technical_dict)
    (sd : sentiment_data_dict) (nd : option news_dict) (d : price_dict)
    (std : option stats_data_dict) (price : Q) :
  pd_price d = Bound price ->
  ~ price == 0 ->
  td_bollinger td = IsNone \/ td_moving_averages td = IsNone ->
  let response := generate_signal symbol td sd nd (Some d) std in
  resp_signal response = SELL
  \/ (resp_success response = false /\ resp_signal response = ERROR).
Proof.
  intros Hp Hnz Hd. cbv zeta. unfold generate_signal. cbn [SignalEngine.init].
  destruct (SignalEngine.generate_signal SIGNAL_RULES td sd nd (Some d) std) as [r|e] eqn:G;
    cbn [resp_signal resp_success]; [left | right; split; reflexivity].
  destruct (generate_signal_reads _ _ _ _ _ _ _ G) as [Hm _].
  destruct (generate_signal_inv _ _ _ _ _ _ _ G)
    as (buy & sell & rest & _ & _ & _ & _ & _ & _ & _ & P & _).
  assert (M : m_price (res_metrics r) = Some price).
  { rewrite Hm. unfold truthy_dict, price_nonempty. rewrite Hp. cbn. rewrite Hp. reflexivity. }
  rewrite M in P.
  exact (planner_reads_bands _ _ _ _ _ _ Hnz Hd P).
Qed.

(** X13. A snapshot whose Bollinger bands or moving averages are [None]
    (what the indicator calculator returns when it could not compute them)
    is answered only with SELL once a price is present: every BUY and HOLD
    ends in the planner's [.get] on [None], which the module-level
    [generate_signal] reports as ERROR. *)
Theorem none_bands_with_price (symbol : string) (td : technical_dict)
    (sd : sentiment_data_dict) (nd : option news_dict) (d : price_dict)
    (std : option stats_data_dict) (price : Q) :
  pd_price d = Bound price ->
  ~ price == 0 ->
  td_bollinger td = IsNone \/ td_moving_averages td = IsNone ->
  let response := generate_signal symbol td sd nd (Some d) std in
  resp_signal response = SELL
  \/ (resp_success response = false /\ resp_signal response = ERROR).
Proof. exact (none_bands_response symbol td sd nd d std price). Qed.

Lemma none_bands_with_price_witness :
  resp_success (generate_signal "AAPL" uncalculated_technical no_sentiment None
                  (price_of 100 1.5) None) = false
  /\ resp_signal (generate_signal "AAPL" uncalculated_technical no_sentiment None
                    (price_of 100 1.5) None) = ERROR.
Proof.
  destruct (none_bands_with_price "AAPL" uncalculated_technical no_sentiment None
              {| pd_price := Bound 100; pd_change_percent := Bound 1.5;
                 pd_volume := Missing |} None 100 eq_refl)
    as [S | E].
  - intro Z. discriminate Z.
  - left. reflexivity.
  - vm_compute in S. discriminate S.
  - exact E.
Defined.

End Calls.

(** ** The target of a BUY plan *)

Section BuyTarget.

Import SignalEngine.

Lemma max_list_ge_in (l : list Q) (a x : Q) : In x l -> x <= max_list a l.
Proof.
  unfold max_list. revert a.
  induction l as [|y l IH]; intros a I; [destruct I|].
  cbn [fold_left]. destruct I as [E | I].
  - subst. pose proof (max_list_ge_head l (max2 a x)) as G. unfold max_list in G.
    pose proof (max2_ge_r a x). lra.
  - apply IH. exact I.
Qed.

Lemma buy_target_ge (price confidence x : Q) (bb_upper sma_50 high : option Q) :
  In x (buy_targets price bb_upper sma_50 high) ->
  x <= buy_target price confidence bb_upper sma_50 high.
Proof.
  unfold buy_target. destruct (buy_targets price bb_upper sma_50 high) as [|t ts];
    [intros []|].
  intros [E | I].
  - subst. apply max_list_ge_head.
  - apply max_list_ge_in. exact I.
Qed.

Lemma nonzero_intro (x : Q) : ~ x == 0 -> nonzero (Some x) = Some x.
Proof.
  intro H. unfold nonzero. destruct (is_true x) eqn:T; [reflexivity|].
  cmp_facts. contradiction.
Qed.

(** X14. The target of a BUY plan is the highest of the resistance levels
    the planner knows: it is never below the upper Bollinger band, never
    below a 50-day average that lies above the price, and never below the
    midpoint between the price and the 52-week high. *)
Theorem buy_target_covers_resistance (price : Q) (td : technical_dict)
    (std : option stats_data_dict) (confidence : Q) (plan : recommendation_t) :
  _calculate_swing_trade_levels BUY (Some price) td std confidence = Ok (Some plan) ->
  exists bb ma high low target,
    get_default (td_bollinger td) empty_bollinger = Some bb
    /\ get_default (td_moving_averages td) empty_ma = Some ma
    /\ fifty_two_week_levels std = Ok (high, low)
    /\ rec_target_price plan = Some target
    /\ (forall upper, get (bollinger_upper bb) = Some upper -> ~ upper == 0 ->
        upper <= target)
    /\ (forall sma_50, get (ma_sma_50 ma) = Some sma_50 -> price < sma_50 ->
        ~ sma_50 == 0 -> sma_50 <= target)
    /\ (forall h, high = Some h -> ~ h == 0 -> price + (h - price) * 0.5 <= target).
Proof.
  intro H.
  destruct (buy_plan_levels _ _ _ _ _ H)
    as (bb & ma & high & low & ratio & _ & Hb & Ha & Hl & _ & Ht & _).
  exists bb, ma, high, low. eexists.
  split; [exact Hb|]. split; [exact Ha|]. split; [exact Hl|]. split; [exact Ht|].
  split; [|split].
  - intros upper E Hnz. apply buy_target_ge. unfold buy_targets.
    rewrite E, (nonzero_intro _ Hnz). left. reflexivity.
  - intros s E Hlt Hnz. apply buy_target_ge. unfold buy_targets.
    rewrite E, (nonzero_intro _ Hnz).
    assert (G : gtb s price = true) by (apply gtb_true; exact Hlt).
    rewrite G. apply in_or_app. right. left. reflexivity.
  - intros h E Hnz. subst high. apply buy_target_ge. unfold buy_targets.
    rewrite (nonzero_intro _ Hnz). apply in_or_app. right. apply in_or_app. right.
    left. reflexivity.
Qed.

Lemma buy_target_covers_resistance_witness :
  exists plan target,
    _calculate_swing_trade_levels BUY (Some 100) above_band_technical scenario_A_stats 0.95
    = Ok (Some plan)
    /\ rec_target_price plan = Some target
    /\ 100 + (150 - 100) * 0.5 <= target.
Proof.
  assert (H : exists plan,
             _calculate_swing_trade_levels BUY (Some 100) above_band_technical
               scenario_A_stats 0.95 = Ok (Some plan))
    by (eexists; vm_compute; reflexivity).
  destruct H as [plan H].
  destruct (buy_target_covers_resistance _ _ _ _ _ H)
    as (bb & ma & high & low & target & _ & _ & L & T & _ & _ & G).
  exists plan, target. split; [exact H|]. split; [exact T|].
  vm_compute in L. inversion L; subst. apply (G 150 eq_refl). intro Z. discriminate Z.
Defined.

End BuyTarget.

(** ** The sentiment analyzer *)

Section Sentiment.

Import SentimentAnalyzer.

Lemma count_words_nonneg (words : list string) (text : string) :
  (0 <= count_words words text)%Z.
Proof. unfold count_words. lia. Qed.

Lemma half_le_ratio (p n : Z) :
  (0 <= n)%Z -> (n < p)%Z ->
  0.5 <= inject_Z p / inject_Z (p + n + 1) /\ ~ inject_Z (p + n + 1) == 0.
Proof.
  intros Hn Hp.
  assert (D : 0 < inject_Z (p + n + 1)).
  { unfold Qlt, inject_Z. cbn. lia. }
  split.
  - apply Qle_shift_div_l; [exact D|].
    unfold Qle, Qmult, inject_Z. cbn [Qnum Qden]. lia.
  - intro E. rewrite E in D. apply (Qlt_irrefl 0). exact D.
Qed.

Lemma min2_cap (x c : Q) : min2 x c <= c /\ (forall l, l <= x -> l <= c -> l <= min2 x c).
Proof.
  unfold min2. destruct (ltb c x) eqn:L; cmp_facts; split; intros; lra.
Qed.

Lemma fallback_sentiment_spec (text : string) :
  exists r,
    _fallback_sentiment text = Ok r
    /\ labelled r
    /\ (ts_label r = "neutral" -> ts_score r == 0.5)
    /\ (ts_label r <> "neutral" -> 0.5 <= ts_score r <= 0.8).
Proof.
  unfold _fallback_sentiment, labelled.
  pose proof (count_words_nonneg positive_words (lower text)) as Hp.
  pose proof (count_words_nonneg negative_words (lower text)) as Hn.
  set (p := count_words positive_words (lower text)) in *.
  set (n := count_words negative_words (lower text)) in *.
  destruct (p >? n)%Z eqn:G; [|destruct (n >? p)%Z eqn:G'].
  - apply Z.gtb_lt in G.
    destruct (half_le_ratio p n Hn G) as [Hr Hd].
    rewrite (div_total _ _ Hd). cbn [bind]. eexists. split; [reflexivity|].
    cbn [ts_label ts_score ts_normalized_score].
    destruct (min2_cap (inject_Z p / inject_Z (p + n + 1)) 0.8) as [C1 C2].
    split; [left; split; [reflexivity | apply Qeq_refl]|].
    split; [discriminate|]. intros _. split; [apply C2; lra | exact C1].
  - apply Z.gtb_lt in G'.
    destruct (half_le_ratio n p Hp G') as [Hr Hd].
    replace (p + n + 1)%Z with (n + p + 1)%Z by lia.
    rewrite (div_total _ _ Hd). cbn [bind]. eexists. split; [reflexivity|].
    cbn [ts_label ts_score ts_normalized_score].
    destruct (min2_cap (inject_Z n / inject_Z (n + p + 1)) 0.8) as [C1 C2].
    split; [right; left; split; [reflexivity | apply Qeq_refl]|].
    split; [discriminate|]. intros _. split; [apply C2; lra | exact C1].
  - eexists. split; [reflexivity|]. cbn [ts_label ts_score ts_normalized_score].
    split; [right; right; split; [reflexivity | lra]|].
    split; [intros _; lra | intro N; elim N; reflexivity].
Qed.


Lemma fallback_sentiment_score (text : string) :
  exists r, _fallback_sentiment text = Ok r /\ labelled r /\ 0 <= ts_score r <= 1.
Proof.
  destruct (fallback_sentiment_spec text) as (r & E & L & N & P).
  exists r. split; [exact E|]. split; [exact L|].
  destruct (string_dec (ts_label r) "neutral") as [D | D].
  - specialize (N D). lra.
  - specialize (P D). lra.
Qed.

(** [analyze_text] always returns; what it returns is labelled, and its
    score is a probability when those of the model are. *)
Lemma analyze_text_spec (self : analyzer) (text : string) :
  exists r,
    analyze_text self text = Ok r
    /\ labelled r
    /\ (probabilities (pipeline self) -> 0 <= ts_score r <= 1).
Proof.
  unfold analyze_text.
  destruct (blank text).
  { eexists. split; [reflexivity|].
    split; [right; right; split; [reflexivity | cbn; lra] | intros _; cbn; lra]. }
  destruct (initialized self).
  - destruct (pipeline self) as [run|] eqn:P.
    + destruct (run (take 512 text)) as [[raw_label score]|e] eqn:R.
      * assert (S : probabilities (Some run) -> 0 <= score <= 1)
          by (intro H; exact (H run _ _ _ eq_refl R)).
        destruct (contains "negative" (lower raw_label)
                  || (lower raw_label =? "label_0")%string).
        { eexists. split; [reflexivity|].
          split; [right; left; split; [reflexivity | cbn; lra] | exact S]. }
        destruct (contains "positive" (lower raw_label)
                  || (lower raw_label =? "label_2")%string).
        { eexists. split; [reflexivity|].
          split; [left; split; [reflexivity | cbn; lra] | exact S]. }
        eexists. split; [reflexivity|].
        split; [right; right; split; [reflexivity | cbn; lra] | exact S].
      * destruct (fallback_sentiment_score (take 512 text)) as (r & -> & L & B). eauto.
    + destruct (fallback_sentiment_score text) as (r & -> & L & B). eauto.
  - destruct (fallback_sentiment_score text) as (r & -> & L & B). eauto.
Qed.

Lemma labelled_normalized (r : text_sentiment) :
  labelled r -> 0 <= ts_score r <= 1 -> -1 <= ts_normalized_score r <= 1.
Proof. intros [[_ E] | [[_ E] | [_ E]]] B; rewrite E; lra. Qed.


Lemma sample_model_probabilities : probabilities (Some sample_model).
Proof.
  intros run text label score E R. inversion E; subst run; clear E.
  unfold sample_model in R. destruct (contains "profit" (lower text)); [|discriminate R].
  inversion R; subst. lra.
Qed.


Lemma analyze_batch_spec (self : analyzer) (texts : list string) :
  exists results,
    analyze_batch self texts = Ok results
    /\ List.length results = List.length texts
    /\ Forall labelled results
    /\ (probabilities (pipeline self) ->
        Forall (fun r => -1 <= ts_normalized_score r <= 1) results).
Proof.
  induction texts as [|text rest IH].
  - exists []. cbn. repeat split; constructor.
  - destruct IH as (rs & E & Hl & Hf & Hb).
    destruct (analyze_text_spec self text) as (r & Er & Lr & Br).
    exists (r :: rs). cbn [analyze_batch]. rewrite Er. cbn [bind]. rewrite E. cbn [bind].
    split; [reflexivity|]. split; [cbn; rewrite Hl; reflexivity|].
    split; [constructor; assumption|].
    intro P. constructor; [|exact (Hb P)].
    apply labelled_normalized; [exact Lr | exact (Br P)].
Qed.

Lemma count_partition (results : list text_sentiment) :
  Forall labelled results ->
  (count_label "positive" results + count_label "negative" results
   + count_label "neutral" results)%Z
  = Z.of_nat (List.length results).
Proof.
  unfold count_label.
  induction 1 as [|r rs L _ IH]; [reflexivity|].
  cbn [filter List.length].
  destruct L as [[E _] | [[E _] | [E _]]]; rewrite E; cbn [String.eqb Ascii.eqb Bool.eqb];
    cbn [List.length]; lia.
Qed.

Lemma sum_scores_bound (l : list Q) (acc : Q) :
  Forall (fun x => -1 <= x <= 1) l ->
  acc - inject_Z (Z.of_nat (List.length l)) <= fold_left Qplus l acc
  <= acc + inject_Z (Z.of_nat (List.length l)).
Proof.
  intro F. revert acc. induction F as [|x l B _ IH]; intro acc.
  - cbn [fold_left List.length Z.of_nat]. change (inject_Z 0) with 0. lra.
  - cbn [fold_left List.length]. specialize (IH (acc + x)).
    rewrite Nat2Z.inj_succ. unfold Z.succ. rewrite inject_Z_plus.
    change (inject_Z 1) with 1. lra.
Qed.

Lemma inject_length_pos {A : Type} (l : list A) :
  l <> [] -> 0 < inject_Z (Z.of_nat (List.length l)).
Proof.
  destruct l; [intro N; elim N; reflexivity|]. intros _.
  unfold Qlt, inject_Z. cbn. lia.
Qed.

(** What [get_aggregate_sentiment] returns for a list that is not empty. *)
Lemma get_aggregate_sentiment_spec (self : analyzer) (texts : list string) :
  texts <> [] ->
  exists results overall,
    analyze_batch self texts = Ok results
    /\ List.length results = List.length texts
    /\ Forall labelled results
    /\ overall = sum_scores results / inject_Z (Z.of_nat (List.length results))
    /\ (probabilities (pipeline self) -> -1 <= overall <= 1)
    /\ get_aggregate_sentiment self texts
       = Ok {| agg_overall_score := overall;
               agg_positive_count := count_label "positive" results;
               agg_negative_count := count_label "negative" results;
               agg_neutral_count := count_label "neutral" results;
               agg_label := if gtb overall 0.1 then "positive"
                            else if ltb overall (-0.1) then "negative"
                            else "neutral";
               agg_total_articles := Bound (Z.of_nat (List.length texts)) |}.
Proof.
  intro N.
  destruct (analyze_batch_spec self texts) as (rs & E & Hl & Hf & Hb).
  assert (Nr : rs <> []).
  { intro Z. subst rs. destruct texts; [elim N; reflexivity | discriminate Hl]. }
  pose proof (inject_length_pos rs Nr) as D.
  exists rs. eexists. split; [exact E|]. split; [exact Hl|]. split; [exact Hf|].
  split; [reflexivity|]. split.
  - intro P. specialize (Hb P). unfold sum_scores.
    assert (F : Forall (fun x => -1 <= x <= 1) (map ts_normalized_score rs)).
    { apply Forall_map. exact Hb. }
    pose proof (sum_scores_bound _ 0 F) as B. rewrite length_map in B.
    split.
    + apply Qle_shift_div_l; [exact D | lra].
    + apply Qle_shift_div_r; [exact D | lra].
  - unfold get_aggregate_sentiment. destruct texts as [|t ts]; [elim N; reflexivity|].
    rewrite E. cbn [bind]. rewrite div_total by lra. reflexivity.
Qed.

(** X18. [get_aggregate_sentiment] never fails, and its three counts
    partition the texts: positive, negative and neutral counts add up to the
    number of texts, which is also the ['total_articles'] of a list that is
    not empty. *)
Theorem aggregate_counts_partition (self : analyzer) (texts : list string) :
  exists a,
    get_aggregate_sentiment self texts = Ok a
    /\ (agg_positive_count a + agg_negative_count a + agg_neutral_count a)%Z
       = Z.of_nat (List.length texts)
    /\ (texts <> [] -> agg_total_articles a = Bound (Z.of_nat (List.length texts)))
    /\ (texts = [] -> agg_total_articles a = Missing).
Proof.
  destruct texts as [|t ts].
  - eexists. split; [reflexivity|]. cbn. repeat split. intro N. elim N. reflexivity.
  - destruct (get_aggregate_sentiment_spec self (t :: ts))
      as (rs & overall & _ & Hl & Hf & _ & _ & E); [discriminate|].
    eexists. split; [exact E|]. cbn [agg_positive_count agg_negative_count
                                       agg_neutral_count agg_total_articles].
    split; [rewrite <- Hl; apply count_partition; exact Hf|].
    split; [reflexivity | discriminate].
Qed.

(** X19. When the scores of the model are probabilities, the overall score
    of [get_aggregate_sentiment] lies between -1 and 1; the overall label is
    positive only above 0.1, negative only below -0.1, and neutral only from
    -0.1 to 0.1. *)
Theorem aggregate_score_bounded (self : analyzer) (texts : list string) :
  probabilities (pipeline self) ->
  exists a,
    get_aggregate_sentiment self texts = Ok a
    /\ -1 <= agg_overall_score a <= 1
    /\ (agg_label a = "positive" -> 0.1 < agg_overall_score a)
    /\ (agg_label a = "negative" -> agg_overall_score a < -0.1)
    /\ (agg_label a = "neutral" -> -0.1 <= agg_overall_score a <= 0.1).
Proof.
  intro P. destruct texts as [|t ts].
  - eexists. split; [reflexivity|]. cbn.
    split; [lra|]. split; [discriminate|]. split; [discriminate|]. intros _. lra.
  - destruct (get_aggregate_sentiment_spec self (t :: ts))
      as (rs & overall & _ & _ & _ & _ & B & E); [discriminate|].
    eexists. split; [exact E|]. cbn [agg_overall_score agg_label].
    split; [exact (B P)|].
    destruct (gtb overall 0.1) eqn:G; [|destruct (ltb overall (-0.1)) eqn:L];
      cmp_facts; (split; [|split]); intro H; try discriminate H; lra.
Qed.

Lemma aggregate_score_bounded_witness :
  exists a,
    get_aggregate_sentiment (init (Some sample_model))
      ["Record profit"; "Shares crash on weak outlook"] = Ok a
    /\ -1 <= agg_overall_score a <= 1.
Proof.
  destruct (aggregate_score_bounded (init (Some sample_model))
              ["Record profit"; "Shares crash on weak outlook"]
              sample_model_probabilities) as (a & E & B & _).
  exists a. split; assumption.
Defined.

End Sentiment.

(** ** From the analyzer to the engine *)

Section SentimentToEngine.

Import SentimentAnalyzer.

Lemma get_aggregate_sentiment_total (self : analyzer) (texts : list string) :
  exists a, get_aggregate_sentiment self texts = Ok a.
Proof.
  destruct texts as [|t ts]; [eexists; reflexivity|].
  destruct (get_aggregate_sentiment_spec self (t :: ts))
    as (rs & overall & _ & _ & _ & _ & _ & E); [discriminate|].
  eexists. exact E.
Qed.

Lemma get_sentiment_score_spec (loaded : option pipeline_t) (news_headlines : headlines_t) :
  match news_headlines with
  | OtherType =>
      get_sentiment_score loaded news_headlines
      = {| sr_success := false; sr_sentiment := None;
           sr_error := Some "Invalid input type for news_headlines" |}
  | _ =>
      exists a,
        get_sentiment_score loaded news_headlines
        = {| sr_success := true; sr_sentiment := Some a; sr_error := None |}
  end.
Proof.
  unfold get_sentiment_score. destruct news_headlines as [s | l |]; [| |reflexivity].
  - destruct (get_aggregate_sentiment_total (init loaded) (chunks 500 s)) as [a ->].
    cbn [bind]. eexists. reflexivity.
  - destruct (get_aggregate_sentiment_total (init loaded) l) as [a ->].
    cbn [bind]. eexists. reflexivity.
Qed.

(** X20. [get_sentiment_score] succeeds on every string and on every list
    of strings, with or without a model: its handler is never reached.  An
    argument of another type is refused with the input type message.  In
    all three cases the engine can read a sentiment score from the result. *)
Theorem get_sentiment_score_succeeds (loaded : option pipeline_t)
    (news_headlines : headlines_t) :
  let r := get_sentiment_score loaded news_headlines in
  (news_headlines <> OtherType ->
   sr_success r = true /\ sr_error r = None /\ sr_sentiment r <> None)
  /\ (news_headlines = OtherType ->
      sr_success r = false /\ sr_sentiment r = None
      /\ sr_error r = Some "Invalid input type for news_headlines")
  /\ exists score,
       SignalEngine.read_sentiment (sentiment_data_of r) sent_overall_score 0.0
       = Ok (Some score).
Proof.
  cbv zeta. pose proof (get_sentiment_score_spec loaded news_headlines) as S.
  destruct news_headlines as [s | l |].
  - destruct S as [a ->]. cbn. split; [intros _; repeat split; discriminate|].
    split; [discriminate|]. eexists. reflexivity.
  - destruct S as [a ->]. cbn. split; [intros _; repeat split; discriminate|].
    split; [discriminate|]. eexists. reflexivity.
  - rewrite S. cbn. split; [intro N; elim N; reflexivity|].
    split; [intros _; repeat split|]. eexists. reflexivity.
Qed.

(** X21. The labels of the analyzer and the tiers of the engine agree:
    under the default rules an overall label positive makes the engine add
    to the buy score and nothing to the sell score, negative the reverse,
    and neutral leaves both scores alone, except at the two boundaries (an
    overall score of exactly 0.1 or -0.1 is neutral for the analyzer, yet
    scored by the engine). *)
Theorem labels_agree_with_engine (self : analyzer) (texts : list string) (a : aggregate)
    (st : scoring) :
  get_aggregate_sentiment self texts = Ok a ->
  let score := Some (agg_overall_score a) in
  (agg_label a = "positive" ->
   SignalEngine.sell_sentiment SIGNAL_RULES score st = Ok st
   /\ exists w msg,
        0.10 <= w /\ SignalEngine.buy_sentiment SIGNAL_RULES score st = Ok (fire st w msg))
  /\ (agg_label a = "negative" ->
      SignalEngine.buy_sentiment SIGNAL_RULES score st = Ok st
      /\ exists w msg,
           0.10 <= w
           /\ SignalEngine.sell_sentiment SIGNAL_RULES score st = Ok (fire st w msg))
  /\ (agg_label a = "neutral" ->
      (SignalEngine.buy_sentiment SIGNAL_RULES score st = Ok st
       \/ agg_overall_score a == 0.1)
      /\ (SignalEngine.sell_sentiment SIGNAL_RULES score st = Ok st
          \/ agg_overall_score a == -0.1)).
Proof.
  intro H. cbv zeta.
  assert (L : (agg_label a = "positive" -> 0.1 < agg_overall_score a)
              /\ (agg_label a = "negative" -> agg_overall_score a < -0.1)
              /\ (agg_label a = "neutral" -> -0.1 <= agg_overall_score a <= 0.1)).
  { destruct texts as [|t ts].
    - inversion H; subst. cbn.
      split; [discriminate|]. split; [discriminate|]. intros _. lra.
    - destruct (get_aggregate_sentiment_spec self (t :: ts))
        as (rs & overall & _ & _ & _ & _ & _ & E); [discriminate|].
      rewrite E in H. inversion H; subst. cbn [agg_overall_score agg_label].
      destruct (gtb overall 0.1) eqn:G; [|destruct (ltb overall (-0.1)) eqn:L];
        cmp_facts; (split; [|split]); intro X; try discriminate X; lra. }
  destruct L as (Lp & Ln & Lu).
  unfold SignalEngine.buy_sentiment, SignalEngine.sell_sentiment.
  cbn [SIGNAL_RULES rules_BUY_sentiment_threshold rules_SELL_sentiment_threshold].
  unfold SignalEngine.buy_weights_sentiment, SignalEngine.sell_weights_sentiment.
  split; [|split].
  - intro E. specialize (Lp E). split.
    + repeat split_cmp; cmp_facts; try reflexivity; lra.
    + repeat split_cmp; cmp_facts; try lra; do 2 eexists; (split; [|reflexivity]); lra.
  - intro E. specialize (Ln E). split.
    + repeat split_cmp; cmp_facts; try reflexivity; lra.
    + repeat split_cmp; cmp_facts; try lra; do 2 eexists; (split; [|reflexivity]); lra.
  - intro E. specialize (Lu E). split.
    + repeat split_cmp; cmp_facts; try (left; reflexivity); right; lra.
    + repeat split_cmp; cmp_facts; try (left; reflexivity); right; lra.
Qed.

Lemma labels_agree_with_engine_witness :
  exists a,
    get_aggregate_sentiment (init None) ["Shares SURGE after record profit"] = Ok a
    /\ agg_label a = "positive"
    /\ SignalEngine.sell_sentiment SIGNAL_RULES (Some (agg_overall_score a)) scoring_init
       = Ok scoring_init.
Proof.
  assert (H : exists a,
             get_aggregate_sentiment (init None) ["Shares SURGE after record profit"]
             = Ok a /\ agg_label a = "positive")
    by (eexists; vm_compute; split; reflexivity).
  destruct H as (a & H & L). exists a. split; [exact H|]. split; [exact L|].
  exact (proj1 (proj1 (labels_agree_with_engine _ _ _ scoring_init H) L)).
Defined.

End SentimentToEngine.

(** ** The news *)

Section News.

Import NewsApi.

Lemma extract_all_spec (l : list raw_article) :
  (Forall (fun a => raw_source a <> IsNone) l ->
   exists articles,
     extract_all l = Ok articles /\ List.length articles = List.length l)
  /\ (~ Forall (fun a => raw_source a <> IsNone) l ->
      extract_all l = Raise (AttributeError "'NoneType' object has no attribute 'get'")).
Proof.
  induction l as [|a rest [IHok IHbad]].
  - split; [intros _; exists []; split; reflexivity|].
    intro N. elim N. constructor.
  - cbn [extract_all]. unfold extract.
    destruct (raw_source a) as [| |src] eqn:S; cbn [get_default attr_get bind].
    + split.
      * intro F. inversion F; subst.
        destruct (IHok ltac:(assumption)) as (xs & -> & L). cbn [bind].
        eexists. split; [reflexivity|]. cbn. rewrite L. reflexivity.
      * intro N. rewrite IHbad; [reflexivity|].
        intro F. apply N. constructor; [rewrite S; discriminate | exact F].
    + split; [|reflexivity].
      intro F. inversion F; subst. congruence.
    + split.
      * intro F. inversion F; subst.
        destruct (IHok ltac:(assumption)) as (xs & -> & L). cbn [bind].
        eexists. split; [reflexivity|]. cbn. rewrite L. reflexivity.
      * intro N. rewrite IHbad; [reflexivity|].
        intro F. apply N. constructor; [rewrite S; discriminate | exact F].
Qed.

Lemma sources_dec (l : list raw_article) :
  {Forall (fun a => raw_source a <> IsNone) l}
  + {~ Forall (fun a => raw_source a <> IsNone) l}.
Proof.
  apply Forall_dec. intro a.
  destruct (raw_source a); [left; discriminate | right; intro N; apply N; reflexivity
                           | left; discriminate].
Qed.

Lemma get_news_counted (r : response) :
  (nr_success (get_news r) = true ->
   nr_count (get_news r) = Bound (Z.of_nat (List.length (nr_articles (get_news r)))))
  /\ (nr_success (get_news r) = false ->
      nr_count (get_news r) = Missing /\ nr_articles (get_news r) = []).
Proof.
  destruct r as [| | | e | e | [|] message articles]; cbn;
    try (split; [discriminate | intros _; split; reflexivity]).
  destruct (match get_default articles [] with
            | Some l => extract_all l
            | None => Raise (TypeError "'NoneType' object is not iterable")
            end); cbn;
    [split; [reflexivity | discriminate]
    | split; [discriminate | intros _; split; reflexivity]].
Qed.

(** X22. [get_news] keeps all the articles of an answer or none: it
    succeeds exactly when the answer has status ok, its articles are not
    [None] and no article has a source that is [None]; it then returns one
    article for each article of the answer, and their number as the count.
    A failure has no articles and no count. *)
Theorem get_news_all_or_nothing (status_ok : bool) (message : entry string)
    (articles : entry (list raw_article)) :
  let r := get_news (Json status_ok message articles) in
  (nr_success r = true <->
   status_ok = true
   /\ exists l, get_default articles [] = Some l
                /\ Forall (fun a => raw_source a <> IsNone) l)
  /\ (nr_success r = true ->
      forall l, get_default articles [] = Some l ->
      List.length (nr_articles r) = List.length l
      /\ nr_count r = Bound (Z.of_nat (List.length l)))
  /\ (nr_success r = false -> nr_articles r = [] /\ nr_count r = Missing).
Proof.
  cbv zeta. destruct status_ok.
  2:{ cbn. split; [split; [discriminate | intros [X _]; discriminate X]|].
      split; [discriminate | intros _; split; reflexivity]. }
  cbn [get_news]. destruct (get_default articles []) as [l|] eqn:G.
  - destruct (extract_all_spec l) as [Hok Hbad].
    destruct (extract_all l) as [xs|e] eqn:X.
    + cbn. assert (F : Forall (fun a => raw_source a <> IsNone) l).
      { destruct (sources_dec l) as [F | N]; [exact F|].
        specialize (Hbad N). discriminate Hbad. }
      destruct (Hok F) as (xs' & E & L). inversion E; subst xs'.
      split; [split; [intros _; split; [reflexivity | exists l; split; [reflexivity | exact F]]
                     | reflexivity]|].
      split; [|discriminate].
      intros _ l' E'. inversion E'; subst l'. rewrite L. split; reflexivity.
    + cbn. split.
      * split; [discriminate|]. intros (_ & l' & E' & F). inversion E'; subst l'.
        destruct (Hok F) as (xs & E & _). discriminate E.
      * split; [discriminate | intros _; split; reflexivity].
  - cbn. split.
    + split; [discriminate|]. intros (_ & l & E & _). discriminate E.
    + split; [discriminate | intros _; split; reflexivity].
Qed.

End News.

(** ** The technical indicators *)

Section Indicators.

Import MarketData.

(** X23. [get_technical_indicators] reports no errors exactly when the
    quote, the RSI and the MACD of FMP all succeeded; otherwise ['errors']
    is a list with at least one message, never an empty list.  Alpha
    Vantage is consulted for a value only when FMP did not succeed, even
    when the value of a successful FMP answer is [None]. *)
Theorem technical_errors_report_failures (quote_result : quote_result)
    (rsi_result rsi_result_av : rsi_result) (macd_result macd_result_av : macd_result) :
  let r := get_technical_indicators quote_result rsi_result rsi_result_av
             macd_result macd_result_av in
  (tr_errors r = None <->
   qr_success quote_result = true /\ rr_success rsi_result = true
   /\ mr_success macd_result = true)
  /\ tr_errors r <> Some []
  /\ tr_rsi r = (if rr_success rsi_result then rr_rsi rsi_result
                 else rr_rsi rsi_result_av)
  /\ tr_macd r = (if mr_success macd_result then macd_data_of macd_result
                  else macd_data_of macd_result_av).
Proof.
  cbv zeta. unfold get_technical_indicators, append_item.
  destruct (qr_success quote_result), (rr_success rsi_result),
    (rr_success rsi_result_av), (mr_success macd_result), (mr_success macd_result_av);
    cbn [negb app tr_errors tr_rsi tr_macd];
    (split; [split; [intro H; try discriminate H; repeat split
                    | intros (A & B & C); try discriminate; reflexivity]|]);
    (split; [discriminate|]); split; reflexivity.
Qed.

Lemma technical_data_well_formed (r : technical_result) (sd : sentiment_data_dict)
    (nd : option news_dict) (std : option stats_data_dict) :
  well_formed (technical_data_of r) sd nd std
  = well_formed empty_technical sd nd std.
Proof. reflexivity. Qed.

End Indicators.

(** ** The calculated indicators *)

Section Enhanced.

Import MarketData EnhancedIndicators.

Lemma indicators_need_history_spec (hist_data : option dataframe)
    (api_result : technical_result) :
  usable_history hist_data = false ->
  let r := get_enhanced_technical_indicators hist_data api_result in
  er_bollinger r = None /\ er_stochastic r = None /\ er_adx r = None
  /\ er_moving_averages r = None /\ er_atr r = None /\ er_obv r = None
  /\ er_rsi r = nonzero (tr_rsi api_result)
  /\ er_macd r = (if macd_nonempty (tr_macd api_result) then tr_macd api_result
                  else empty_macd)
  /\ er_success r = tr_success api_result.
Proof.
  intro U. cbv zeta. unfold get_enhanced_technical_indicators.
  assert (F : match hist_data with
              | Some df => if negb (df_empty df) && (26 <=? df_len df)%Z then Some df else None
              | None => None
              end = None).
  { destruct hist_data as [df|]; [|reflexivity]. cbn [usable_history] in U.
    rewrite U. reflexivity. }
  rewrite F. cbn.
  destruct (nonzero (tr_rsi api_result)), (macd_nonempty (tr_macd api_result));
    cbn; repeat split; reflexivity.
Qed.

(** X24. Without a usable history ([None], empty, or shorter than 26 rows)
    [get_enhanced_technical_indicators] calculates nothing: Bollinger bands,
    stochastic, ADX, moving averages, ATR and OBV stay [None], the RSI and
    the MACD are those of the API (an RSI of 0 counts as none), and the
    result is a success exactly when the API result is. *)
Theorem indicators_need_history (hist_data : option dataframe)
    (api_result : technical_result) :
  usable_history hist_data = false ->
  let r := get_enhanced_technical_indicators hist_data api_result in
  er_bollinger r = None /\ er_stochastic r = None /\ er_adx r = None
  /\ er_moving_averages r = None /\ er_atr r = None /\ er_obv r = None
  /\ er_rsi r = nonzero (tr_rsi api_result)
  /\ er_macd r = (if macd_nonempty (tr_macd api_result) then tr_macd api_result
                  else empty_macd)
  /\ er_success r = tr_success api_result.
Proof. exact (indicators_need_history_spec hist_data api_result). Qed.

Lemma indicators_need_history_witness :
  er_bollinger (get_enhanced_technical_indicators None
                  (get_technical_indicators
                     {| qr_success := false; qr_data := None; qr_error := None |}
                     {| rr_success := true; rr_rsi := Some 25; rr_error := None |}
                     {| rr_success := false; rr_rsi := None; rr_error := None |}
                     {| mr_success := false; mr_macd := None; mr_signal := None;
                        mr_histogram := None; mr_error := None |}
                     {| mr_success := false; mr_macd := None; mr_signal := None;
                        mr_histogram := None; mr_error := None |})) = None.
Proof.
  apply (indicators_need_history None). reflexivity.
Defined.

Lemma calculated_values_spec (df : dataframe) (api_result : technical_result) :
  usable_history (Some df) = true ->
  let r := get_enhanced_technical_indicators (Some df) api_result in
  (forall v, calculate_macd_from_prices df = Some v -> er_macd r = macd_dict_of v)
  /\ (forall rsi, calculate_rsi_from_prices df = Some rsi -> ~ rsi == 0 ->
      er_rsi r = Some rsi)
  /\ (forall rsi, calculate_rsi_from_prices df = Some rsi -> rsi == 0 ->
      er_rsi r = nonzero (tr_rsi api_result))
  /\ er_bollinger r = calculate_bollinger_bands df
  /\ er_stochastic r = calculate_stochastic df
  /\ er_adx r = calculate_adx df
  /\ er_moving_averages r = calculate_moving_averages df.
Proof.
  intro U. cbv zeta. unfold get_enhanced_technical_indicators.
  cbn [usable_history] in U. rewrite U.
  split; [|split; [|split; [|repeat split]]].
  - intros v E. rewrite E. cbn [is_some source app macd_dict_of macd_nonempty is_missing
                                  macd_macd macd_signal macd_histogram andb negb orb].
    rewrite !andb_false_r. reflexivity.
  - intros rsi E Hnz. rewrite E.
    assert (N : nonzero (Some rsi) = Some rsi).
    { unfold nonzero. destruct (is_true rsi) eqn:T; [reflexivity|].
      cmp_facts. contradiction. }
    rewrite N. cbn [is_some negb]. rewrite !andb_false_r. reflexivity.
  - intros rsi E Hz. rewrite E.
    assert (N : nonzero (Some rsi) = None).
    { unfold nonzero. destruct (is_true rsi) eqn:T; [|reflexivity].
      cmp_facts. contradiction. }
    rewrite N. cbn [is_some negb]. rewrite orb_true_r, orb_true_l.
    cbn [andb er_rsi]. destruct (nonzero (tr_rsi api_result)); reflexivity.
Qed.

(** X25. What was calculated from a usable history is never replaced by
    the API: the MACD, the Bollinger bands, the stochastic, the ADX and the
    moving averages of the result are the calculated ones, and so is an RSI
    that is not 0.  A calculated RSI of exactly 0 is dropped, and the RSI of
    the API (when not 0) takes its place. *)
Theorem calculated_values_win (df : dataframe) (api_result : technical_result) :
  usable_history (Some df) = true ->
  let r := get_enhanced_technical_indicators (Some df) api_result in
  (forall v, calculate_macd_from_prices df = Some v -> er_macd r = macd_dict_of v)
  /\ (forall rsi, calculate_rsi_from_prices df = Some rsi -> ~ rsi == 0 ->
      er_rsi r = Some rsi)
  /\ (forall rsi, calculate_rsi_from_prices df = Some rsi -> rsi == 0 ->
      er_rsi r = nonzero (tr_rsi api_result))
  /\ er_bollinger r = calculate_bollinger_bands df
  /\ er_stochastic r = calculate_stochastic df
  /\ er_adx r = calculate_adx df
  /\ er_moving_averages r = calculate_moving_averages df.
Proof. exact (calculated_values_spec df api_result). Qed.

Lemma calculated_values_win_witness :
  er_rsi (get_enhanced_technical_indicators
            (Some {| df_empty := false; df_len := 60;
                     calculate_macd_from_prices := None;
                     calculate_rsi_from_prices := Some 0;
                     calculate_bollinger_bands := None; calculate_stochastic := None;
                     calculate_adx := None; calculate_moving_averages := None;
                     calculate_atr := None; calculate_obv := None |})
            {| tr_success := true; tr_rsi := Some 25; tr_macd := empty_macd;
               tr_quote := None; tr_errors := None |})
  = Some 25.
Proof.
  destruct (calculated_values_win
              {| df_empty := false; df_len := 60;
                 calculate_macd_from_prices := None;
                 calculate_rsi_from_prices := Some 0;
                 calculate_bollinger_bands := None; calculate_stochastic := None;
                 calculate_adx := None; calculate_moving_averages := None;
                 calculate_atr := None; calculate_obv := None |}
              {| tr_success := true; tr_rsi := Some 25; tr_macd := empty_macd;
                 tr_quote := None; tr_errors := None |} eq_refl)
    as (_ & _ & Z & _).
  apply (Z 0 eq_refl). reflexivity.
Defined.

End Enhanced.

(** ** The callers *)

Section Callers.

Import NewsApi MarketData EnhancedIndicators.

Lemma has_articles_of_news (r : response) :
  exists some,
    has_articles (if nr_success (get_news r) then get_default (nr_count (get_news r)) 0%Z
                  else Some 0%Z) = Ok some.
Proof.
  destruct (get_news_counted r) as [Hs Hf].
  destruct (nr_success (get_news r)).
  - rewrite (Hs eq_refl). eexists. reflexivity.
  - eexists. reflexivity.
Qed.

Lemma news_of_get_news_counted (r : response) :
  news_counted (Some (news_data_of (get_news r))) = true.
Proof.
  unfold news_counted, SignalEngine.read_news_count, news_data_of.
  cbn [news_success news_count_entry].
  destruct (get_news_counted r) as [Hs Hf].
  destruct (nr_success (get_news r)); [rewrite (Hs eq_refl)|]; reflexivity.
Qed.

(** The sentiment either caller passes on can always be read. *)
Lemma caller_sentiment_well_formed (loaded : option SentimentAnalyzer.pipeline_t)
    (l : list string) (replace : bool) :
  let r := get_sentiment_score loaded (Headlines l) in
  let sd := if replace then neutral_sentiment_result
            else sentiment_data_of r in
  (negb (sd_success sd)
   || match sd_sentiment sd with
      | Missing => true
      | IsNone => false
      | Bound s => negb (is_none (sent_overall_score s))
      end) = true.
Proof.
  cbv zeta. destruct replace; [reflexivity|].
  destruct (get_sentiment_score_spec loaded (Headlines l)) as [a ->]. reflexivity.
Qed.

(** The module-level [generate_signal] on a well-formed snapshot. *)
Lemma generate_signal_answers (symbol : string) (td : technical_dict)
    (sd : sentiment_data_dict) (nd : option news_dict) (pd : option price_dict)
    (std : option stats_data_dict) :
  well_formed td sd nd std = true ->
  exists r,
    SignalEngine.generate_signal SIGNAL_RULES td sd nd pd std = Ok r
    /\ generate_signal symbol td sd nd pd std
       = {| resp_success := true; resp_symbol := symbol; resp_signal := res_signal r;
            resp_confidence := res_confidence r; resp_reasons := res_reasons r;
            resp_risk_level := res_risk_level r; resp_error := None;
            resp_result := Some r |}.
Proof.
  intro W. destruct (well_formed_total SIGNAL_RULES td sd nd pd std W) as [r E].
  exists r. split; [exact E|]. apply generate_signal_success. exact E.
Qed.

(** X26. [analyze_stock] of the command line never fails to generate a
    signal.  With the news of [get_news] it raises only while printing a
    quote whose price, change or percentage is [None]; otherwise its signal
    is a success for the upper-cased symbol, never ERROR, without a
    swing-trade plan, and with a risk that is High for SELL and Low
    otherwise. *)
Theorem analyze_stock_answers (symbol : string) (news : response)
    (loaded : option SentimentAnalyzer.pipeline_t) (quote_result : quote_result)
    (rsi_result rsi_result_av : rsi_result) (macd_result macd_result_av : macd_result) :
  let run := analyze_stock symbol (get_news news) loaded quote_result rsi_result
               rsi_result_av macd_result macd_result_av in
  let quote := if qr_success quote_result then qr_data quote_result else None in
  (forall e, run = Raise e <-> print_quote quote = Raise e)
  /\ (forall response, run = Ok response ->
      resp_success response = true
      /\ resp_symbol response = upper symbol
      /\ resp_signal response <> ERROR
      /\ exists r, resp_result response = Some r
                   /\ resp_signal response = res_signal r
                   /\ res_swing_trade r = None
                   /\ (res_signal r = SELL -> resp_risk_level response = High)
                   /\ (res_signal r <> SELL -> resp_risk_level response = Low)).
Proof.
  cbv zeta. unfold analyze_stock.
  destruct (has_articles_of_news news) as [some ->]. cbn [bind].
  set (tr := get_technical_indicators quote_result rsi_result rsi_result_av
               macd_result macd_result_av).
  assert (Q : tr_quote tr = (if qr_success quote_result then qr_data quote_result else None)).
  { unfold tr, get_technical_indicators.
    destruct (rr_success rsi_result), (rr_success rsi_result_av),
      (mr_success macd_result), (mr_success macd_result_av); reflexivity. }
  assert (S : tr_success tr = false -> tr_quote tr = None).
  { unfold tr, get_technical_indicators.
    destruct (qr_success quote_result), (qr_data quote_result),
      (rr_success rsi_result), (rr_success rsi_result_av),
      (mr_success macd_result), (mr_success macd_result_av);
      cbn [negb tr_success tr_quote]; intro H; try reflexivity;
      repeat match type of H with
             | match ?x with _ => _ end = false => destruct x
             end; discriminate H. }
  assert (P : (if tr_success tr then print_quote (tr_quote tr) else Ok tt)
              = print_quote (tr_quote tr)).
  { destruct (tr_success tr); [reflexivity|]. rewrite (S eq_refl). reflexivity. }
  rewrite P, Q.
  set (sd := if some then _ else neutral_sentiment_result).
  assert (W : well_formed (technical_data_of tr) sd (Some (news_data_of (get_news news)))
                None = true).
  { unfold well_formed. cbn [technical_data_of td_macd td_bollinger td_moving_averages
                               is_none negb andb].
    rewrite news_of_get_news_counted, andb_true_r, andb_true_r.
    unfold sd. destruct some; [|reflexivity].
    pose proof (caller_sentiment_well_formed loaded
                  (headlines_of (get_news news))) as C. cbv zeta in C.
    destruct (sr_success (get_sentiment_score loaded
                            (Headlines (headlines_of (get_news news))))) eqn:E.
    - specialize (C false). cbn [negb] in C. cbn beta iota in C. exact C.
    - reflexivity. }
  destruct (generate_signal_answers (upper symbol) _ _ _ None None W) as (r & E & G).
  rewrite G.
  destruct (call_without_price (upper symbol) (technical_data_of tr) sd
              (Some (news_data_of (get_news news))) r) as (_ & Hp & Hs & Hl & _).
  { rewrite G. reflexivity. }
  assert (NE : res_signal r <> ERROR).
  { destruct (generate_signal_scored _ _ _ _ _ _ _ E)
      as (reasons & buy & sell & _ & _ & _ & _ & Hsig & _).
    rewrite Hsig. unfold SignalEngine.resolve.
    repeat match goal with
           | |- context [if ?c then _ else _] => destruct c
           end; discriminate. }
  destruct (print_quote (if qr_success quote_result then qr_data quote_result else None))
    as [[]|e'] eqn:D; cbn [bind].
  - split.
    + intro e. split; intro X; discriminate X.
    + intros response X. inversion X; subst response; clear X.
      cbn [resp_success resp_symbol resp_signal resp_result resp_risk_level].
      split; [reflexivity|]. split; [reflexivity|]. split; [exact NE|].
      exists r. repeat split; assumption.
  - split.
    + intro e. split; intro X; inversion X; reflexivity.
    + intros response X. discriminate X.
Qed.

(** X27. [analyze_stock_web] of the enhanced app without a usable price
    history: once a live price (not 0) was fetched, the only signal it can
    show is SELL; every BUY and HOLD is reported as ERROR, because the
    Bollinger bands and the moving averages of the snapshot are [None]. *)
Theorem analyze_stock_web_without_history (symbol : string) (price_data : price_dict)
    (price : Q) (news : response) (loaded : option SentimentAnalyzer.pipeline_t)
    (hist_success : bool) (hist_data : dataframe) (api_result : technical_result)
    (stats_result : stats_data_dict) :
  pd_price price_data = Bound price ->
  ~ price == 0 ->
  usable_history (if hist_success then Some hist_data else None) = false ->
  exists response,
    analyze_stock_web symbol true price_data (get_news news) loaded hist_success
      hist_data api_result stats_result = Ok response
    /\ (resp_signal response = SELL
        \/ (resp_success response = false /\ resp_signal response = ERROR)).
Proof.
  intros Hp Hnz U. unfold analyze_stock_web.
  assert (A : exists some,
             (if nr_success (get_news news) then
                has_articles (get_default (nr_count (get_news news)) 0%Z)
              else Ok false) = Ok some).
  { destruct (get_news_counted news) as [Hs _].
    destruct (nr_success (get_news news)); [rewrite (Hs eq_refl)|]; eexists; reflexivity. }
  destruct A as [some ->]. cbn [bind].
  eexists. split; [reflexivity|].
  apply (none_bands_response symbol _ _ _ price_data _ price Hp Hnz).
  left. cbn [enhanced_data_of td_bollinger].
  destruct (indicators_need_history_spec _ api_result U) as (-> & _). reflexivity.
Qed.

Lemma analyze_stock_web_without_history_witness :
  exists response,
    analyze_stock_web "AAPL" true
      {| pd_price := Bound 100; pd_change_percent := Bound 1.5; pd_volume := Missing |}
      (get_news NoApiKey) None false
      {| df_empty := true; df_len := 0; calculate_macd_from_prices := None;
         calculate_rsi_from_prices := None; calculate_bollinger_bands := None;
         calculate_stochastic := None; calculate_adx := None;
         calculate_moving_averages := None; calculate_atr := None;
         calculate_obv := None |}
      {| tr_success := true; tr_rsi := Some 25; tr_macd := empty_macd;
         tr_quote := None; tr_errors := None |}
      {| sdd_success := false; sdd_data := IsNone |} = Ok response
    /\ resp_success response = false /\ resp_signal response = ERROR.
Proof.
  destruct (analyze_stock_web_without_history "AAPL"
              {| pd_price := Bound 100; pd_change_percent := Bound 1.5;
                 pd_volume := Missing |} 100 NoApiKey None false
              {| df_empty := true; df_len := 0; calculate_macd_from_prices := None;
                 calculate_rsi_from_prices := None; calculate_bollinger_bands := None;
                 calculate_stochastic := None; calculate_adx := None;
                 calculate_moving_averages := None; calculate_atr := None;
                 calculate_obv := None |}
              {| tr_success := true; tr_rsi := Some 25; tr_macd := empty_macd;
                 tr_quote := None; tr_errors := None |}
              {| sdd_success := false; sdd_data := IsNone |} eq_refl)
    as (response & E & [S | F]).
  - intro Z. discriminate Z.
  - reflexivity.
  - exists response. split; [exact E|].
    vm_compute in E. inversion E; subst response. discriminate S.
  - exists response. split; [exact E | exact F].
Defined.

(** X28. [analyze_stock_web] with a usable history from which the
    Bollinger bands and the moving averages were calculated: whatever the
    price, the news of [get_news], the model, the other indicators and the
    API, the signal is a success (never ERROR), provided the statistics,
    when they are a success, carry their data. *)
Theorem analyze_stock_web_answers (symbol : string) (price_success : bool)
    (price_data : price_dict) (news : response)
    (loaded : option SentimentAnalyzer.pipeline_t) (hist_data : dataframe)
    (api_result : technical_result) (stats_result : stats_data_dict) :
  usable_history (Some hist_data) = true ->
  calculate_bollinger_bands hist_data <> None ->
  calculate_moving_averages hist_data <> None ->
  (sdd_success stats_result = true -> is_none (sdd_data stats_result) = false) ->
  exists response,
    analyze_stock_web symbol price_success price_data (get_news news) loaded true
      hist_data api_result stats_result = Ok response
    /\ resp_success response = true
    /\ resp_signal response <> ERROR.
Proof.
  intros U Hb Hm Hs. unfold analyze_stock_web.
  assert (A : exists some,
             (if nr_success (get_news news) then
                has_articles (get_default (nr_count (get_news news)) 0%Z)
              else Ok false) = Ok some).
  { destruct (get_news_counted news) as [Hc _].
    destruct (nr_success (get_news news)); [rewrite (Hc eq_refl)|]; eexists; reflexivity. }
  destruct A as [some ->]. cbn [bind].
  eexists. split; [reflexivity|].
  set (er := get_enhanced_technical_indicators (Some hist_data) api_result).
  set (sd := if some then _ else neutral_sentiment_result).
  assert (W : well_formed (enhanced_data_of er) sd (Some (news_data_of (get_news news)))
                (Some stats_result) = true).
  { destruct (calculated_values_spec hist_data api_result U)
      as (_ & _ & _ & Eb & _ & _ & Em).
    fold er in Eb, Em.
    unfold well_formed. cbn [enhanced_data_of td_macd td_bollinger td_moving_averages].
    rewrite Eb, Em.
    destruct (calculate_bollinger_bands hist_data) as [bb|]; [|elim Hb; reflexivity].
    destruct (calculate_moving_averages hist_data) as [ma|]; [|elim Hm; reflexivity].
    cbn [option_map of_option is_none negb andb bollinger_percent_b].
    rewrite news_of_get_news_counted, andb_true_r.
    apply andb_true_intro. split.
    - unfold sd. destruct some; [|reflexivity].
      exact (caller_sentiment_well_formed loaded (headlines_of (get_news news)) false).
    - destruct (sdd_success stats_result); [|reflexivity].
      rewrite (Hs eq_refl). reflexivity. }
  destruct (generate_signal_answers symbol _ _ _
              (Some (if price_success then price_data else empty_price))
              (Some stats_result) W) as (r & E & G).
  rewrite G. cbn [resp_success resp_signal]. split; [reflexivity|].
  destruct (generate_signal_scored _ _ _ _ _ _ _ E)
    as (reasons & buy & sell & _ & _ & _ & _ & Hsig & _).
  rewrite Hsig. unfold SignalEngine.resolve.
  repeat match goal with
         | |- context [if ?c then _ else _] => destruct c
         end; discriminate.
Qed.

Lemma analyze_stock_web_answers_witness :
  exists response,
    analyze_stock_web "AAPL" true
      {| pd_price := Bound 100; pd_change_percent := Bound 1.5; pd_volume := Missing |}
      (get_news NoApiKey) None true
      {| df_empty := false; df_len := 60; calculate_macd_from_prices := None;
         calculate_rsi_from_prices := Some 25;
         calculate_bollinger_bands :=
           Some {| bv_upper := 110; bv_middle := 100; bv_lower := 90;
                   bv_percent_b := 0.5 |};
         calculate_stochastic := None; calculate_adx := None;
         calculate_moving_averages :=
           Some {| mav_ema_12 := 100; mav_ema_26 := 99; mav_ema_50 := Some 98;
                   mav_sma_20 := 99; mav_sma_50 := Some 97; mav_sma_200 := None;
                   mav_price := 100; mav_above_sma_20 := true;
                   mav_above_sma_50 := Some true; mav_above_sma_200 := None |};
         calculate_atr := None; calculate_obv := None |}
      {| tr_success := false; tr_rsi := None; tr_macd := empty_macd;
         tr_quote := None; tr_errors := None |}
      {| sdd_success := false; sdd_data := IsNone |} = Ok response
    /\ resp_success response = true.
Proof.
  destruct (analyze_stock_web_answers "AAPL" true
              {| pd_price := Bound 100; pd_change_percent := Bound 1.5;
                 pd_volume := Missing |}
              NoApiKey None
              {| df_empty := false; df_len := 60; calculate_macd_from_prices := None;
                 calculate_rsi_from_prices := Some 25;
                 calculate_bollinger_bands :=
                   Some {| bv_upper := 110; bv_middle := 100; bv_lower := 90;
                           bv_percent_b := 0.5 |};
                 calculate_stochastic := None; calculate_adx := None;
                 calculate_moving_averages :=
                   Some {| mav_ema_12 := 100; mav_ema_26 := 99; mav_ema_50 := Some 98;
                           mav_sma_20 := 99; mav_sma_50 := Some 97; mav_sma_200 := None;
                           mav_price := 100; mav_above_sma_20 := true;
                           mav_above_sma_50 := Some true; mav_above_sma_200 := None |};
                 calculate_atr := None; calculate_obv := None |}
              {| tr_success := false; tr_rsi := None; tr_macd := empty_macd;
                 tr_quote := None; tr_errors := None |}
              {| sdd_success := false; sdd_data := IsNone |} eq_refl)
    as (response & E & S & _).
  - discriminate.
  - discriminate.
  - discriminate.
  - exists response. split; assumption.
Defined.

End Callers.

(** ** Concrete runs of the callers *)

Section CallerRuns.

Import NewsApi MarketData.

(** Five headlines, one of them positive: the analyzer calls the news
    neutral (an overall score of 0.1 is not above 0.1), and the engine scores
    it as moderately positive (0.1 is at least 0.1). *)
Example neutral_news_is_scored :
  let sentiment :=
    get_sentiment_score None
      (Headlines ["Profit"; "the market"; "stock today"; "Apple shares"; "and outlook"]) in
  let technical :=
    {| td_rsi := IsNone; td_macd := Bound empty_macd; td_bollinger := Missing;
       td_stochastic := Missing; td_adx := Missing; td_moving_averages := Missing;
       td_atr := Missing |} in
  option_map SentimentAnalyzer.agg_label (sr_sentiment sentiment) = Some "neutral"
  /\ exists r,
       resp_result (generate_signal "AAPL" technical (sentiment_data_of sentiment)
                      None None None) = Some r
       /\ res_signal r = HOLD
       /\ res_buy_score r == 0.1
       /\ res_reasons r = ["⚠️ Missing data: RSI, MACD";
                           "⊙ Mixed signals - wait for clearer direction";
                           "Bullish: ○ Moderately positive sentiment (0.10)"].
Proof.
  cbv zeta. split; [vm_compute; reflexivity|].
  eexists. vm_compute. repeat split; try reflexivity; discriminate.
Qed.

(** The command line on a symbol with one bullish headline, an oversold RSI
    and a bullish MACD from FMP. *)
Example analyze_stock_buy :
  let article title :=
    {| raw_title := title; raw_description := Missing;
       raw_publishedAt := Bound "2024-01-01"; raw_url := Missing;
       raw_source := Missing |} in
  let news :=
    get_news (Json true Missing
                (Bound [article (Bound "Shares SURGE after record profit");
                        article (Bound ""); article IsNone])) in
  let quote :=
    {| qr_success := true;
       qr_data := Some {| quote_symbol := Some "AAPL"; quote_price := Some 100;
                          quote_change := Some 1; quote_changesPercentage := Some 1;
                          quote_volume := Some 10; quote_marketCap := Some 1;
                          quote_timestamp := Some 1 |};
       qr_error := None |} in
  let rsi := {| rr_success := true; rr_rsi := Some 25; rr_error := None |} in
  let rsi_av := {| rr_success := false; rr_rsi := None; rr_error := Some "x" |} in
  let macd :=
    {| mr_success := true; mr_macd := Some 1.2; mr_signal := Some 0.5;
       mr_histogram := Some 0.3; mr_error := None |} in
  let macd_av :=
    {| mr_success := false; mr_macd := None; mr_signal := None; mr_histogram := None;
       mr_error := Some "x" |} in
  exists response,
    analyze_stock "aapl" news None quote rsi rsi_av macd macd_av = Ok response
    /\ resp_symbol response = "AAPL"
    /\ resp_signal response = BUY
    /\ resp_confidence response == 0.7875
    /\ resp_risk_level response = Low
    /\ resp_reasons response = ["✓ Strong positive sentiment (0.75)";
                                "✓ RSI strongly oversold (25.0 - great entry point)";
                                "✓ Strong MACD bullish crossover (Δ 0.70)";
                                "✓ MACD histogram positive (0.30)";
                                "📰 3 recent articles analyzed"].
Proof.
  cbv zeta. eexists. vm_compute. repeat split; try reflexivity; discriminate.
Qed.

End CallerRuns.
